(** * cron-builder: a shallow embedding of [src/cron_builder.py]

    The Python module is embedded as it is written:
    - Python integers are unbounded, so they are [Z];
    - [CronExpr] is a frozen dataclass: a plain value (a tag string and a
      tuple of integers);
    - [CronField] and [CronBuilder] are mutable objects: they live in a store
      and are handled through references, so that in-place mutation and the
      sharing of fields between builders are visible;
    - exceptions are a result type threaded through a state monad; what was
      written to the store before a [raise] stays written, as in Python;
    - [warnings.warn] appends to a log kept in the store. *)

From Stdlib Require Import ZArith String List Bool Lia.
From stdpp Require Import base tactics option list strings pretty.

Open Scope string_scope.
Open Scope list_scope.
Open Scope Z_scope.

(** ** The Python runtime the module relies on *)

(** The exceptions the module can raise. [ValueError] carries its message;
    [UnpackError] is the [ValueError] of a tuple unpacking of the wrong
    length; [BadRef] is the dereference of a reference the store does not
    hold, which no Python program can produce. *)
Inductive exn : Type :=
  | ValueError (msg : string)
  | UnpackError
  | IndexError
  | ZeroDivisionError
  | BadRef.

Inductive result (A : Type) : Type :=
  | Ok (a : A)
  | Raise (e : exn).
Arguments Ok {A} a.
Arguments Raise {A} e.

Definition result_bind {A B} (r : result A) (k : A -> result B) : result B :=
  match r with
  | Ok a => k a
  | Raise e => Raise e
  end.

(** [str(n)] on an integer. *)
Definition str (n : Z) : string := pretty n.

(** [t[i]] on a tuple, for a non-negative index. *)
Definition tuple_index (t : list Z) (i : nat) : result Z :=
  match t !! i with
  | Some v => Ok v
  | None => Raise IndexError
  end.

(** [a, b = t] on a tuple. *)
Definition unpack2 (t : list Z) : result (Z * Z) :=
  match t with
  | [a; b] => Ok (a, b)
  | _ => Raise UnpackError
  end.

(** [a % b]: the result has the sign of the divisor, as [Z.modulo]. *)
Definition py_mod (a b : Z) : result Z :=
  if b =? 0 then Raise ZeroDivisionError else Ok (a `mod` b).

(** [sep.join(parts)]. *)
Definition join (sep : string) (parts : list string) : string :=
  String.concat sep parts.

(** ** The enumerations *)

Module Weekday.
Inductive t : Type :=
  | SUNDAY | MONDAY | TUESDAY | WEDNESDAY | THURSDAY | FRIDAY | SATURDAY.

Definition value (d : t) : Z :=
  match d with
  | SUNDAY => 0
  | MONDAY => 1
  | TUESDAY => 2
  | WEDNESDAY => 3
  | THURSDAY => 4
  | FRIDAY => 5
  | SATURDAY => 6
  end.

(** An [IntEnum] name with the value of an earlier one is an alias of it. *)
Definition SUN := SUNDAY.
Definition MON := MONDAY.
Definition TUE := TUESDAY.
Definition WED := WEDNESDAY.
Definition THU := THURSDAY.
Definition FRI := FRIDAY.
Definition SAT := SATURDAY.
End Weekday.

Module Month.
Inductive t : Type :=
  | JANUARY | FEBRUARY | MARCH | APRIL | MAY | JUNE
  | JULY | AUGUST | SEPTEMBER | OCTOBER | NOVEMBER | DECEMBER.

Definition value (m : t) : Z :=
  match m with
  | JANUARY => 1
  | FEBRUARY => 2
  | MARCH => 3
  | APRIL => 4
  | MAY => 5
  | JUNE => 6
  | JULY => 7
  | AUGUST => 8
  | SEPTEMBER => 9
  | OCTOBER => 10
  | NOVEMBER => 11
  | DECEMBER => 12
  end.

Definition JAN := JANUARY.
Definition FEB := FEBRUARY.
Definition MAR := MARCH.
Definition APR := APRIL.
Definition JUN := JUNE.
Definition JUL := JULY.
Definition AUG := AUGUST.
Definition SEP := SEPTEMBER.
Definition OCT := OCTOBER.
Definition NOV := NOVEMBER.
Definition DEC := DECEMBER.
End Month.

(** An argument typed [Union[int, E]]: a raw integer or a member of the
    enumeration [E]. *)
Inductive int_or (E : Type) : Type :=
  | Int (n : Z)
  | Enum (e : E).
Arguments Int {E} n.
Arguments Enum {E} e.

(** [d.value if isinstance(d, Weekday) else d] *)
Definition weekday_val (d : int_or Weekday.t) : Z :=
  match d with
  | Enum e => Weekday.value e
  | Int n => n
  end.

(** [m.value if isinstance(m, Month) else m] *)
Definition month_val (m : int_or Month.t) : Z :=
  match m with
  | Enum e => Month.value e
  | Int n => n
  end.

(** ** The timestamp: the part of [datetime.datetime] the module reads

    A [datetime] carries a calendar date and a time of day. [weekday()] is the
    standard library's: Monday is 0 and Sunday is 6, computed from the
    proleptic Gregorian ordinal of the date (day 1 is 0001-01-01, a Monday). *)
Module datetime.
Record t : Type := mk {
  year : Z; month : Z; day : Z;
  hour : Z; minute : Z; second : Z
}.

Definition is_leap (y : Z) : bool :=
  (y `mod` 4 =? 0) && (negb (y `mod` 100 =? 0) || (y `mod` 400 =? 0)).

Definition days_in_month (y m : Z) : Z :=
  if m =? 2 then (if is_leap y then 29 else 28)
  else if (m =? 4) || (m =? 6) || (m =? 9) || (m =? 11) then 30
  else 31.

Definition days_before_year (y : Z) : Z :=
  let p := y - 1 in p * 365 + p `div` 4 - p `div` 100 + p `div` 400.

Definition days_before_month (y m : Z) : Z :=
  nth (Z.to_nat m) [0; 0; 31; 59; 90; 120; 151; 181; 212; 243; 273; 304; 334] 0
  + (if (2 <? m) && is_leap y then 1 else 0).

Definition toordinal (d : t) : Z :=
  days_before_year (year d) + days_before_month (year d) (month d) + day d.

Definition weekday (d : t) : Z := (toordinal d + 6) `mod` 7.

(** The dates a [datetime] object can hold: the constructor rejects any
    other. *)
Definition valid (d : t) : bool :=
  (1 <=? year d) && (year d <=? 9999)
  && (1 <=? month d) && (month d <=? 12)
  && (1 <=? day d) && (day d <=? days_in_month (year d) (month d))
  && (0 <=? hour d) && (hour d <=? 23)
  && (0 <=? minute d) && (minute d <=? 59)
  && (0 <=? second d) && (second d <=? 59).

(** [datetime(y, m, d)]: midnight of that date. *)
Definition date (y m d : Z) : t := mk y m d 0 0 0.
End datetime.

(** ** [CronExpr]: the frozen dataclass *)

Module CronExpr.
Record t : Type := mk { kind : string; values : list Z }.

Definition matches (self : t) (actual : Z) : result bool :=
  if String.eqb (kind self) "any" then Ok true
  else if String.eqb (kind self) "value" then
    result_bind (tuple_index (values self) 0) (fun v0 =>
    Ok (actual =? v0))
  else if String.eqb (kind self) "list" then
    Ok (existsb (Z.eqb actual) (values self))
  else if String.eqb (kind self) "range" then
    result_bind (tuple_index (values self) 0) (fun v0 =>
    if v0 <=? actual then
      result_bind (tuple_index (values self) 1) (fun v1 =>
      Ok (actual <=? v1))
    else Ok false)
  else if String.eqb (kind self) "step" then
    result_bind (unpack2 (values self)) (fun '(start, step) =>
    if start =? -1 then
      result_bind (py_mod actual step) (fun r => Ok (r =? 0))
    else if actual >=? start then
      result_bind (py_mod (actual - start) step) (fun r => Ok (r =? 0))
    else Ok false)
  else Ok false.

Definition to_cron_str (self : t) : result string :=
  if String.eqb (kind self) "any" then Ok "*"
  else if String.eqb (kind self) "value" then
    result_bind (tuple_index (values self) 0) (fun v0 =>
    Ok (str v0))
  else if String.eqb (kind self) "list" then
    Ok (join "," (map str (values self)))
  else if String.eqb (kind self) "range" then
    result_bind (tuple_index (values self) 0) (fun v0 =>
    result_bind (tuple_index (values self) 1) (fun v1 =>
    Ok (str v0 +:+ "-" +:+ str v1)))
  else if String.eqb (kind self) "step" then
    result_bind (unpack2 (values self)) (fun '(start, step) =>
    if start =? -1 then Ok ("*/" +:+ str step)
    else Ok (str start +:+ "/" +:+ str step))
  else Ok "*".
End CronExpr.

(** ** The store and the monad of Python computations *)

(** References are indices into the store. *)
Abbreviation loc := nat (only parsing).

Module CronFieldObj.
(** The attributes of a [CronField] object. *)
Record t : Type := mk {
  min_val : Z;
  max_val : Z;
  name : string;
  immutable : bool;
  expr : CronExpr.t
}.
End CronFieldObj.

Module CronBuilderObj.
(** The attributes of a [CronBuilder] object; the five fields are
    references to [CronField] objects. *)
Record t : Type := mk {
  immutable : bool;
  minute : loc;
  hour : loc;
  day_of_month : loc;
  month : loc;
  day_of_week : loc;
  _conjunction : option (string * Z)
}.
End CronBuilderObj.

(** The state of the interpreter: the [CronField] objects, the
    [CronBuilder] objects, and the warnings emitted so far. *)
Record store : Type := Store {
  field_objs : list CronFieldObj.t;
  builder_objs : list CronBuilderObj.t;
  warned : list string
}.

Definition empty_store : store := Store [] [] [].

Definition M (A : Type) : Type := store -> result A * store.

#[global] Instance M_ret : MRet M := fun A a s => (Ok a, s).
#[global] Instance M_bind : MBind M := fun A B k m s =>
  match m s with
  | (Ok a, s') => k a s'
  | (Raise e, s') => (Raise e, s')
  end.

Definition raise {A} (e : exn) : M A := fun s => (Raise e, s).

(** A pure computation that may raise. *)
Definition lift {A} (r : result A) : M A := fun s => (r, s).

(** [warnings.warn(msg, UserWarning)] under the default filters: the message
    is reported and execution goes on. *)
Definition warn (msg : string) : M unit :=
  fun s => (Ok tt, Store (field_objs s) (builder_objs s) (warned s ++ [msg])).

Definition new_field (f : CronFieldObj.t) : M loc :=
  fun s => (Ok (length (field_objs s)),
            Store (field_objs s ++ [f]) (builder_objs s) (warned s)).

Definition get_field (l : loc) : M CronFieldObj.t :=
  fun s => match field_objs s !! l with
           | Some f => (Ok f, s)
           | None => (Raise BadRef, s)
           end.

Definition put_field (l : loc) (f : CronFieldObj.t) : M unit :=
  fun s => match field_objs s !! l with
           | Some _ => (Ok tt, Store (<[l := f]> (field_objs s)) (builder_objs s) (warned s))
           | None => (Raise BadRef, s)
           end.

Definition new_builder (b : CronBuilderObj.t) : M loc :=
  fun s => (Ok (length (builder_objs s)),
            Store (field_objs s) (builder_objs s ++ [b]) (warned s)).

Definition get_builder (l : loc) : M CronBuilderObj.t :=
  fun s => match builder_objs s !! l with
           | Some b => (Ok b, s)
           | None => (Raise BadRef, s)
           end.

Definition put_builder (l : loc) (b : CronBuilderObj.t) : M unit :=
  fun s => match builder_objs s !! l with
           | Some _ => (Ok tt, Store (field_objs s) (<[l := b]> (builder_objs s)) (warned s))
           | None => (Raise BadRef, s)
           end.

(** [for x in xs: body(x)] *)
Fixpoint for_each {A} (xs : list A) (body : A -> M unit) : M unit :=
  match xs with
  | [] => mret tt
  | x :: xs' => body x ≫= fun _ => for_each xs' body
  end.

(** ** [CronField]: the methods *)

Module CronField.
Import CronFieldObj.

Definition __init__ (min_val max_val : Z) (name : string) (immutable : bool) : M loc :=
  new_field (mk min_val max_val name immutable (CronExpr.mk "any" [])).

(** [self.expr = e] *)
Definition set_expr (self : loc) (e : CronExpr.t) : M unit :=
  f ← get_field self;
  put_field self (mk (min_val f) (max_val f) (name f) (immutable f) e).

Definition _validate_value (self : loc) (val : Z) : M unit :=
  f ← get_field self;
  if negb ((min_val f <=? val) && (val <=? max_val f)) then
    raise (ValueError (name f +:+ " must be between " +:+ str (min_val f)
                       +:+ " and " +:+ str (max_val f) +:+ ", got " +:+ str val))
  else mret tt.

Definition _warn_overwrite (self : loc) (new_expr : CronExpr.t) : M unit :=
  f ← get_field self;
  if negb (String.eqb (CronExpr.kind (expr f)) "any") then
    old ← lift (CronExpr.to_cron_str (expr f));
    new ← lift (CronExpr.to_cron_str new_expr);
    warn (name f +:+ " field overwritten: '" +:+ old +:+ "' -> '" +:+ new +:+ "'")
  else mret tt.

Definition _apply (self : loc) (e : CronExpr.t) : M loc :=
  f ← get_field self;
  if immutable f then
    new_field ← __init__ (min_val f) (max_val f) (name f) (immutable f);
    _ ← set_expr new_field e;
    mret new_field
  else
    _ ← _warn_overwrite self e;
    _ ← set_expr self e;
    mret self.

Definition set_value (self : loc) (val : Z) : M loc :=
  _ ← _validate_value self val;
  _apply self (CronExpr.mk "value" [val]).

Definition set_values (self : loc) (values : list Z) : M loc :=
  _ ← for_each values (fun val => _validate_value self val);
  _apply self (CronExpr.mk "list" values).

Definition set_range (self : loc) (start end_ : Z) : M loc :=
  _ ← _validate_value self start;
  _ ← _validate_value self end_;
  if start >? end_ then
    raise (ValueError ("Range start (" +:+ str start +:+ ") must be <= end ("
                       +:+ str end_ +:+ ")"))
  else _apply self (CronExpr.mk "range" [start; end_]).

(** [set_interval(interval, start=-1)]: an omitted [start] is [None]
    here and takes the default. *)
Definition set_interval (self : loc) (interval : Z) (start_arg : option Z) : M loc :=
  let start := default (-1) start_arg in
  if interval <=? 0 then
    raise (ValueError ("Interval must be positive, got " +:+ str interval))
  else
    _ ← (if negb (start =? -1) then _validate_value self start else mret tt);
    _apply self (CronExpr.mk "step" [start; interval]).

Definition set_any (self : loc) : M loc :=
  _apply self (CronExpr.mk "any" []).

Definition matches (self : loc) (actual : Z) : M bool :=
  f ← get_field self;
  lift (CronExpr.matches (expr f) actual).

Definition __str__ (self : loc) : M string :=
  f ← get_field self;
  lift (CronExpr.to_cron_str (expr f)).
End CronField.

(** ** [CronBuilder]: the methods *)

Module CronBuilder.
Import CronBuilderObj.

Definition __init__ (immutable : bool) : M loc :=
  minute ← CronField.__init__ 0 59 "minute" immutable;
  hour ← CronField.__init__ 0 23 "hour" immutable;
  day_of_month ← CronField.__init__ 1 31 "day_of_month" immutable;
  month ← CronField.__init__ 1 12 "month" immutable;
  day_of_week ← CronField.__init__ 0 6 "day_of_week" immutable;
  new_builder (mk immutable minute hour day_of_month month day_of_week None).

(** The keyword arguments [**fields] of [_copy_with]: a dictionary over
    the attribute names, each present or not. *)
Record kwargs : Type := Kwargs {
  kw_minute : option loc;
  kw_hour : option loc;
  kw_day_of_month : option loc;
  kw_month : option loc;
  kw_day_of_week : option loc;
  kw__conjunction : option (option (string * Z))
}.

Definition no_kwargs : kwargs := Kwargs None None None None None None.
Definition minute_kw (f : loc) : kwargs := Kwargs (Some f) None None None None None.
Definition hour_kw (f : loc) : kwargs := Kwargs None (Some f) None None None None.
Definition day_of_month_kw (f : loc) : kwargs := Kwargs None None (Some f) None None None.
Definition month_kw (f : loc) : kwargs := Kwargs None None None (Some f) None None.
Definition day_of_week_kw (f : loc) : kwargs := Kwargs None None None None (Some f) None.
Definition _conjunction_kw (c : string * Z) : kwargs :=
  Kwargs None None None None None (Some (Some c)).

(** The attributes after [fields.get(name, <attribute of b>)] for each
    name; it is also what the [setattr] loop leaves in [b]. *)
Definition with_kwargs (immutable : bool) (b : t) (fields : kwargs) : t :=
  mk immutable
     (default (minute b) (kw_minute fields))
     (default (hour b) (kw_hour fields))
     (default (day_of_month b) (kw_day_of_month fields))
     (default (month b) (kw_month fields))
     (default (day_of_week b) (kw_day_of_week fields))
     (default (_conjunction b) (kw__conjunction fields)).

Definition _copy_with (self : loc) (fields : kwargs) : M loc :=
  b ← get_builder self;
  if negb (immutable b) then
    _ ← put_builder self (with_kwargs (immutable b) b fields);
    mret self
  else
    new ← __init__ true;
    b ← get_builder self;
    _ ← put_builder new (with_kwargs true b fields);
    mret new.

(** [self.<field>.<setter>(...)] followed by [self._copy_with(<field>=...)]:
    the shape of every single-field setter. *)
Definition at_minute (self : loc) (minute : Z) : M loc :=
  b ← get_builder self;
  f ← CronField.set_value (CronBuilderObj.minute b) minute;
  _copy_with self (minute_kw f).

Definition at_minutes (self : loc) (minutes : list Z) : M loc :=
  b ← get_builder self;
  f ← CronField.set_values (minute b) minutes;
  _copy_with self (minute_kw f).

Definition every_minutes (self : loc) (interval : Z) : M loc :=
  b ← get_builder self;
  f ← CronField.set_interval (minute b) interval None;
  _copy_with self (minute_kw f).

Definition minute_range (self : loc) (start end_ : Z) : M loc :=
  b ← get_builder self;
  f ← CronField.set_range (minute b) start end_;
  _copy_with self (minute_kw f).

Definition at_hour (self : loc) (hour : Z) : M loc :=
  b ← get_builder self;
  f ← CronField.set_value (CronBuilderObj.hour b) hour;
  _copy_with self (hour_kw f).

Definition at_hours (self : loc) (hours : list Z) : M loc :=
  b ← get_builder self;
  f ← CronField.set_values (hour b) hours;
  _copy_with self (hour_kw f).

Definition every_hours (self : loc) (interval : Z) : M loc :=
  b ← get_builder self;
  f ← CronField.set_interval (hour b) interval None;
  _copy_with self (hour_kw f).

Definition hour_range (self : loc) (start end_ : Z) : M loc :=
  b ← get_builder self;
  f ← CronField.set_range (hour b) start end_;
  _copy_with self (hour_kw f).

(** [at(hour, minute=0)]; [at] is a keyword of Rocq, hence the name. *)
Definition at_ (self : loc) (hour : Z) (minute : option Z) : M loc :=
  result ← at_hour self hour;
  at_minute result (default 0 minute).

Definition on_dom (self : loc) (day : Z) : M loc :=
  b ← get_builder self;
  f ← CronField.set_value (day_of_month b) day;
  _copy_with self (day_of_month_kw f).

Definition on_doms (self : loc) (days : list Z) : M loc :=
  b ← get_builder self;
  f ← CronField.set_values (day_of_month b) days;
  _copy_with self (day_of_month_kw f).

Definition dom_range (self : loc) (start end_ : Z) : M loc :=
  b ← get_builder self;
  f ← CronField.set_range (day_of_month b) start end_;
  _copy_with self (day_of_month_kw f).

Definition on_day_of_month := on_dom.
Definition on_days_of_month := on_doms.
Definition day_of_month_range := dom_range.

Definition in_month (self : loc) (month : int_or Month.t) : M loc :=
  let month_val := month_val month in
  b ← get_builder self;
  f ← CronField.set_value (CronBuilderObj.month b) month_val;
  _copy_with self (month_kw f).

Definition in_months (self : loc) (months : list (int_or Month.t)) : M loc :=
  let month_values := map month_val months in
  b ← get_builder self;
  f ← CronField.set_values (month b) month_values;
  _copy_with self (month_kw f).

Definition month_range (self : loc) (start end_ : int_or Month.t) : M loc :=
  let start_val := month_val start in
  let end_val := month_val end_ in
  b ← get_builder self;
  f ← CronField.set_range (month b) start_val end_val;
  _copy_with self (month_kw f).

Definition on_dow (self : loc) (day : int_or Weekday.t) : M loc :=
  let day_val := weekday_val day in
  b ← get_builder self;
  f ← CronField.set_value (day_of_week b) day_val;
  _copy_with self (day_of_week_kw f).

Definition on_dows (self : loc) (days : list (int_or Weekday.t)) : M loc :=
  let day_values := map weekday_val days in
  b ← get_builder self;
  f ← CronField.set_values (day_of_week b) day_values;
  _copy_with self (day_of_week_kw f).

Definition on_weekdays (self : loc) : M loc :=
  b ← get_builder self;
  f ← CronField.set_range (day_of_week b) 1 5;
  _copy_with self (day_of_week_kw f).

Definition on_weekends (self : loc) : M loc :=
  b ← get_builder self;
  f ← CronField.set_values (day_of_week b) [0; 6];
  _copy_with self (day_of_week_kw f).

Definition dow_range (self : loc) (start end_ : int_or Weekday.t) : M loc :=
  let start_val := weekday_val start in
  let end_val := weekday_val end_ in
  b ← get_builder self;
  f ← CronField.set_range (day_of_week b) start_val end_val;
  _copy_with self (day_of_week_kw f).

Definition on_day := on_dow.
Definition on_days := on_dows.
Definition day_of_week_range := dow_range.

(** The combinators; an omitted argument is [None] and takes the default
    of the signature. *)
Definition hourly (self : loc) (minute : option Z) : M loc :=
  at_minute self (default 0 minute).

Definition daily (self : loc) (hour minute : option Z) : M loc :=
  at_ self (default 0 hour) (Some (default 0 minute)).

Definition weekly (self : loc) (day : option (int_or Weekday.t))
    (hour minute : option Z) : M loc :=
  r ← at_ self (default 0 hour) (Some (default 0 minute));
  on_dow r (default (Enum Weekday.MONDAY) day).

Definition monthly (self : loc) (day hour minute : option Z) : M loc :=
  r ← at_ self (default 0 hour) (Some (default 0 minute));
  on_dom r (default 1 day).

Definition yearly (self : loc) (month : option (int_or Month.t))
    (day hour minute : option Z) : M loc :=
  r ← at_ self (default 0 hour) (Some (default 0 minute));
  r ← on_dom r (default 1 day);
  in_month r (default (Enum Month.JANUARY) month).

Definition and_dow (self : loc) (day : int_or Weekday.t) : M loc :=
  b ← get_builder self;
  dom ← get_field (day_of_month b);
  if String.eqb (CronExpr.kind (CronFieldObj.expr dom)) "any" then
    raise (ValueError "Must set day_of_month before calling and_dow()")
  else
    let day_val := weekday_val day in
    _ ← warn ("Conjunction created: DOM AND DOW=" +:+ str day_val +:+ ". "
              +:+ "Cron runs on DOM, use should_run() to validate both conditions.");
    _copy_with self (_conjunction_kw ("dow", day_val)).

Definition and_dom (self : loc) (day : Z) : M loc :=
  b ← get_builder self;
  dow ← get_field (day_of_week b);
  if String.eqb (CronExpr.kind (CronFieldObj.expr dow)) "any" then
    raise (ValueError "Must set day_of_week before calling and_dom()")
  else
    _ ← warn ("Conjunction created: DOW AND DOM=" +:+ str day +:+ ". "
              +:+ "Cron runs on DOW, use should_run() to validate both conditions.");
    _copy_with self (_conjunction_kw ("dom", day)).

Definition and_day := and_dow.
Definition and_day_of_month := and_dom.

(** [should_run(check_time=None)]; [now] is what [datetime.now()] would
    return. *)
Definition should_run (now : datetime.t) (self : loc)
    (check_time : option datetime.t) : M bool :=
  b ← get_builder self;
  match _conjunction b with
  | None => mret true
  | Some (conj_type, conj_value) =>
    let dt := default now check_time in
    let dt_weekday := (datetime.weekday dt + 1) `mod` 7 in
    if String.eqb conj_type "dow" then
      m ← CronField.matches (day_of_month b) (datetime.day dt);
      if negb m then mret false
      else mret (dt_weekday =? conj_value)
    else
      m ← CronField.matches (day_of_week b) dt_weekday;
      if negb m then mret false
      else mret (datetime.day dt =? conj_value)
  end.

Definition __call__ (now : datetime.t) (self : loc)
    (check_time : option datetime.t) : M bool :=
  should_run now self check_time.

Definition __str__ (self : loc) : M string :=
  b ← get_builder self;
  minute ← CronField.__str__ (minute b);
  hour ← CronField.__str__ (hour b);
  day_of_month ← CronField.__str__ (day_of_month b);
  month ← CronField.__str__ (month b);
  day_of_week ← CronField.__str__ (day_of_week b);
  mret (minute +:+ " " +:+ hour +:+ " " +:+ day_of_month +:+ " " +:+ month
        +:+ " " +:+ day_of_week).

Definition __repr__ (self : loc) : M string :=
  s ← __str__ self;
  mret ("CronBuilder('" +:+ s +:+ "')").
End CronBuilder.

(** ** Calls of the builder's public surface *)

(** One constructor per public method that returns a builder, with its
    arguments. The aliases ([on_day], [and_day], ...) are the same functions
    under another name. *)
Inductive call : Type :=
  | Call_at_minute (minute : Z)
  | Call_at_minutes (minutes : list Z)
  | Call_every_minutes (interval : Z)
  | Call_minute_range (start end_ : Z)
  | Call_at_hour (hour : Z)
  | Call_at_hours (hours : list Z)
  | Call_every_hours (interval : Z)
  | Call_hour_range (start end_ : Z)
  | Call_at (hour : Z) (minute : option Z)
  | Call_on_dom (day : Z)
  | Call_on_doms (days : list Z)
  | Call_dom_range (start end_ : Z)
  | Call_in_month (month : int_or Month.t)
  | Call_in_months (months : list (int_or Month.t))
  | Call_month_range (start end_ : int_or Month.t)
  | Call_on_dow (day : int_or Weekday.t)
  | Call_on_dows (days : list (int_or Weekday.t))
  | Call_on_weekdays
  | Call_on_weekends
  | Call_dow_range (start end_ : int_or Weekday.t)
  | Call_hourly (minute : option Z)
  | Call_daily (hour minute : option Z)
  | Call_weekly (day : option (int_or Weekday.t)) (hour minute : option Z)
  | Call_monthly (day hour minute : option Z)
  | Call_yearly (month : option (int_or Month.t)) (day hour minute : option Z)
  | Call_and_dow (day : int_or Weekday.t)
  | Call_and_dom (day : Z).

Definition invoke (c : call) (self : loc) : M loc :=
  match c with
  | Call_at_minute m => CronBuilder.at_minute self m
  | Call_at_minutes ms => CronBuilder.at_minutes self ms
  | Call_every_minutes i => CronBuilder.every_minutes self i
  | Call_minute_range a b => CronBuilder.minute_range self a b
  | Call_at_hour h => CronBuilder.at_hour self h
  | Call_at_hours hs => CronBuilder.at_hours self hs
  | Call_every_hours i => CronBuilder.every_hours self i
  | Call_hour_range a b => CronBuilder.hour_range self a b
  | Call_at h m => CronBuilder.at_ self h m
  | Call_on_dom d => CronBuilder.on_dom self d
  | Call_on_doms ds => CronBuilder.on_doms self ds
  | Call_dom_range a b => CronBuilder.dom_range self a b
  | Call_in_month m => CronBuilder.in_month self m
  | Call_in_months ms => CronBuilder.in_months self ms
  | Call_month_range a b => CronBuilder.month_range self a b
  | Call_on_dow d => CronBuilder.on_dow self d
  | Call_on_dows ds => CronBuilder.on_dows self ds
  | Call_on_weekdays => CronBuilder.on_weekdays self
  | Call_on_weekends => CronBuilder.on_weekends self
  | Call_dow_range a b => CronBuilder.dow_range self a b
  | Call_hourly m => CronBuilder.hourly self m
  | Call_daily h m => CronBuilder.daily self h m
  | Call_weekly d h m => CronBuilder.weekly self d h m
  | Call_monthly d h m => CronBuilder.monthly self d h m
  | Call_yearly mo d h m => CronBuilder.yearly self mo d h m
  | Call_and_dow d => CronBuilder.and_dow self d
  | Call_and_dom d => CronBuilder.and_dom self d
  end.

(** The combinators chain several setters; every other call sets one field
    or the conjunction. *)
Definition chained (c : call) : bool :=
  match c with
  | Call_at _ _ | Call_daily _ _ | Call_weekly _ _ _
  | Call_monthly _ _ _ | Call_yearly _ _ _ _ => true
  | _ => false
  end.

(** A chain of calls [b.c1(...).c2(...)...]: each call is made on the
    builder the previous one returned. *)
Fixpoint invoke_chain (cs : list call) (self : loc) : M loc :=
  match cs with
  | [] => mret self
  | c :: cs' => invoke c self ≫= invoke_chain cs'
  end.

(** ** The observable state of a builder *)

Record observation : Type := Obs {
  o_minute : CronExpr.t;
  o_hour : CronExpr.t;
  o_day_of_month : CronExpr.t;
  o_month : CronExpr.t;
  o_day_of_week : CronExpr.t;
  o_conjunction : option (string * Z)
}.

Definition expr_at (s : store) (l : loc) : option CronExpr.t :=
  CronFieldObj.expr <$> field_objs s !! l.

(** The five fields' expressions and the conjunction marker of the builder
    at [self]. *)
Definition observe (s : store) (self : loc) : option observation :=
  b ← builder_objs s !! self;
  mi ← expr_at s (CronBuilderObj.minute b);
  ho ← expr_at s (CronBuilderObj.hour b);
  dm ← expr_at s (CronBuilderObj.day_of_month b);
  mo ← expr_at s (CronBuilderObj.month b);
  dw ← expr_at s (CronBuilderObj.day_of_week b);
  Some (Obs mi ho dm mo dw (CronBuilderObj._conjunction b)).

Definition set_conjunction (o : observation) (c : option (string * Z)) : observation :=
  Obs (o_minute o) (o_hour o) (o_day_of_month o) (o_month o) (o_day_of_week o) c.

(** The expressions the setters build: a known tag, a tuple of the length
    the tag reads, and a positive step. *)
Definition wf_expr (e : CronExpr.t) : bool :=
  if String.eqb (CronExpr.kind e) "any" then true
  else if String.eqb (CronExpr.kind e) "value" then
    match CronExpr.values e with [_] => true | _ => false end
  else if String.eqb (CronExpr.kind e) "list" then true
  else if String.eqb (CronExpr.kind e) "range" then
    match CronExpr.values e with [_; _] => true | _ => false end
  else if String.eqb (CronExpr.kind e) "step" then
    match CronExpr.values e with [_; step] => 0 <? step | _ => false end
  else false.

Definition wf_field (s : store) (immutable : bool) (l : loc) : bool :=
  match field_objs s !! l with
  | Some f => wf_expr (CronFieldObj.expr f)
              && Bool.eqb (CronFieldObj.immutable f) immutable
  | None => false
  end.

Definition wf_conjunction (c : option (string * Z)) : bool :=
  match c with
  | None => true
  | Some (tag, _) => String.eqb tag "dow" || String.eqb tag "dom"
  end.

(** A builder as the constructor and the public methods leave it: its five
    fields are in the store, hold expressions built by the setters and carry
    the builder's own mode flag; the conjunction, if any, is tagged [dow] or
    [dom]. *)
Definition wf_builder (s : store) (self : loc) : bool :=
  match builder_objs s !! self with
  | Some b =>
      let imm := CronBuilderObj.immutable b in
      wf_field s imm (CronBuilderObj.minute b)
      && wf_field s imm (CronBuilderObj.hour b)
      && wf_field s imm (CronBuilderObj.day_of_month b)
      && wf_field s imm (CronBuilderObj.month b)
      && wf_field s imm (CronBuilderObj.day_of_week b)
      && wf_conjunction (CronBuilderObj._conjunction b)
  | None => false
  end.

Definition is_immutable (s : store) (self : loc) : bool :=
  match builder_objs s !! self with
  | Some b => CronBuilderObj.immutable b
  | None => false
  end.

(** [s'] holds every object of [s], unchanged, and possibly new ones. *)
Definition extends (s s' : store) : Prop :=
  field_objs s `prefix_of` field_objs s'
  /\ builder_objs s `prefix_of` builder_objs s'.

(** ** Reference definitions, written from the specification *)

(** The weekday of a timestamp by name, from the standard library's
    numbering (Monday is 0). *)
Definition weekday_name (dt : datetime.t) : Weekday.t :=
  match datetime.weekday dt with
  | 0 => Weekday.MONDAY
  | 1 => Weekday.TUESDAY
  | 2 => Weekday.WEDNESDAY
  | 3 => Weekday.THURSDAY
  | 4 => Weekday.FRIDAY
  | 5 => Weekday.SATURDAY
  | _ => Weekday.SUNDAY
  end.

(** The weekday as an integer in [0..6] with Sunday = 0. *)
Definition sunday_based (dt : datetime.t) : Z := Weekday.value (weekday_name dt).

(** The reference definition of [should_run] on an observable state. The
    anchor is [dow] or [dom]; the setters record no other tag, and the
    reference says nothing of one. *)
Definition should_run_reference (o : observation) (timestamp : datetime.t)
    : result bool :=
  match o_conjunction o with
  | None => Ok true
  | Some (anchor, value) =>
      if String.eqb anchor "dow" then
        result_bind (CronExpr.matches (o_day_of_month o) (datetime.day timestamp))
          (fun m => Ok (m && (sunday_based timestamp =? value)))
      else if String.eqb anchor "dom" then
        result_bind (CronExpr.matches (o_day_of_week o) (sunday_based timestamp))
          (fun m => Ok (m && (datetime.day timestamp =? value)))
      else Raise BadRef
  end.

(** The tagged union of the specification's data model; [step_] keeps the
    start as the code does, with [-1] as the wildcard sentinel. *)
Inductive Expression : Type :=
  | any_
  | value_ (v : Z)
  | list_ (vs : list Z)
  | range_ (lo hi : Z)
  | step_ (start interval : Z).

Definition wildcard_sentinel : Z := -1.

(** The rendering rules of the specification. *)
Definition render (e : Expression) : string :=
  match e with
  | any_ => "*"
  | value_ v => str v
  | list_ vs => join "," (map str vs)
  | range_ lo hi => str lo +:+ "-" +:+ str hi
  | step_ start interval =>
      if start =? wildcard_sentinel then "*/" +:+ str interval
      else str start +:+ "/" +:+ str interval
  end.

(** The [CronExpr] the setters build for each case of the union. *)
Definition to_CronExpr (e : Expression) : CronExpr.t :=
  match e with
  | any_ => CronExpr.mk "any" []
  | value_ v => CronExpr.mk "value" [v]
  | list_ vs => CronExpr.mk "list" vs
  | range_ lo hi => CronExpr.mk "range" [lo; hi]
  | step_ start interval => CronExpr.mk "step" [start; interval]
  end.

(** The builder's rendering from the five tokens. *)
Definition render_tokens (o : observation) : result string :=
  result_bind (CronExpr.to_cron_str (o_minute o)) (fun mi =>
  result_bind (CronExpr.to_cron_str (o_hour o)) (fun ho =>
  result_bind (CronExpr.to_cron_str (o_day_of_month o)) (fun dm =>
  result_bind (CronExpr.to_cron_str (o_month o)) (fun mo =>
  result_bind (CronExpr.to_cron_str (o_day_of_week o)) (fun dw =>
  Ok (join " " [mi; ho; dm; mo; dw])))))).

(** ** Vocabulary of the proofs *)

(** The field the assignment [self.expr = e] leaves. *)
Definition with_expr (F : CronFieldObj.t) (e : CronExpr.t) : CronFieldObj.t :=
  CronFieldObj.mk (CronFieldObj.min_val F) (CronFieldObj.max_val F)
    (CronFieldObj.name F) (CronFieldObj.immutable F) e.

Definition in_bounds (F : CronFieldObj.t) (v : Z) : bool :=
  (CronFieldObj.min_val F <=? v) && (v <=? CronFieldObj.max_val F).

(** The message of the error raised for a value outside the bounds. *)
Definition bounds_message (F : CronFieldObj.t) (v : Z) : string :=
  CronFieldObj.name F +:+ " must be between " +:+ str (CronFieldObj.min_val F)
  +:+ " and " +:+ str (CronFieldObj.max_val F) +:+ ", got " +:+ str v.

(** What a setter of [CronField] does: it raises a [ValueError] and leaves
    the store as it was, or it applies an expression of the expected shape. *)
Definition setter_outcome (op : loc -> M loc) : Prop :=
  forall s f F, field_objs s !! f = Some F ->
    (exists msg, op f s = (Raise (ValueError msg), s))
    \/ (exists e, wf_expr e = true /\ op f s = CronField._apply f e s).

Inductive slot : Type := Minute | Hour | DayOfMonth | MonthOfYear | DayOfWeek.

Definition slot_get (k : slot) (b : CronBuilderObj.t) : loc :=
  match k with
  | Minute => CronBuilderObj.minute b
  | Hour => CronBuilderObj.hour b
  | DayOfMonth => CronBuilderObj.day_of_month b
  | MonthOfYear => CronBuilderObj.month b
  | DayOfWeek => CronBuilderObj.day_of_week b
  end.

Definition slot_kw (k : slot) (f : loc) : CronBuilder.kwargs :=
  match k with
  | Minute => CronBuilder.minute_kw f
  | Hour => CronBuilder.hour_kw f
  | DayOfMonth => CronBuilder.day_of_month_kw f
  | MonthOfYear => CronBuilder.month_kw f
  | DayOfWeek => CronBuilder.day_of_week_kw f
  end.

Definition slot_obs (k : slot) (o : observation) : CronExpr.t :=
  match k with
  | Minute => o_minute o
  | Hour => o_hour o
  | DayOfMonth => o_day_of_month o
  | MonthOfYear => o_month o
  | DayOfWeek => o_day_of_week o
  end.

#[global] Instance slot_eq_dec : EqDecision slot.
Proof. solve_decision. Defined.

(** The shape shared by the single-field setters of the builder:
    [self._copy_with(<k>=self.<k>.<op>(...))]. *)
Definition single (k : slot) (op : loc -> M loc) (self : loc) : M loc :=
  b ← get_builder self;
  f ← op (slot_get k b);
  CronBuilder._copy_with self (slot_kw k f).

(** The fields a new builder starts with. *)
Definition fresh_fields (immutable : bool) : list CronFieldObj.t :=
  [ CronFieldObj.mk 0 59 "minute" immutable (CronExpr.mk "any" []);
    CronFieldObj.mk 0 23 "hour" immutable (CronExpr.mk "any" []);
    CronFieldObj.mk 1 31 "day_of_month" immutable (CronExpr.mk "any" []);
    CronFieldObj.mk 1 12 "month" immutable (CronExpr.mk "any" []);
    CronFieldObj.mk 0 6 "day_of_week" immutable (CronExpr.mk "any" []) ].

Definition fresh_builder (immutable : bool) (n : nat) : CronBuilderObj.t :=
  CronBuilderObj.mk immutable n (S n) (S (S n)) (S (S (S n))) (S (S (S (S n)))) None.

(** The computation of [should_run] once the builder's attributes are
    read: the two early returns of the code. *)
Definition should_run_on (o : observation) (dt : datetime.t) : result bool :=
  match o_conjunction o with
  | None => Ok true
  | Some (conj_type, conj_value) =>
      let dt_weekday := (datetime.weekday dt + 1) `mod` 7 in
      if String.eqb conj_type "dow" then
        result_bind (CronExpr.matches (o_day_of_month o) (datetime.day dt))
          (fun m => if negb m then Ok false else Ok (dt_weekday =? conj_value))
      else
        result_bind (CronExpr.matches (o_day_of_week o) dt_weekday)
          (fun m => if negb m then Ok false else Ok (datetime.day dt =? conj_value))
  end.

Definition and_dow_error : exn :=
  ValueError "Must set day_of_month before calling and_dow()".

Definition and_dom_error : exn :=
  ValueError "Must set day_of_week before calling and_dom()".

Definition is_wildcard (e : CronExpr.t) : bool := String.eqb (CronExpr.kind e) "any".

Inductive primitive_shape (c : call) : Prop :=
  | shape_single (k : slot) (op : loc -> M loc) :
      setter_outcome op ->
      (forall self, invoke c self = single k op self) ->
      primitive_shape c
  | shape_and_dow (d : int_or Weekday.t) :
      c = Call_and_dow d -> primitive_shape c
  | shape_and_dom (d : Z) :
      c = Call_and_dom d -> primitive_shape c.

Definition chain_of (c : call) : list call :=
  match c with
  | Call_at h m => [Call_at_hour h; Call_at_minute (default 0 m)]
  | Call_daily h m => [Call_at_hour (default 0 h); Call_at_minute (default 0 m)]
  | Call_weekly d h m =>
      [Call_at_hour (default 0 h); Call_at_minute (default 0 m);
       Call_on_dow (default (Enum Weekday.MONDAY) d)]
  | Call_monthly d h m =>
      [Call_at_hour (default 0 h); Call_at_minute (default 0 m);
       Call_on_dom (default 1 d)]
  | Call_yearly mo d h m =>
      [Call_at_hour (default 0 h); Call_at_minute (default 0 m);
       Call_on_dom (default 1 d);
       Call_in_month (default (Enum Month.JANUARY) mo)]
  | _ => [c]
  end.

(** What a new builder observes as. *)
Definition fresh_observation : observation :=
  Obs (CronExpr.mk "any" []) (CronExpr.mk "any" []) (CronExpr.mk "any" [])
      (CronExpr.mk "any" []) (CronExpr.mk "any" []) None.

(** [CronBuilder(immutable=True).dom_range(1, 7).and_dow(Weekday.MONDAY)]:
    the builders are at 0, 1 and 2. *)
Definition first_monday_store : store :=
  snd ((b ← CronBuilder.__init__ true;
        b ← CronBuilder.dom_range b 1 7;
        CronBuilder.and_dow b (Enum Weekday.MONDAY)) empty_store).

(** [CronBuilder()]: a mutable builder at 0, its fields at 0..4. *)
Definition mutable_store : store := snd (CronBuilder.__init__ false empty_store).

(** [CronBuilder(immutable=True)]: an immutable builder at 0. *)
Definition immutable_store : store := snd (CronBuilder.__init__ true empty_store).

(** [CronBuilder().on_dom(15).on_dow(1)]: both day fields set, mutable. *)
Definition both_days_store : store :=
  snd ((b ← CronBuilder.__init__ false;
        b ← CronBuilder.on_dom b 15;
        CronBuilder.on_dow b (Int 1)) empty_store).

(** [CronField(-5, 5, "offset")]: a field whose bounds contain [-1]. *)
Definition offset_field_store : store :=
  snd (CronField.__init__ (-5) 5 "offset" false empty_store).

(** [CronBuilder().on_dom(1).and_dow(Weekday.MONDAY)] and the same with
    [at(9, 30)] and [in_month(Month.MARCH)] before the conjunction. *)
Definition plain_conjunction_store : store :=
  snd ((b ← CronBuilder.__init__ false;
        b ← CronBuilder.on_dom b 1;
        CronBuilder.and_dow b (Enum Weekday.MONDAY)) empty_store).

Definition busy_conjunction_store : store :=
  snd ((b ← CronBuilder.__init__ false;
        b ← CronBuilder.at_ b 9 (Some 30);
        b ← CronBuilder.in_month b (Enum Month.MARCH);
        b ← CronBuilder.on_dom b 1;
        CronBuilder.and_dow b (Enum Weekday.MONDAY)) empty_store).

(** ** The single-field setters as validations *)

(** The bounds and the name the constructor gives the field of each slot. *)
Definition slot_min (k : slot) : Z :=
  match k with
  | Minute => 0 | Hour => 0 | DayOfMonth => 1 | MonthOfYear => 1 | DayOfWeek => 0
  end.

Definition slot_max (k : slot) : Z :=
  match k with
  | Minute => 59 | Hour => 23 | DayOfMonth => 31 | MonthOfYear => 12 | DayOfWeek => 6
  end.

Definition slot_name (k : slot) : string :=
  match k with
  | Minute => "minute" | Hour => "hour" | DayOfMonth => "day_of_month"
  | MonthOfYear => "month" | DayOfWeek => "day_of_week"
  end.

Definition slots : list slot := [Minute; Hour; DayOfMonth; MonthOfYear; DayOfWeek].

Definition within (lo hi v : Z) : bool := (lo <=? v) && (v <=? hi).

(** The message of [_validate_value] for a field called [name] with bounds
    [lo] and [hi]. *)
Definition range_message (name : string) (lo hi v : Z) : string :=
  name +:+ " must be between " +:+ str lo +:+ " and " +:+ str hi
  +:+ ", got " +:+ str v.

Definition order_message (start end_ : Z) : string :=
  "Range start (" +:+ str start +:+ ") must be <= end (" +:+ str end_ +:+ ")".

Definition interval_message (interval : Z) : string :=
  "Interval must be positive, got " +:+ str interval.

(** What a setter of [CronField] decides before it applies anything, on a
    field called [name] with bounds [lo] and [hi]: the expression to apply,
    or the error. *)
Definition validation : Type := Z -> Z -> string -> result CronExpr.t.

Definition check_value (v : Z) : validation := fun lo hi name =>
  if within lo hi v then Ok (CronExpr.mk "value" [v])
  else Raise (ValueError (range_message name lo hi v)).

Definition check_values (vs : list Z) : validation := fun lo hi name =>
  match List.find (fun v => negb (within lo hi v)) vs with
  | Some v => Raise (ValueError (range_message name lo hi v))
  | None => Ok (CronExpr.mk "list" vs)
  end.

Definition check_range (start end_ : Z) : validation := fun lo hi name =>
  if negb (within lo hi start) then Raise (ValueError (range_message name lo hi start))
  else if negb (within lo hi end_) then Raise (ValueError (range_message name lo hi end_))
  else if start >? end_ then Raise (ValueError (order_message start end_))
  else Ok (CronExpr.mk "range" [start; end_]).

Definition check_interval (interval : Z) (start_arg : option Z) : validation :=
  fun lo hi name =>
  let start := default (-1) start_arg in
  if interval <=? 0 then Raise (ValueError (interval_message interval))
  else if negb (start =? -1) && negb (within lo hi start)
  then Raise (ValueError (range_message name lo hi start))
  else Ok (CronExpr.mk "step" [start; interval]).

(** [op] is the setter that validates as [chk] says and then applies. *)
Definition validates_as (op : loc -> M loc) (chk : validation) : Prop :=
  forall s f F, field_objs s !! f = Some F ->
    op f s
    = match chk (CronFieldObj.min_val F) (CronFieldObj.max_val F)
                (CronFieldObj.name F) with
      | Ok e => CronField._apply f e s
      | Raise ex => (Raise ex, s)
      end.

(** The values an expression holds lie within [lo, hi]; a range is ordered;
    a step is positive and starts within the bounds or at the sentinel. *)
Definition bounded_expr (lo hi : Z) (e : CronExpr.t) : bool :=
  if String.eqb (CronExpr.kind e) "any" then true
  else if String.eqb (CronExpr.kind e) "value" then
    match CronExpr.values e with [v] => within lo hi v | _ => false end
  else if String.eqb (CronExpr.kind e) "list" then
    forallb (within lo hi) (CronExpr.values e)
  else if String.eqb (CronExpr.kind e) "range" then
    match CronExpr.values e with
    | [a; b] => within lo hi a && within lo hi b && (a <=? b)
    | _ => false
    end
  else if String.eqb (CronExpr.kind e) "step" then
    match CronExpr.values e with
    | [start; step] => ((start =? -1) || within lo hi start) && (0 <? step)
    | _ => false
    end
  else false.

(** A validation only lets through expressions within the bounds. *)
Definition sound (chk : validation) : Prop :=
  forall lo hi name e, chk lo hi name = Ok e -> bounded_expr lo hi e = true.

(** The slot and the validation of each call that sets one field. *)
Definition field_call (c : call) : option (slot * validation) :=
  match c with
  | Call_at_minute m => Some (Minute, check_value m)
  | Call_at_minutes ms => Some (Minute, check_values ms)
  | Call_every_minutes i => Some (Minute, check_interval i None)
  | Call_minute_range a b => Some (Minute, check_range a b)
  | Call_at_hour h => Some (Hour, check_value h)
  | Call_at_hours hs => Some (Hour, check_values hs)
  | Call_every_hours i => Some (Hour, check_interval i None)
  | Call_hour_range a b => Some (Hour, check_range a b)
  | Call_on_dom d => Some (DayOfMonth, check_value d)
  | Call_on_doms ds => Some (DayOfMonth, check_values ds)
  | Call_dom_range a b => Some (DayOfMonth, check_range a b)
  | Call_in_month m => Some (MonthOfYear, check_value (month_val m))
  | Call_in_months ms => Some (MonthOfYear, check_values (map month_val ms))
  | Call_month_range a b =>
      Some (MonthOfYear, check_range (month_val a) (month_val b))
  | Call_on_dow d => Some (DayOfWeek, check_value (weekday_val d))
  | Call_on_dows ds => Some (DayOfWeek, check_values (map weekday_val ds))
  | Call_on_weekdays => Some (DayOfWeek, check_range 1 5)
  | Call_on_weekends => Some (DayOfWeek, check_values [0; 6])
  | Call_dow_range a b =>
      Some (DayOfWeek, check_range (weekday_val a) (weekday_val b))
  | Call_hourly m => Some (Minute, check_value (default 0 m))
  | _ => None
  end.

(** ** The calls on observable states *)

Definition set_slot (k : slot) (e : CronExpr.t) (o : observation) : observation :=
  match k with
  | Minute => Obs e (o_hour o) (o_day_of_month o) (o_month o) (o_day_of_week o)
                  (o_conjunction o)
  | Hour => Obs (o_minute o) e (o_day_of_month o) (o_month o) (o_day_of_week o)
                (o_conjunction o)
  | DayOfMonth => Obs (o_minute o) (o_hour o) e (o_month o) (o_day_of_week o)
                      (o_conjunction o)
  | MonthOfYear => Obs (o_minute o) (o_hour o) (o_day_of_month o) e
                       (o_day_of_week o) (o_conjunction o)
  | DayOfWeek => Obs (o_minute o) (o_hour o) (o_day_of_month o) (o_month o) e
                     (o_conjunction o)
  end.

(** What a call that is not a combinator does to the observable state of
    its receiver, or the error it raises. *)
Definition apply_primitive (c : call) (o : observation) : result observation :=
  match field_call c with
  | Some (k, chk) =>
      result_bind (chk (slot_min k) (slot_max k) (slot_name k))
        (fun e => Ok (set_slot k e o))
  | None =>
      match c with
      | Call_and_dow d =>
          if is_wildcard (o_day_of_month o) then Raise and_dow_error
          else Ok (set_conjunction o (Some ("dow", weekday_val d)))
      | Call_and_dom d =>
          if is_wildcard (o_day_of_week o) then Raise and_dom_error
          else Ok (set_conjunction o (Some ("dom", d)))
      | _ => Ok o
      end
  end.

Fixpoint apply_chain (cs : list call) (o : observation) : result observation :=
  match cs with
  | [] => Ok o
  | c :: cs' => result_bind (apply_primitive c o) (apply_chain cs')
  end.

(** Any call, and any chain of calls, on observable states. *)
Definition apply_call (c : call) (o : observation) : result observation :=
  apply_chain (chain_of c) o.

Definition apply_calls (cs : list call) (o : observation) : result observation :=
  apply_chain (flat_map chain_of cs) o.

(** The text of an expression that renders. *)
Definition rendered (e : CronExpr.t) : string :=
  match CronExpr.to_cron_str e with
  | Ok t => t
  | Raise _ => ""
  end.

(** The warning [_warn_overwrite] emits when a field called [name] holding
    [old] is given [new]: none over a wildcard. *)
Definition overwrite_warning (name : string) (old new : CronExpr.t) : list string :=
  if is_wildcard old then []
  else [name +:+ " field overwritten: '" +:+ rendered old +:+ "' -> '"
        +:+ rendered new +:+ "'"].

(** ** Builders as the constructor and the methods leave them, in full *)

Definition built_field (s : store) (immutable : bool) (k : slot) (l : loc) : bool :=
  match field_objs s !! l with
  | Some F =>
      (CronFieldObj.min_val F =? slot_min k)
      && (CronFieldObj.max_val F =? slot_max k)
      && String.eqb (CronFieldObj.name F) (slot_name k)
      && Bool.eqb (CronFieldObj.immutable F) immutable
      && bounded_expr (slot_min k) (slot_max k) (CronFieldObj.expr F)
  | None => false
  end.

(** The five fields are five different objects. *)
Definition distinct_slots (b : CronBuilderObj.t) : bool :=
  forallb (fun i =>
    forallb (fun j =>
      bool_decide (i = j) || negb (Nat.eqb (slot_get i b) (slot_get j b)))
      slots) slots.

(** [wf_builder], and more: each field keeps the bounds and the name of its
    slot, holds values within its bounds, and is an object of its own. *)
Definition built (s : store) (self : loc) : bool :=
  match builder_objs s !! self with
  | Some b =>
      forallb (fun k => built_field s (CronBuilderObj.immutable b) k (slot_get k b))
        slots
      && distinct_slots b
      && wf_conjunction (CronBuilderObj._conjunction b)
  | None => false
  end.

Definition and_dow_warning (day_val : Z) : string :=
  "Conjunction created: DOM AND DOW=" +:+ str day_val +:+ ". "
  +:+ "Cron runs on DOM, use should_run() to validate both conditions.".

Definition and_dom_warning (day : Z) : string :=
  "Conjunction created: DOW AND DOM=" +:+ str day +:+ ". "
  +:+ "Cron runs on DOW, use should_run() to validate both conditions.".

(** The warnings a successful call that is not a combinator emits, on a
    receiver of the given mode that observes as [o]. *)
Definition primitive_warnings (immutable : bool) (c : call) (o : observation)
    : list string :=
  match field_call c with
  | Some (k, chk) =>
      if immutable then []
      else match chk (slot_min k) (slot_max k) (slot_name k) with
           | Ok e => overwrite_warning (slot_name k) (slot_obs k o) e
           | Raise _ => []
           end
  | None =>
      match c with
      | Call_and_dow d => [and_dow_warning (weekday_val d)]
      | Call_and_dom d => [and_dom_warning d]
      | _ => []
      end
  end.

(** The fields a combinator sets, in the order it sets them, each with
    the value it is given or the default of the signature. *)
Definition combinator_fields (c : call) : list (slot * Z) :=
  match c with
  | Call_at h m => [(Hour, h); (Minute, default 0 m)]
  | Call_daily h m => [(Hour, default 0 h); (Minute, default 0 m)]
  | Call_weekly d h m =>
      [(Hour, default 0 h); (Minute, default 0 m);
       (DayOfWeek, weekday_val (default (Enum Weekday.MONDAY) d))]
  | Call_monthly d h m =>
      [(Hour, default 0 h); (Minute, default 0 m); (DayOfMonth, default 1 d)]
  | Call_yearly mo d h m =>
      [(Hour, default 0 h); (Minute, default 0 m); (DayOfMonth, default 1 d);
       (MonthOfYear, month_val (default (Enum Month.JANUARY) mo))]
  | _ => []
  end.

Definition out_of_slot (kv : slot * Z) : bool :=
  negb (within (slot_min (fst kv)) (slot_max (fst kv)) (snd kv)).

Definition set_value_of (o : observation) (kv : slot * Z) : observation :=
  set_slot (fst kv) (CronExpr.mk "value" [snd kv]) o.

(** * Checks on concrete inputs *)

Example weekday_2024_01_01 :
  datetime.weekday (datetime.date 2024 1 1) = 0
  /\ datetime.weekday (datetime.date 2025 1 1) = 2
  /\ datetime.weekday (datetime.date 2025 1 13) = 0
  /\ datetime.weekday (datetime.date 2024 3 3) = 6.
Proof. vm_compute. auto. Qed.

Example render_samples :
  CronExpr.to_cron_str (CronExpr.mk "list" [0; 30]) = Ok "0,30"
  /\ CronExpr.to_cron_str (CronExpr.mk "step" [-1; 15]) = Ok "*/15"
  /\ CronExpr.to_cron_str (CronExpr.mk "step" [10; 15]) = Ok "10/15"
  /\ CronExpr.to_cron_str (CronExpr.mk "range" [1; 5]) = Ok "1-5"
  /\ CronExpr.to_cron_str (CronExpr.mk "list" []) = Ok ""
  /\ CronExpr.to_cron_str (CronExpr.mk "invalid" []) = Ok "*"
  /\ CronExpr.matches (CronExpr.mk "invalid" []) 10 = Ok false.
Proof. vm_compute. auto 8. Qed.

Example str_samples : str 0 = "0" /\ str 59 = "59" /\ str (-5) = "-5".
Proof. vm_compute. auto. Qed.

Example matches_samples :
  CronExpr.matches (CronExpr.mk "step" [-1; 15]) 45 = Ok true
  /\ CronExpr.matches (CronExpr.mk "step" [10; 15]) 25 = Ok true
  /\ CronExpr.matches (CronExpr.mk "step" [10; 15]) 5 = Ok false
  /\ CronExpr.matches (CronExpr.mk "list" [0; 30]) 30 = Ok true
  /\ CronExpr.matches (CronExpr.mk "range" [9; 17]) 18 = Ok false
  /\ CronExpr.matches (CronExpr.mk "value" []) 3 = Raise IndexError
  /\ CronExpr.matches (CronExpr.mk "step" [0; 0]) 3 = Raise ZeroDivisionError.
Proof. vm_compute. auto 10. Qed.

Example fresh_builder_renders :
  forall immutable,
    (CronBuilder.__init__ immutable ≫= CronBuilder.__str__) empty_store
    = (Ok "* * * * *",
       snd (CronBuilder.__init__ immutable empty_store)).
Proof. intros []; vm_compute; reflexivity. Qed.

Example daily_2_0 :
  fst ((b ← CronBuilder.__init__ false;
        b ← CronBuilder.daily b (Some 2) (Some 0);
        CronBuilder.__str__ b) empty_store) = Ok "0 2 * * *".
Proof. vm_compute. reflexivity. Qed.

Example first_monday :
  let prog now t :=
    b ← CronBuilder.__init__ true;
    b ← CronBuilder.dom_range b 1 7;
    b ← CronBuilder.and_dow b (Enum Weekday.MONDAY);
    CronBuilder.should_run now b (Some t) in
  forall now,
    fst (prog now (datetime.date 2024 1 1) empty_store) = Ok true
    /\ fst (prog now (datetime.date 2025 1 6) empty_store) = Ok true
    /\ fst (prog now (datetime.date 2025 1 13) empty_store) = Ok false.
Proof. intros prog now. vm_compute. auto. Qed.

(** ** Running the monad *)

Lemma bind_run {A B} (m : M A) (k : A -> M B) (s : store) :
  (m ≫= k) s = match m s with
               | (Ok a, s') => k a s'
               | (Raise e, s') => (Raise e, s')
               end.
Proof. reflexivity. Qed.

Lemma bind_run_Ok {A B} (m : M A) (k : A -> M B) s a s' :
  m s = (Ok a, s') -> (m ≫= k) s = k a s'.
Proof. intros H. rewrite bind_run, H. reflexivity. Qed.

Lemma bind_run_Raise {A B} (m : M A) (k : A -> M B) s e s' :
  m s = (Raise e, s') -> (m ≫= k) s = (Raise e, s').
Proof. intros H. rewrite bind_run, H. reflexivity. Qed.

Lemma get_field_run s l F :
  field_objs s !! l = Some F -> get_field l s = (Ok F, s).
Proof. intros H. unfold get_field. rewrite H. reflexivity. Qed.

Lemma get_builder_run s l b :
  builder_objs s !! l = Some b -> get_builder l s = (Ok b, s).
Proof. intros H. unfold get_builder. rewrite H. reflexivity. Qed.

Lemma put_field_run s l F F' :
  field_objs s !! l = Some F ->
  put_field l F' s
  = (Ok tt, Store (<[l := F']> (field_objs s)) (builder_objs s) (warned s)).
Proof. intros H. unfold put_field. rewrite H. reflexivity. Qed.

Lemma put_builder_run s l b b' :
  builder_objs s !! l = Some b ->
  put_builder l b' s
  = (Ok tt, Store (field_objs s) (<[l := b']> (builder_objs s)) (warned s)).
Proof. intros H. unfold put_builder. rewrite H. reflexivity. Qed.

Lemma insert_at_end {A} (l : list A) (x y : A) :
  <[length l := y]> (l ++ [x]) = l ++ [y].
Proof.
  rewrite insert_app_r_alt by lia.
  replace (length l - length l)%nat with 0%nat by lia. reflexivity.
Qed.

Lemma lookup_at_end {A} (l : list A) (x : A) :
  (l ++ [x]) !! length l = Some x.
Proof.
  rewrite lookup_app_r by lia.
  replace (length l - length l)%nat with 0%nat by lia. reflexivity.
Qed.

(** ** Expressions built by the setters render and match without raising *)

Lemma wf_expr_cases e :
  wf_expr e = true ->
  (CronExpr.kind e = "any")
  \/ (exists v, e = CronExpr.mk "value" [v])
  \/ (exists vs, e = CronExpr.mk "list" vs)
  \/ (exists lo hi, e = CronExpr.mk "range" [lo; hi])
  \/ (exists start step, e = CronExpr.mk "step" [start; step] /\ 0 < step).
Proof.
  destruct e as [k vs]. unfold wf_expr. simpl.
  destruct (String.eqb_spec k "any") as [->|_]; [auto|].
  destruct (String.eqb_spec k "value") as [->|_].
  { destruct vs as [|v [|? ?]]; try discriminate. eauto 6. }
  destruct (String.eqb_spec k "list") as [->|_]; [eauto 6|].
  destruct (String.eqb_spec k "range") as [->|_].
  { destruct vs as [|a [|b [|? ?]]]; try discriminate. eauto 8. }
  destruct (String.eqb_spec k "step") as [->|_]; [|discriminate].
  destruct vs as [|a [|b [|? ?]]]; try discriminate.
  intros H. apply Z.ltb_lt in H. eauto 10.
Qed.

Lemma wf_expr_to_cron_str e :
  wf_expr e = true -> exists t, CronExpr.to_cron_str e = Ok t.
Proof.
  intros H. destruct (wf_expr_cases e H)
    as [Hk|[[v ->]|[[vs ->]|[[lo [hi ->]]|[start [step [-> _]]]]]]].
  - unfold CronExpr.to_cron_str. rewrite Hk. simpl. eauto.
  - simpl. eauto.
  - simpl. eauto.
  - simpl. eauto.
  - unfold CronExpr.to_cron_str. simpl. destruct (start =? -1); eauto.
Qed.

Lemma wf_expr_matches e x :
  wf_expr e = true -> exists m, CronExpr.matches e x = Ok m.
Proof.
  intros H. destruct (wf_expr_cases e H)
    as [Hk|[[v ->]|[[vs ->]|[[lo [hi ->]]|[start [step [-> Hpos]]]]]]].
  - unfold CronExpr.matches. rewrite Hk. simpl. eauto.
  - simpl. eauto.
  - simpl. eauto.
  - unfold CronExpr.matches. simpl. destruct (lo <=? x); simpl; eauto.
  - unfold CronExpr.matches, py_mod. simpl.
    assert ((step =? 0) = false) as -> by (apply Z.eqb_neq; lia).
    destruct (start =? -1); simpl; [eauto|].
    destruct (x >=? start); simpl; eauto.
Qed.

(** ** The methods of [CronField], run on a store *)

Lemma validate_value_run s f F v :
  field_objs s !! f = Some F ->
  CronField._validate_value f v s
  = (if in_bounds F v then Ok tt else Raise (ValueError (bounds_message F v)), s).
Proof.
  intros Hf. unfold CronField._validate_value.
  rewrite (bind_run_Ok _ _ _ _ _ (get_field_run _ _ _ Hf)).
  unfold in_bounds. destruct (_ && _); reflexivity.
Qed.

Lemma validate_values_run s f F vs :
  field_objs s !! f = Some F ->
  for_each vs (fun val => CronField._validate_value f val) s
  = (match List.find (fun v => negb (in_bounds F v)) vs with
     | Some v => Raise (ValueError (bounds_message F v))
     | None => Ok tt
     end, s).
Proof.
  intros Hf. induction vs as [|v vs IH]; [reflexivity|].
  simpl for_each. rewrite bind_run, (validate_value_run _ _ _ _ Hf).
  simpl. destruct (in_bounds F v); simpl; [apply IH|reflexivity].
Qed.

Lemma apply_immutable_run s f F e :
  field_objs s !! f = Some F ->
  CronFieldObj.immutable F = true ->
  CronField._apply f e s
  = (Ok (length (field_objs s)),
     Store (field_objs s ++ [with_expr F e]) (builder_objs s) (warned s)).
Proof.
  intros Hf Himm. unfold CronField._apply.
  rewrite (bind_run_Ok _ _ _ _ _ (get_field_run _ _ _ Hf)), Himm.
  unfold CronField.__init__, CronField.set_expr, new_field.
  rewrite !bind_run. simpl.
  unfold get_field, put_field. simpl.
  rewrite lookup_at_end. simpl. rewrite lookup_at_end, insert_at_end.
  unfold with_expr. rewrite Himm. reflexivity.
Qed.

Lemma warn_overwrite_run s f F e :
  field_objs s !! f = Some F ->
  wf_expr (CronFieldObj.expr F) = true ->
  wf_expr e = true ->
  exists w,
    CronField._warn_overwrite f e s
    = (Ok tt, Store (field_objs s) (builder_objs s) (warned s ++ w)).
Proof.
  intros Hf Hold Hnew. unfold CronField._warn_overwrite.
  rewrite (bind_run_Ok _ _ _ _ _ (get_field_run _ _ _ Hf)).
  destruct (wf_expr_to_cron_str _ Hold) as [told Htold].
  destruct (wf_expr_to_cron_str _ Hnew) as [tnew Htnew].
  destruct (String.eqb (CronExpr.kind (CronFieldObj.expr F)) "any"); simpl.
  - exists []. rewrite app_nil_r. destruct s; reflexivity.
  - eexists [_]. unfold lift. rewrite !bind_run, Htold, Htnew. reflexivity.
Qed.

Lemma set_expr_run s f F e :
  field_objs s !! f = Some F ->
  CronField.set_expr f e s
  = (Ok tt, Store (<[f := with_expr F e]> (field_objs s)) (builder_objs s) (warned s)).
Proof.
  intros Hf. unfold CronField.set_expr.
  rewrite (bind_run_Ok _ _ _ _ _ (get_field_run _ _ _ Hf)).
  apply (put_field_run _ _ _ _ Hf).
Qed.

Lemma apply_mutable_run s f F e :
  field_objs s !! f = Some F ->
  CronFieldObj.immutable F = false ->
  wf_expr (CronFieldObj.expr F) = true ->
  wf_expr e = true ->
  exists w,
    CronField._apply f e s
    = (Ok f, Store (<[f := with_expr F e]> (field_objs s)) (builder_objs s)
                   (warned s ++ w)).
Proof.
  intros Hf Himm Hold Hnew. unfold CronField._apply.
  rewrite (bind_run_Ok _ _ _ _ _ (get_field_run _ _ _ Hf)), Himm.
  destruct (warn_overwrite_run s f F e Hf Hold Hnew) as [w Hw].
  exists w. rewrite (bind_run_Ok _ _ _ _ _ Hw).
  erewrite bind_run_Ok; [reflexivity|].
  apply (set_expr_run (Store _ _ _)). exact Hf.
Qed.

Lemma set_value_outcome v : setter_outcome (fun f => CronField.set_value f v).
Proof.
  intros s f F Hf. unfold CronField.set_value.
  rewrite bind_run, (validate_value_run _ _ _ _ Hf).
  destruct (in_bounds F v); [right|left; eauto].
  eexists. split; [|reflexivity]. reflexivity.
Qed.

Lemma set_values_outcome vs : setter_outcome (fun f => CronField.set_values f vs).
Proof.
  intros s f F Hf. unfold CronField.set_values.
  rewrite bind_run, (validate_values_run _ _ _ _ Hf).
  destruct (List.find _ vs); [left; eauto|right].
  eexists. split; [|reflexivity]. reflexivity.
Qed.

Lemma set_range_outcome a b : setter_outcome (fun f => CronField.set_range f a b).
Proof.
  intros s f F Hf. unfold CronField.set_range.
  rewrite bind_run, (validate_value_run _ _ _ _ Hf).
  destruct (in_bounds F a); [|left; eauto].
  rewrite bind_run, (validate_value_run _ _ _ _ Hf).
  destruct (in_bounds F b); [|left; eauto].
  destruct (a >? b); [left; unfold raise; eauto|right].
  eexists. split; [|reflexivity]. reflexivity.
Qed.

Lemma set_interval_outcome i st :
  setter_outcome (fun f => CronField.set_interval f i st).
Proof.
  intros s f F Hf. unfold CronField.set_interval.
  destruct (i <=? 0) eqn:Hi; [left; unfold raise; eauto|].
  apply Z.leb_gt in Hi.
  assert (wf_expr (CronExpr.mk "step" [default (-1) st; i]) = true) as Hwf.
  { unfold wf_expr. simpl. apply Z.ltb_lt. lia. }
  rewrite bind_run.
  destruct (negb (default (-1) st =? -1)).
  - rewrite (validate_value_run _ _ _ _ Hf).
    destruct (in_bounds F _); [right; eauto|left; eauto].
  - right. eauto.
Qed.

(** ** The builder's slots, uniformly *)

Lemma builder_init_run immutable s :
  CronBuilder.__init__ immutable s
  = (Ok (length (builder_objs s)),
     Store (field_objs s ++ fresh_fields immutable)
           (builder_objs s ++ [fresh_builder immutable (length (field_objs s))])
           (warned s)).
Proof.
  unfold CronBuilder.__init__, CronField.__init__, new_field, new_builder.
  rewrite !bind_run. simpl. rewrite !length_app. simpl.
  rewrite <- !app_assoc. simpl. unfold fresh_builder.
  repeat f_equal; lia.
Qed.

Lemma copy_with_mutable_run s self b fields :
  builder_objs s !! self = Some b ->
  CronBuilderObj.immutable b = false ->
  CronBuilder._copy_with self fields s
  = (Ok self,
     Store (field_objs s)
           (<[self := CronBuilder.with_kwargs false b fields]> (builder_objs s))
           (warned s)).
Proof.
  intros Hb Himm. unfold CronBuilder._copy_with.
  rewrite (bind_run_Ok _ _ _ _ _ (get_builder_run _ _ _ Hb)), Himm. simpl.
  rewrite (bind_run_Ok _ _ _ _ _ (put_builder_run _ _ _ _ Hb)). reflexivity.
Qed.

Lemma copy_with_immutable_run s self b fields :
  builder_objs s !! self = Some b ->
  CronBuilderObj.immutable b = true ->
  CronBuilder._copy_with self fields s
  = (Ok (length (builder_objs s)),
     Store (field_objs s ++ fresh_fields true)
           (builder_objs s ++ [CronBuilder.with_kwargs true b fields])
           (warned s)).
Proof.
  intros Hb Himm. unfold CronBuilder._copy_with.
  rewrite (bind_run_Ok _ _ _ _ _ (get_builder_run _ _ _ Hb)), Himm. simpl.
  rewrite (bind_run_Ok _ _ _ _ _ (builder_init_run true s)).
  erewrite bind_run_Ok;
    [|apply get_builder_run; simpl; apply lookup_app_l_Some; exact Hb].
  erewrite bind_run_Ok; [|eapply put_builder_run; simpl; apply lookup_at_end].
  simpl. rewrite insert_at_end. reflexivity.
Qed.

Lemma slot_get_with_kwargs imm b k f j :
  slot_get j (CronBuilder.with_kwargs imm b (slot_kw k f))
  = if decide (j = k) then f else slot_get j b.
Proof. destruct k, j; reflexivity. Qed.

Lemma conjunction_with_slot_kw imm b k f :
  CronBuilderObj._conjunction (CronBuilder.with_kwargs imm b (slot_kw k f))
  = CronBuilderObj._conjunction b.
Proof. destruct k; reflexivity. Qed.

Lemma with_kwargs_same_slot b k :
  CronBuilder.with_kwargs (CronBuilderObj.immutable b) b (slot_kw k (slot_get k b)) = b.
Proof. destruct b, k; reflexivity. Qed.

(** ** Well-formedness and observation, slot by slot *)

Lemma wf_builder_slots s self :
  wf_builder s self = true <->
  exists b, builder_objs s !! self = Some b
    /\ (forall k, wf_field s (CronBuilderObj.immutable b) (slot_get k b) = true)
    /\ wf_conjunction (CronBuilderObj._conjunction b) = true.
Proof.
  unfold wf_builder. destruct (builder_objs s !! self) as [b|].
  - rewrite !andb_true_iff. split.
    + intros [[[[[H1 H2] H3] H4] H5] H6]. exists b.
      split; [reflexivity|]. split; [intros []; assumption|assumption].
    + intros [b' [Hb [Hk Hc]]]. injection Hb as <-.
      pose proof (Hk Minute). pose proof (Hk Hour). pose proof (Hk DayOfMonth).
      pose proof (Hk MonthOfYear). pose proof (Hk DayOfWeek). tauto.
  - split; [discriminate|]. intros [b [Hb _]]. discriminate.
Qed.

Lemma wf_field_lookup s imm l :
  wf_field s imm l = true <->
  exists F, field_objs s !! l = Some F
    /\ wf_expr (CronFieldObj.expr F) = true /\ CronFieldObj.immutable F = imm.
Proof.
  unfold wf_field. destruct (field_objs s !! l) as [F|].
  - rewrite andb_true_iff, Bool.eqb_true_iff. split.
    + intros [? ?]. eauto.
    + intros [F' [HF [? ?]]]. injection HF as <-. auto.
  - split; [discriminate|]. intros [F [HF _]]. discriminate.
Qed.

Lemma observe_slots s self o :
  observe s self = Some o <->
  exists b, builder_objs s !! self = Some b
    /\ (forall k, expr_at s (slot_get k b) = Some (slot_obs k o))
    /\ CronBuilderObj._conjunction b = o_conjunction o.
Proof.
  unfold observe. destruct (builder_objs s !! self) as [b|]; simpl.
  - split.
    + intros H.
      destruct (expr_at s (CronBuilderObj.minute b)) as [e1|] eqn:E1; [|discriminate].
      destruct (expr_at s (CronBuilderObj.hour b)) as [e2|] eqn:E2; [|discriminate].
      destruct (expr_at s (CronBuilderObj.day_of_month b)) as [e3|] eqn:E3; [|discriminate].
      destruct (expr_at s (CronBuilderObj.month b)) as [e4|] eqn:E4; [|discriminate].
      destruct (expr_at s (CronBuilderObj.day_of_week b)) as [e5|] eqn:E5; [|discriminate].
      simpl in H. injection H as <-. exists b.
      split; [reflexivity|]. split; [intros []; assumption|reflexivity].
    + intros [b' [Hb [Hk Hc]]]. injection Hb as <-.
      pose proof (Hk Minute) as H1. pose proof (Hk Hour) as H2.
      pose proof (Hk DayOfMonth) as H3. pose proof (Hk MonthOfYear) as H4.
      pose proof (Hk DayOfWeek) as H5. simpl in *.
      rewrite H1, H2, H3, H4, H5. simpl. rewrite Hc. destruct o; reflexivity.
  - split; [discriminate|]. intros [b [Hb _]]. discriminate.
Qed.

Lemma wf_builder_observe s self :
  wf_builder s self = true -> exists o, observe s self = Some o.
Proof.
  intros H. apply wf_builder_slots in H as [b [Hb [Hk _]]].
  assert (forall k, exists e, expr_at s (slot_get k b) = Some e) as He.
  { intros k. specialize (Hk k). apply wf_field_lookup in Hk as [F [HF _]].
    unfold expr_at. rewrite HF. simpl. eauto. }
  destruct (He Minute) as [e1 H1]. destruct (He Hour) as [e2 H2].
  destruct (He DayOfMonth) as [e3 H3]. destruct (He MonthOfYear) as [e4 H4].
  destruct (He DayOfWeek) as [e5 H5].
  exists (Obs e1 e2 e3 e4 e5 (CronBuilderObj._conjunction b)).
  apply observe_slots. exists b. split; [assumption|].
  split; [intros []; assumption|reflexivity].
Qed.

(** ** Stores that only grow *)

Lemma extends_refl s : extends s s.
Proof. split; reflexivity. Qed.

Lemma extends_trans s1 s2 s3 : extends s1 s2 -> extends s2 s3 -> extends s1 s3.
Proof. intros [? ?] [? ?]. split; etransitivity; eassumption. Qed.

Lemma extends_field s s' l F :
  extends s s' -> field_objs s !! l = Some F -> field_objs s' !! l = Some F.
Proof. intros [Hf _] H. exact (prefix_lookup_Some _ _ _ _ H Hf). Qed.

Lemma extends_builder s s' l b :
  extends s s' -> builder_objs s !! l = Some b -> builder_objs s' !! l = Some b.
Proof. intros [_ Hb] H. exact (prefix_lookup_Some _ _ _ _ H Hb). Qed.

Lemma extends_wf_field s s' imm l :
  extends s s' -> wf_field s imm l = true -> wf_field s' imm l = true.
Proof.
  intros Hext H. apply wf_field_lookup in H as [F [HF [? ?]]].
  apply wf_field_lookup. exists F. eauto using extends_field.
Qed.

Lemma extends_expr_at s s' l e :
  extends s s' -> expr_at s l = Some e -> expr_at s' l = Some e.
Proof.
  unfold expr_at. intros Hext H.
  destruct (field_objs s !! l) as [F|] eqn:HF; [|discriminate].
  rewrite (extends_field _ _ _ _ Hext HF). exact H.
Qed.

Lemma extends_wf_builder s s' self :
  extends s s' -> wf_builder s self = true -> wf_builder s' self = true.
Proof.
  intros Hext H. apply wf_builder_slots in H as [b [Hb [Hk Hc]]].
  apply wf_builder_slots. exists b.
  split; [eauto using extends_builder|]. split; [|assumption].
  intros k. eauto using extends_wf_field.
Qed.

Lemma extends_observe s s' self o :
  extends s s' -> observe s self = Some o -> observe s' self = Some o.
Proof.
  intros Hext H. apply observe_slots in H as [b [Hb [Hk Hc]]].
  apply observe_slots. exists b.
  split; [eauto using extends_builder|]. split; [|assumption].
  intros k. eauto using extends_expr_at.
Qed.

Lemma extends_is_immutable s s' self :
  extends s s' -> is_immutable s self = true -> is_immutable s' self = true.
Proof.
  unfold is_immutable. intros Hext H.
  destruct (builder_objs s !! self) as [b|] eqn:Hb; [|discriminate].
  rewrite (extends_builder _ _ _ _ Hext Hb). exact H.
Qed.

Lemma extends_app s fs bs w :
  extends s (Store (field_objs s ++ fs) (builder_objs s ++ bs) w).
Proof. split; simpl; apply prefix_app_r; reflexivity. Qed.

(** ** [should_run], run on a store *)

Lemma field_matches_run s l e x :
  expr_at s l = Some e ->
  CronField.matches l x s = (CronExpr.matches e x, s).
Proof.
  unfold expr_at. intros H.
  destruct (field_objs s !! l) as [F|] eqn:HF; [|discriminate].
  injection H as <-. unfold CronField.matches.
  rewrite (bind_run_Ok _ _ _ _ _ (get_field_run _ _ _ HF)). reflexivity.
Qed.

Lemma should_run_run s self o now check_time :
  observe s self = Some o ->
  CronBuilder.should_run now self check_time s
  = (should_run_on o (default now check_time), s).
Proof.
  intros H. apply observe_slots in H as [b [Hb [Hk Hc]]].
  unfold CronBuilder.should_run, should_run_on.
  rewrite (bind_run_Ok _ _ _ _ _ (get_builder_run _ _ _ Hb)), Hc.
  destruct (o_conjunction o) as [[conj_type conj_value]|]; [|reflexivity].
  destruct (String.eqb conj_type "dow").
  - rewrite bind_run, (field_matches_run _ _ _ _ (Hk DayOfMonth)). simpl.
    destruct (CronExpr.matches _ _) as [[|]|]; reflexivity.
  - rewrite bind_run, (field_matches_run _ _ _ _ (Hk DayOfWeek)). simpl.
    destruct (CronExpr.matches _ _) as [[|]|]; reflexivity.
Qed.

Lemma weekday_range dt : 0 <= datetime.weekday dt < 7.
Proof. unfold datetime.weekday. apply Z.mod_pos_bound. lia. Qed.

Lemma sunday_based_shift dt :
  (datetime.weekday dt + 1) `mod` 7 = sunday_based dt.
Proof.
  unfold sunday_based, weekday_name.
  pose proof (weekday_range dt) as Hr.
  assert (datetime.weekday dt = 0 \/ datetime.weekday dt = 1
          \/ datetime.weekday dt = 2 \/ datetime.weekday dt = 3
          \/ datetime.weekday dt = 4 \/ datetime.weekday dt = 5
          \/ datetime.weekday dt = 6) as Hcases by lia.
  destruct Hcases as [->|[->|[->|[->|[->|[->| ->]]]]]]; reflexivity.
Qed.

Lemma sunday_based_range dt : 0 <= sunday_based dt <= 6.
Proof.
  rewrite <- sunday_based_shift.
  pose proof (Z.mod_pos_bound (datetime.weekday dt + 1) 7). lia.
Qed.

Lemma should_run_on_reference o dt :
  wf_conjunction (o_conjunction o) = true ->
  should_run_on o dt = should_run_reference o dt.
Proof.
  unfold should_run_on, should_run_reference, wf_conjunction.
  destruct (o_conjunction o) as [[tag v]|]; [|reflexivity].
  rewrite sunday_based_shift. intros Htag.
  destruct (String.eqb tag "dow").
  - destruct (CronExpr.matches _ _) as [[|]|]; reflexivity.
  - simpl in Htag. rewrite Htag.
    destruct (CronExpr.matches _ _) as [[|]|]; reflexivity.
Qed.

(** ** A single-field setter of the builder, run on a store *)

Lemma single_immutable_run k op self s b F :
  setter_outcome op ->
  builder_objs s !! self = Some b ->
  CronBuilderObj.immutable b = true ->
  field_objs s !! slot_get k b = Some F ->
  CronFieldObj.immutable F = true ->
  (exists msg, single k op self s = (Raise (ValueError msg), s))
  \/ (exists e, wf_expr e = true
        /\ single k op self s
           = (Ok (length (builder_objs s)),
              Store (field_objs s ++ with_expr F e :: fresh_fields true)
                    (builder_objs s
                     ++ [CronBuilder.with_kwargs true b
                           (slot_kw k (length (field_objs s)))])
                    (warned s))).
Proof.
  intros Hop Hb Himm HF HFimm. unfold single.
  rewrite (bind_run_Ok _ _ _ _ _ (get_builder_run _ _ _ Hb)).
  destruct (Hop s _ F HF) as [[msg Hr]|[e [He Hr]]].
  - left. exists msg. rewrite (bind_run_Raise _ _ _ _ _ Hr). reflexivity.
  - right. exists e. split; [assumption|].
    rewrite (apply_immutable_run _ _ _ _ HF HFimm) in Hr.
    rewrite (bind_run_Ok _ _ _ _ _ Hr).
    rewrite (copy_with_immutable_run _ _ b) by assumption.
    simpl. rewrite <- app_assoc. reflexivity.
Qed.

Lemma single_mutable_run k op self s b F :
  setter_outcome op ->
  builder_objs s !! self = Some b ->
  CronBuilderObj.immutable b = false ->
  field_objs s !! slot_get k b = Some F ->
  CronFieldObj.immutable F = false ->
  wf_expr (CronFieldObj.expr F) = true ->
  (exists msg, single k op self s = (Raise (ValueError msg), s))
  \/ (exists e w, wf_expr e = true
        /\ single k op self s
           = (Ok self,
              Store (<[slot_get k b := with_expr F e]> (field_objs s))
                    (builder_objs s) (warned s ++ w))).
Proof.
  intros Hop Hb Himm HF HFimm HFwf. unfold single.
  rewrite (bind_run_Ok _ _ _ _ _ (get_builder_run _ _ _ Hb)).
  destruct (Hop s _ F HF) as [[msg Hr]|[e [He Hr]]].
  - left. exists msg. rewrite (bind_run_Raise _ _ _ _ _ Hr). reflexivity.
  - right. destruct (apply_mutable_run _ _ _ e HF HFimm HFwf He) as [w Hw].
    exists e, w. split; [assumption|].
    rewrite Hw in Hr. rewrite (bind_run_Ok _ _ _ _ _ Hr).
    rewrite (copy_with_mutable_run _ _ b) by assumption.
    simpl. rewrite <- Himm, with_kwargs_same_slot.
    rewrite (list_insert_id _ _ _ Hb). reflexivity.
Qed.

(** ** The conjunction setters, run on a store *)

Lemma and_dow_run s self o day :
  observe s self = Some o ->
  CronBuilder.and_dow self day s
  = if is_wildcard (o_day_of_month o) then (Raise and_dow_error, s)
    else
      CronBuilder._copy_with self
        (CronBuilder._conjunction_kw ("dow", weekday_val day))
        (Store (field_objs s) (builder_objs s)
           (warned s
            ++ ["Conjunction created: DOM AND DOW=" +:+ str (weekday_val day)
                +:+ ". "
                +:+ "Cron runs on DOM, use should_run() to validate both conditions."])).
Proof.
  intros H. apply observe_slots in H as [b [Hb [Hk Hc]]].
  pose proof (Hk DayOfMonth) as Hd. unfold expr_at in Hd. simpl in Hd.
  destruct (field_objs s !! CronBuilderObj.day_of_month b) as [D|] eqn:HD;
    [|discriminate].
  injection Hd as Hd. unfold CronBuilder.and_dow, is_wildcard.
  rewrite (bind_run_Ok _ _ _ _ _ (get_builder_run _ _ _ Hb)).
  rewrite (bind_run_Ok _ _ _ _ _ (get_field_run _ _ _ HD)).
  rewrite Hd. destruct (String.eqb _ "any"); reflexivity.
Qed.

Lemma and_dom_run s self o day :
  observe s self = Some o ->
  CronBuilder.and_dom self day s
  = if is_wildcard (o_day_of_week o) then (Raise and_dom_error, s)
    else
      CronBuilder._copy_with self
        (CronBuilder._conjunction_kw ("dom", day))
        (Store (field_objs s) (builder_objs s)
           (warned s
            ++ ["Conjunction created: DOW AND DOM=" +:+ str day +:+ ". "
                +:+ "Cron runs on DOW, use should_run() to validate both conditions."])).
Proof.
  intros H. apply observe_slots in H as [b [Hb [Hk Hc]]].
  pose proof (Hk DayOfWeek) as Hd. unfold expr_at in Hd. simpl in Hd.
  destruct (field_objs s !! CronBuilderObj.day_of_week b) as [D|] eqn:HD;
    [|discriminate].
  injection Hd as Hd. unfold CronBuilder.and_dom, is_wildcard.
  rewrite (bind_run_Ok _ _ _ _ _ (get_builder_run _ _ _ Hb)).
  rewrite (bind_run_Ok _ _ _ _ _ (get_field_run _ _ _ HD)).
  rewrite Hd. destruct (String.eqb _ "any"); reflexivity.
Qed.

(** Close a goal about slot [k] with the instance of [H] at that slot. *)
Ltac by_slot H k :=
  destruct k;
  [exact (H Minute)|exact (H Hour)|exact (H DayOfMonth)
  |exact (H MonthOfYear)|exact (H DayOfWeek)].

(** Recording a conjunction: the builder returned observes as the receiver
    did, with the conjunction replaced; the receiver itself is replaced in
    place in mutable mode and left alone in immutable mode. *)
Lemma copy_with_conjunction_run s self o c :
  observe s self = Some o ->
  exists b' s',
    CronBuilder._copy_with self (CronBuilder._conjunction_kw c) s = (Ok b', s')
    /\ observe s' b' = Some (set_conjunction o (Some c))
    /\ field_objs s `prefix_of` field_objs s'
    /\ warned s' = warned s
    /\ (is_immutable s self = true -> extends s s' /\ b' = length (builder_objs s))
    /\ (is_immutable s self = false -> b' = self)
    /\ is_immutable s' b' = is_immutable s self
    /\ (wf_conjunction (Some c) = true -> wf_builder s self = true ->
        wf_builder s' b' = true).
Proof.
  intros Ho. pose proof Ho as Ho'.
  apply observe_slots in Ho' as [b [Hb [Hk Hc]]].
  unfold is_immutable. rewrite Hb.
  destruct (CronBuilderObj.immutable b) eqn:Himm.
  - rewrite (copy_with_immutable_run _ _ b) by assumption.
    eexists _, _. split; [reflexivity|].
    pose proof (extends_app s (fresh_fields true)
      [CronBuilder.with_kwargs true b (CronBuilder._conjunction_kw c)] (warned s))
      as Hext.
    split.
    { apply observe_slots. eexists. split; [apply lookup_at_end|].
      split; [|reflexivity].
      intros k. apply (extends_expr_at _ _ _ _ Hext).
      by_slot Hk k. }
    split; [apply Hext|]. split; [reflexivity|].
    split; [auto|]. split; [discriminate|].
    split; [simpl; rewrite lookup_at_end; reflexivity|].
    intros Hwc Hwf. apply wf_builder_slots in Hwf as [b0 [Hb0 [Hwk _]]].
    rewrite Hb in Hb0. injection Hb0 as <-. rewrite Himm in Hwk.
    apply wf_builder_slots. eexists. split; [apply lookup_at_end|].
    split; [|exact Hwc].
    intros k. apply (extends_wf_field _ _ _ _ Hext).
    by_slot Hwk k.
  - rewrite (copy_with_mutable_run _ _ b) by assumption.
    assert (self < length (builder_objs s))%nat as Hlt
      by (apply lookup_lt_is_Some; eauto).
    eexists _, _. split; [reflexivity|].
    split.
    { apply observe_slots. eexists. split.
      - simpl. apply list_lookup_insert_eq. exact Hlt.
      - split; [|reflexivity]. intros k. unfold expr_at. simpl.
        by_slot Hk k. }
    split; [reflexivity|]. split; [reflexivity|].
    split; [discriminate|]. split; [auto|].
    split; [simpl; rewrite list_lookup_insert_eq by exact Hlt; reflexivity|].
    intros Hwc Hwf. apply wf_builder_slots in Hwf as [b0 [Hb0 [Hwk _]]].
    rewrite Hb in Hb0. injection Hb0 as <-. rewrite Himm in Hwk.
    apply wf_builder_slots. eexists. split.
    + simpl. apply list_lookup_insert_eq. exact Hlt.
    + split; [|exact Hwc]. intros k. unfold wf_field. simpl.
      by_slot Hwk k.
Qed.

Lemma wf_builder_parts s self k :
  wf_builder s self = true ->
  exists b F,
    builder_objs s !! self = Some b
    /\ CronBuilderObj.immutable b = is_immutable s self
    /\ field_objs s !! slot_get k b = Some F
    /\ wf_expr (CronFieldObj.expr F) = true
    /\ CronFieldObj.immutable F = is_immutable s self.
Proof.
  intros H. apply wf_builder_slots in H as [b [Hb [Hk _]]].
  destruct (proj1 (wf_field_lookup _ _ _) (Hk k)) as [F [HF [Hwf HFi]]].
  exists b, F. unfold is_immutable. rewrite Hb. auto.
Qed.

Lemma single_immutable_step k op self s :
  setter_outcome op ->
  wf_builder s self = true ->
  is_immutable s self = true ->
  (exists msg, single k op self s = (Raise (ValueError msg), s))
  \/ (exists s',
        single k op self s = (Ok (length (builder_objs s)), s')
        /\ extends s s'
        /\ wf_builder s' (length (builder_objs s)) = true
        /\ is_immutable s' (length (builder_objs s)) = true).
Proof.
  intros Hop Hwf Himm.
  destruct (wf_builder_parts s self k Hwf) as [b [F [Hb [Hbi [HF [_ HFi]]]]]].
  rewrite Himm in Hbi, HFi.
  destruct (single_immutable_run k op self s b F Hop Hb Hbi HF HFi)
    as [Hr|[e [He Hr]]]; [left; exact Hr|right].
  eexists. split; [exact Hr|].
  pose proof (extends_app s (with_expr F e :: fresh_fields true)
    [CronBuilder.with_kwargs true b (slot_kw k (length (field_objs s)))]
    (warned s)) as Hext.
  split; [exact Hext|].
  apply wf_builder_slots in Hwf as [b0 [Hb0 [Hwk Hwc]]].
  rewrite Hb in Hb0. injection Hb0 as <-. rewrite Hbi in Hwk.
  split.
  - apply wf_builder_slots. eexists. split; [apply lookup_at_end|].
    split; [|rewrite conjunction_with_slot_kw; exact Hwc].
    intros j. rewrite slot_get_with_kwargs. simpl. destruct (decide (j = k)).
    + apply wf_field_lookup. exists (with_expr F e). simpl.
      split; [|split; [exact He|exact HFi]].
      rewrite lookup_app_r by lia.
      replace (length (field_objs s) - length (field_objs s))%nat with 0%nat by lia.
      reflexivity.
    + apply (extends_wf_field _ _ _ _ Hext). apply Hwk.
  - unfold is_immutable. simpl. rewrite lookup_at_end. reflexivity.
Qed.

Lemma wf_field_after_set s imm l f F e w :
  field_objs s !! f = Some F ->
  wf_expr e = true ->
  wf_field s imm l = true ->
  wf_field (Store (<[f := with_expr F e]> (field_objs s)) (builder_objs s) w)
    imm l = true.
Proof.
  intros HF He H. apply wf_field_lookup in H as [G [HG [Hwf Hi]]].
  apply wf_field_lookup. simpl.
  assert (f < length (field_objs s))%nat as Hlt by (apply lookup_lt_is_Some; eauto).
  destruct (decide (f = l)) as [->|Hne].
  - exists (with_expr F e). rewrite list_lookup_insert_eq by exact Hlt.
    rewrite HF in HG. injection HG as <-. auto.
  - exists G. rewrite list_lookup_insert_ne by exact Hne. auto.
Qed.

Lemma single_mutable_step k op self s :
  setter_outcome op ->
  wf_builder s self = true ->
  is_immutable s self = false ->
  (exists msg, single k op self s = (Raise (ValueError msg), s))
  \/ (exists s',
        single k op self s = (Ok self, s')
        /\ wf_builder s' self = true
        /\ is_immutable s' self = false).
Proof.
  intros Hop Hwf Himm.
  destruct (wf_builder_parts s self k Hwf) as [b [F [Hb [Hbi [HF [HFwf HFi]]]]]].
  rewrite Himm in Hbi, HFi.
  destruct (single_mutable_run k op self s b F Hop Hb Hbi HF HFi HFwf)
    as [Hr|[e [w [He Hr]]]]; [left; exact Hr|right].
  eexists. split; [exact Hr|].
  apply wf_builder_slots in Hwf as [b0 [Hb0 [Hwk Hwc]]].
  rewrite Hb in Hb0. injection Hb0 as <-.
  split.
  - apply wf_builder_slots. exists b. split; [exact Hb|].
    split; [|exact Hwc].
    intros j. apply (wf_field_after_set _ _ _ _ _ _ _ HF He). apply Hwk.
  - unfold is_immutable. simpl. rewrite Hb. exact Hbi.
Qed.

(** ** Every call that is not a combinator has one of three shapes *)

Lemma primitive_shape_of c : chained c = false -> primitive_shape c.
Proof.
  destruct c; simpl; try discriminate; intros _;
    try (eapply shape_and_dow; reflexivity);
    try (eapply shape_and_dom; reflexivity).
  - apply (shape_single _ Minute (fun f => CronField.set_value f minute));
      [apply set_value_outcome|reflexivity].
  - apply (shape_single _ Minute (fun f => CronField.set_values f minutes));
      [apply set_values_outcome|reflexivity].
  - apply (shape_single _ Minute (fun f => CronField.set_interval f interval None));
      [apply set_interval_outcome|reflexivity].
  - apply (shape_single _ Minute (fun f => CronField.set_range f start end_));
      [apply set_range_outcome|reflexivity].
  - apply (shape_single _ Hour (fun f => CronField.set_value f hour));
      [apply set_value_outcome|reflexivity].
  - apply (shape_single _ Hour (fun f => CronField.set_values f hours));
      [apply set_values_outcome|reflexivity].
  - apply (shape_single _ Hour (fun f => CronField.set_interval f interval None));
      [apply set_interval_outcome|reflexivity].
  - apply (shape_single _ Hour (fun f => CronField.set_range f start end_));
      [apply set_range_outcome|reflexivity].
  - apply (shape_single _ DayOfMonth (fun f => CronField.set_value f day));
      [apply set_value_outcome|reflexivity].
  - apply (shape_single _ DayOfMonth (fun f => CronField.set_values f days));
      [apply set_values_outcome|reflexivity].
  - apply (shape_single _ DayOfMonth (fun f => CronField.set_range f start end_));
      [apply set_range_outcome|reflexivity].
  - apply (shape_single _ MonthOfYear
             (fun f => CronField.set_value f (month_val month)));
      [apply set_value_outcome|reflexivity].
  - apply (shape_single _ MonthOfYear
             (fun f => CronField.set_values f (map month_val months)));
      [apply set_values_outcome|reflexivity].
  - apply (shape_single _ MonthOfYear
             (fun f => CronField.set_range f (month_val start) (month_val end_)));
      [apply set_range_outcome|reflexivity].
  - apply (shape_single _ DayOfWeek
             (fun f => CronField.set_value f (weekday_val day)));
      [apply set_value_outcome|reflexivity].
  - apply (shape_single _ DayOfWeek
             (fun f => CronField.set_values f (map weekday_val days)));
      [apply set_values_outcome|reflexivity].
  - apply (shape_single _ DayOfWeek (fun f => CronField.set_range f 1 5));
      [apply set_range_outcome|reflexivity].
  - apply (shape_single _ DayOfWeek (fun f => CronField.set_values f [0; 6]));
      [apply set_values_outcome|reflexivity].
  - apply (shape_single _ DayOfWeek
             (fun f => CronField.set_range f (weekday_val start) (weekday_val end_)));
      [apply set_range_outcome|reflexivity].
  - apply (shape_single _ Minute
             (fun f => CronField.set_value f (default 0 minute)));
      [apply set_value_outcome|reflexivity].
Qed.

(** ** The combinators as chains of single-field setters *)

Lemma chain_of_primitive c : Forall (fun c' => chained c' = false) (chain_of c).
Proof. destruct c; simpl; repeat constructor. Qed.

Ltac run_binds :=
  repeat (rewrite ?bind_run;
          match goal with
          | |- context [match ?m ?s with _ => _ end] =>
              destruct (m s) as [[?|?] ?]
          end);
  try reflexivity.

Lemma invoke_chain_of c self s :
  invoke c self s = invoke_chain (chain_of c) self s.
Proof.
  destruct c; simpl;
    unfold CronBuilder.daily, CronBuilder.weekly, CronBuilder.monthly,
      CronBuilder.yearly, CronBuilder.at_; simpl; run_binds.
Qed.

Lemma invoke_chain_app cs1 cs2 self s :
  invoke_chain (cs1 ++ cs2) self s
  = (invoke_chain cs1 self ≫= invoke_chain cs2) s.
Proof.
  revert self s. induction cs1 as [|c cs1 IH]; intros self s; simpl.
  - reflexivity.
  - rewrite !bind_run. destruct (invoke c self s) as [[b|e] s1]; [|reflexivity].
    rewrite IH, bind_run. reflexivity.
Qed.

Lemma invoke_chain_flatten cs self s :
  invoke_chain cs self s = invoke_chain (flat_map chain_of cs) self s.
Proof.
  revert self s. induction cs as [|c cs IH]; intros self s; simpl; [reflexivity|].
  rewrite invoke_chain_app, !bind_run, <- invoke_chain_of.
  destruct (invoke c self s) as [[b|e] s1]; [apply IH|reflexivity].
Qed.

(** ** One call that is not a combinator *)

Lemma primitive_step c self s :
  chained c = false ->
  wf_builder s self = true ->
  (exists msg, invoke c self s = (Raise (ValueError msg), s))
  \/ (exists b' s',
        invoke c self s = (Ok b', s')
        /\ wf_builder s' b' = true
        /\ is_immutable s' b' = is_immutable s self
        /\ (is_immutable s self = true ->
            extends s s' /\ b' = length (builder_objs s))).
Proof.
  intros Hc Hwf. destruct (primitive_shape_of c Hc) as [k op Hop Hinv|d ->|d ->].
  - rewrite Hinv. destruct (is_immutable s self) eqn:Himm.
    + destruct (single_immutable_step k op self s Hop Hwf Himm)
        as [Hr|[s' [Hr [Hext [Hwf' Himm']]]]]; [left; exact Hr|right].
      exists (length (builder_objs s)), s'. auto.
    + destruct (single_mutable_step k op self s Hop Hwf Himm)
        as [Hr|[s' [Hr [Hwf' Himm']]]]; [left; exact Hr|right].
      exists self, s'. split; [exact Hr|]. split; [exact Hwf'|].
      split; [exact Himm'|discriminate].
  - destruct (wf_builder_observe _ _ Hwf) as [o Ho]. simpl.
    rewrite (and_dow_run _ _ _ _ Ho).
    destruct (is_wildcard (o_day_of_month o)); [left; eexists; reflexivity|right].
    set (s1 := Store _ _ _).
    assert (extends s s1 /\ extends s1 s) as [H1 H2]
      by (split; split; reflexivity).
    destruct (copy_with_conjunction_run s1 self o ("dow", weekday_val d))
      as [b' [s' [Hr [_ [_ [_ [Hi [_ [Him Hw]]]]]]]]].
    { exact (extends_observe _ _ _ _ H1 Ho). }
    exists b', s'. split; [exact Hr|].
    split; [apply Hw; [reflexivity|exact (extends_wf_builder _ _ _ H1 Hwf)]|].
    split; [rewrite Him; reflexivity|].
    intros Himm. destruct (Hi Himm) as [Hext ->].
    split; [exact (extends_trans _ _ _ H1 Hext)|reflexivity].
  - destruct (wf_builder_observe _ _ Hwf) as [o Ho]. simpl.
    rewrite (and_dom_run _ _ _ _ Ho).
    destruct (is_wildcard (o_day_of_week o)); [left; eexists; reflexivity|right].
    set (s1 := Store _ _ _).
    assert (extends s s1 /\ extends s1 s) as [H1 H2]
      by (split; split; reflexivity).
    destruct (copy_with_conjunction_run s1 self o ("dom", d))
      as [b' [s' [Hr [_ [_ [_ [Hi [_ [Him Hw]]]]]]]]].
    { exact (extends_observe _ _ _ _ H1 Ho). }
    exists b', s'. split; [exact Hr|].
    split; [apply Hw; [reflexivity|exact (extends_wf_builder _ _ _ H1 Hwf)]|].
    split; [rewrite Him; reflexivity|].
    intros Himm. destruct (Hi Himm) as [Hext ->].
    split; [exact (extends_trans _ _ _ H1 Hext)|reflexivity].
Qed.

(** ** Chains of calls *)

Lemma primitive_chain_step cs self s :
  Forall (fun c => chained c = false) cs ->
  wf_builder s self = true ->
  exists r s',
    invoke_chain cs self s = (r, s')
    /\ (is_immutable s self = true -> extends s s')
    /\ (forall b', r = Ok b' ->
        wf_builder s' b' = true /\ is_immutable s' b' = is_immutable s self).
Proof.
  intros Hcs. revert self s.
  induction Hcs as [|c cs Hc _ IH]; intros self s Hwf; simpl.
  - exists (Ok self), s. split; [reflexivity|].
    split; [intros _; apply extends_refl|].
    intros b' [= <-]. auto.
  - rewrite bind_run.
    destruct (primitive_step c self s Hc Hwf)
      as [[msg Hr]|[b1 [s1 [Hr [Hwf1 [Him1 Hext1]]]]]]; rewrite Hr.
    + eexists _, _. split; [reflexivity|].
      split; [intros _; apply extends_refl|discriminate].
    + destruct (IH b1 s1 Hwf1) as [r [s' [Hrun [Hext Hres]]]].
      exists r, s'. split; [exact Hrun|]. split.
      * intros Himm. apply (extends_trans _ s1).
        -- apply Hext1. exact Himm.
        -- apply Hext. rewrite Him1. exact Himm.
      * intros b' Hb'. destruct (Hres b' Hb') as [? ?].
        split; [assumption|congruence].
Qed.

Lemma chain_step cs self s :
  wf_builder s self = true ->
  exists r s',
    invoke_chain cs self s = (r, s')
    /\ (is_immutable s self = true -> extends s s')
    /\ (forall b', r = Ok b' ->
        wf_builder s' b' = true /\ is_immutable s' b' = is_immutable s self).
Proof.
  intros Hwf. rewrite invoke_chain_flatten.
  apply primitive_chain_step; [|exact Hwf].
  induction cs as [|c cs IH]; simpl; [constructor|].
  apply Forall_app. split; [apply chain_of_primitive|exact IH].
Qed.

Lemma call_step c self s :
  wf_builder s self = true ->
  exists r s',
    invoke c self s = (r, s')
    /\ (is_immutable s self = true -> extends s s')
    /\ (forall b', r = Ok b' ->
        wf_builder s' b' = true /\ is_immutable s' b' = is_immutable s self).
Proof.
  intros Hwf. rewrite invoke_chain_of.
  apply primitive_chain_step; [apply chain_of_primitive|exact Hwf].
Qed.

(** The constructor establishes the invariant. *)
Lemma init_wf immutable s :
  exists s',
    CronBuilder.__init__ immutable s = (Ok (length (builder_objs s)), s')
    /\ wf_builder s' (length (builder_objs s)) = true
    /\ is_immutable s' (length (builder_objs s)) = immutable
    /\ extends s s'.
Proof.
  rewrite builder_init_run. eexists. split; [reflexivity|].
  split; [|split; [|apply extends_app]].
  - unfold wf_builder. simpl. rewrite lookup_at_end. simpl.
    unfold wf_field. simpl.
    rewrite !lookup_app_r by lia.
    replace (length (field_objs s) - length (field_objs s))%nat with 0%nat by lia.
    replace (S (length (field_objs s)) - length (field_objs s))%nat with 1%nat by lia.
    replace (S (S (length (field_objs s))) - length (field_objs s))%nat
      with 2%nat by lia.
    replace (S (S (S (length (field_objs s)))) - length (field_objs s))%nat
      with 3%nat by lia.
    replace (S (S (S (S (length (field_objs s))))) - length (field_objs s))%nat
      with 4%nat by lia.
    simpl. rewrite Bool.eqb_reflx. reflexivity.
  - unfold is_immutable. simpl. rewrite lookup_at_end. reflexivity.
Qed.

Lemma wf_builder_observation s self :
  wf_builder s self = true ->
  exists o,
    observe s self = Some o
    /\ (forall k, wf_expr (slot_obs k o) = true)
    /\ wf_conjunction (o_conjunction o) = true.
Proof.
  intros Hwf. destruct (wf_builder_observe _ _ Hwf) as [o Ho].
  exists o. split; [exact Ho|].
  apply wf_builder_slots in Hwf as [b [Hb [Hwk Hwc]]].
  apply observe_slots in Ho as [b0 [Hb0 [Hk Hc]]].
  rewrite Hb in Hb0. injection Hb0 as <-.
  split; [|rewrite <- Hc; exact Hwc].
  intros k. specialize (Hwk k). specialize (Hk k).
  apply wf_field_lookup in Hwk as [F [HF [HFwf _]]].
  unfold expr_at in Hk. rewrite HF in Hk. injection Hk as <-. exact HFwf.
Qed.

Lemma str_run s self o :
  observe s self = Some o ->
  CronBuilder.__str__ self s = (render_tokens o, s).
Proof.
  intros H. apply observe_slots in H as [b [Hb [Hk _]]].
  assert (forall k, CronField.__str__ (slot_get k b) s
                    = (CronExpr.to_cron_str (slot_obs k o), s)) as Hs.
  { intros k. specialize (Hk k). unfold expr_at in Hk.
    destruct (field_objs s !! slot_get k b) as [F|] eqn:HF; [|discriminate].
    injection Hk as <-. unfold CronField.__str__.
    rewrite (bind_run_Ok _ _ _ _ _ (get_field_run _ _ _ HF)). reflexivity. }
  pose proof (Hs Minute) as H1. pose proof (Hs Hour) as H2.
  pose proof (Hs DayOfMonth) as H3. pose proof (Hs MonthOfYear) as H4.
  pose proof (Hs DayOfWeek) as H5. simpl in H1, H2, H3, H4, H5.
  unfold CronBuilder.__str__, render_tokens.
  rewrite (bind_run_Ok _ _ _ _ _ (get_builder_run _ _ _ Hb)).
  rewrite bind_run, H1.
  destruct (CronExpr.to_cron_str (o_minute o)); [|reflexivity].
  rewrite bind_run, H2.
  destruct (CronExpr.to_cron_str (o_hour o)); [|reflexivity].
  rewrite bind_run, H3.
  destruct (CronExpr.to_cron_str (o_day_of_month o)); [|reflexivity].
  rewrite bind_run, H4.
  destruct (CronExpr.to_cron_str (o_month o)); [|reflexivity].
  rewrite bind_run, H5.
  destruct (CronExpr.to_cron_str (o_day_of_week o)); reflexivity.
Qed.

(** [_apply] in either mode: the field returned holds the new expression
    and keeps the bounds, the name and the mode. *)
Lemma apply_run s f F e :
  field_objs s !! f = Some F ->
  wf_expr (CronFieldObj.expr F) = true ->
  wf_expr e = true ->
  exists f' s',
    CronField._apply f e s = (Ok f', s')
    /\ field_objs s' !! f' = Some (with_expr F e).
Proof.
  intros HF Hold Hnew. destruct (CronFieldObj.immutable F) eqn:Himm.
  - rewrite (apply_immutable_run _ _ _ _ HF Himm).
    eexists _, _. split; [reflexivity|]. simpl. apply lookup_at_end.
  - destruct (apply_mutable_run _ _ _ e HF Himm Hold Hnew) as [w Hw].
    rewrite Hw. eexists _, _. split; [reflexivity|]. simpl.
    apply list_lookup_insert_eq. apply lookup_lt_is_Some. eauto.
Qed.

Lemma immutable_chain_fresh cs self s r s' :
  Forall (fun c => chained c = false) cs ->
  cs <> [] ->
  wf_builder s self = true ->
  is_immutable s self = true ->
  invoke_chain cs self s = (r, s') ->
  forall b', r = Ok b' -> (length (builder_objs s) <= b')%nat.
Proof.
  intros Hcs. revert self s.
  induction Hcs as [|c cs Hc Hcs IH]; intros self s Hne Hwf Himm Hrun b' ->;
    [congruence|].
  simpl in Hrun. rewrite bind_run in Hrun.
  destruct (primitive_step c self s Hc Hwf)
    as [[msg Hr]|[b1 [s1 [Hr [Hwf1 [Him1 Hext1]]]]]]; rewrite Hr in Hrun;
    [discriminate|].
  destruct (Hext1 Himm) as [[_ Hpre] ->].
  destruct cs as [|c' cs'].
  - simpl in Hrun. injection Hrun as <- _. lia.
  - apply prefix_length in Hpre.
    assert (length (builder_objs s1) <= b')%nat; [|lia].
    eapply (IH _ s1); [discriminate|exact Hwf1|congruence|exact Hrun|reflexivity].
Qed.

Lemma chain_of_nonempty c : chain_of c <> [].
Proof. destruct c; discriminate. Qed.

(** A conjunction setter whose prerequisite field is set succeeds and
    returns a builder that observes as the receiver did, with the conjunction
    recorded. *)
Lemma and_dow_succeeds s self o day :
  observe s self = Some o ->
  is_wildcard (o_day_of_month o) = false ->
  exists b' s',
    CronBuilder.and_dow self day s = (Ok b', s')
    /\ observe s' b' = Some (set_conjunction o (Some ("dow", weekday_val day))).
Proof.
  intros Ho Hw. rewrite (and_dow_run _ _ _ _ Ho), Hw.
  set (s1 := Store _ _ _).
  assert (extends s s1) as H1 by (split; reflexivity).
  destruct (copy_with_conjunction_run s1 self o ("dow", weekday_val day)
              (extends_observe _ _ _ _ H1 Ho)) as [b' [s' [Hr [Hobs _]]]].
  exists b', s'. auto.
Qed.

Lemma and_dom_succeeds s self o day :
  observe s self = Some o ->
  is_wildcard (o_day_of_week o) = false ->
  exists b' s',
    CronBuilder.and_dom self day s = (Ok b', s')
    /\ observe s' b' = Some (set_conjunction o (Some ("dom", day))).
Proof.
  intros Ho Hw. rewrite (and_dom_run _ _ _ _ Ho), Hw.
  set (s1 := Store _ _ _).
  assert (extends s s1) as H1 by (split; reflexivity).
  destruct (copy_with_conjunction_run s1 self o ("dom", day)
              (extends_observe _ _ _ _ H1 Ho)) as [b' [s' [Hr [Hobs _]]]].
  exists b', s'. auto.
Qed.

Lemma valid_day_range dt :
  datetime.valid dt = true -> 1 <= datetime.day dt <= 31.
Proof.
  unfold datetime.valid. rewrite !andb_true_iff, !Z.leb_le.
  intros [[[[[[[[[[[_ _] _] _] H1] H2] _] _] _] _] _] _].
  split; [exact H1|].
  assert (datetime.days_in_month (datetime.year dt) (datetime.month dt) <= 31);
    [|lia].
  unfold datetime.days_in_month.
  repeat match goal with |- context [if ?c then _ else _] => destruct c end; lia.
Qed.

Lemma init_observe immutable s :
  observe (snd (CronBuilder.__init__ immutable s)) (length (builder_objs s))
  = Some fresh_observation.
Proof.
  rewrite builder_init_run. simpl.
  apply observe_slots. eexists. split; [simpl; apply lookup_at_end|].
  split; [|reflexivity].
  intros k. unfold expr_at. simpl.
  rewrite lookup_app_r by (destruct k; simpl; lia).
  destruct k; simpl.
  - replace (length (field_objs s) - length (field_objs s))%nat with 0%nat by lia.
    reflexivity.
  - replace (S (length (field_objs s)) - length (field_objs s))%nat
      with 1%nat by lia.
    reflexivity.
  - replace (S (S (length (field_objs s))) - length (field_objs s))%nat
      with 2%nat by lia.
    reflexivity.
  - replace (S (S (S (length (field_objs s)))) - length (field_objs s))%nat
      with 3%nat by lia.
    reflexivity.
  - replace (S (S (S (S (length (field_objs s))))) - length (field_objs s))%nat
      with 4%nat by lia.
    reflexivity.
Qed.

(** Every builder obtained from the constructor by a chain of calls
    satisfies [wf_builder] and keeps the mode it was constructed with. *)
Lemma reachable_wf immutable cs s r s' :
  (CronBuilder.__init__ immutable ≫= invoke_chain cs) s = (r, s') ->
  forall b, r = Ok b -> wf_builder s' b = true /\ is_immutable s' b = immutable.
Proof.
  intros Hrun b ->. rewrite bind_run in Hrun.
  destruct (init_wf immutable s) as [s0 [Hinit [Hwf [Himm _]]]].
  rewrite Hinit in Hrun.
  destruct (chain_step cs _ s0 Hwf) as [r1 [s1 [Hr [_ Hres]]]].
  rewrite Hr in Hrun. injection Hrun as -> ->.
  destruct (Hres b eq_refl) as [? ?]. split; [assumption|congruence].
Qed.

(** * The claims *)

(** C1. For every builder and every timestamp, [should_run(timestamp)] is
    the reference definition: [true] when no conjunction is recorded;
    otherwise, with the weekday converted to [0..6] with Sunday = 0, under
    a [dow] anchor the day-of-month expression must match the day of the
    month and the converted weekday must equal the anchor value, and under a
    [dom] anchor the day-of-week expression must match the converted weekday
    and the day of the month must equal the anchor value. The call returns a
    boolean and leaves the store as it was. *)
Theorem should_run_is_reference s self now timestamp :
  wf_builder s self = true ->
  exists o r,
    observe s self = Some o
    /\ should_run_reference o timestamp = Ok r
    /\ CronBuilder.should_run now self (Some timestamp) s = (Ok r, s).
Proof.
  intros Hwf. destruct (wf_builder_observation _ _ Hwf) as [o [Ho [Hk Hc]]].
  assert (exists r, should_run_reference o timestamp = Ok r) as [r Hr].
  { unfold should_run_reference.
    destruct (o_conjunction o) as [[tag v]|]; [|eauto].
    simpl in Hc. destruct (String.eqb tag "dow").
    - destruct (wf_expr_matches _ (datetime.day timestamp) (Hk DayOfMonth))
        as [m Hm].
      simpl in Hm. rewrite Hm. simpl. eauto.
    - simpl in Hc. rewrite Hc.
      destruct (wf_expr_matches _ (sunday_based timestamp) (Hk DayOfWeek))
        as [m Hm].
      simpl in Hm. rewrite Hm. simpl. eauto. }
  exists o, r. split; [exact Ho|]. split; [exact Hr|].
  rewrite (should_run_run _ _ _ _ _ Ho). simpl.
  rewrite (should_run_on_reference _ _ Hc), Hr. reflexivity.
Qed.

Lemma should_run_is_reference_witness :
  exists o r,
    observe first_monday_store 2%nat = Some o
    /\ should_run_reference o (datetime.date 2025 1 13) = Ok r
    /\ CronBuilder.should_run (datetime.date 2024 1 1) 2%nat
         (Some (datetime.date 2025 1 13)) first_monday_store
       = (Ok r, first_monday_store).
Proof.
  apply (should_run_is_reference first_monday_store 2%nat
           (datetime.date 2024 1 1) (datetime.date 2025 1 13)).
  vm_compute. reflexivity.
Defined.

(** C2, the claim as stated fails: on a field whose bounds contain [-1],
    [set_interval(2, -1)] has an explicit in-bounds start, yet the
    expression matches [0], which [x >= start and (x - start) % interval == 0]
    does not. *)
Lemma set_interval_explicit_sentinel_counterexample :
  exists F f' s' F',
    field_objs offset_field_store !! 0%nat = Some F
    /\ in_bounds F (-1) = true
    /\ in_bounds F 0 = true
    /\ CronField.set_interval 0%nat 2 (Some (-1)) offset_field_store = (Ok f', s')
    /\ field_objs s' !! f' = Some F'
    /\ CronExpr.matches (CronFieldObj.expr F') 0 = Ok true
    /\ (0 >=? -1) && ((0 - -1) `mod` 2 =? 0) = false.
Proof. vm_compute. eexists _, _, _, _. repeat split; reflexivity. Qed.

(** C2, amended. For every field with bounds [min,max] and every
    interval > 0: after [set_interval(interval)] the expression's
    [matches(x)] is [x % interval == 0]; after [set_interval(interval, start)]
    with an explicit in-bounds start other than the sentinel [-1],
    [matches(x)] is [x >= start and (x - start) % interval == 0]; both for
    every [x] in [min,max]. *)
Theorem set_interval_matches s f F interval start_arg :
  field_objs s !! f = Some F ->
  wf_expr (CronFieldObj.expr F) = true ->
  0 < interval ->
  match start_arg with
  | None => True
  | Some start => in_bounds F start = true /\ start <> -1
  end ->
  exists f' s' F',
    CronField.set_interval f interval start_arg s = (Ok f', s')
    /\ field_objs s' !! f' = Some F'
    /\ CronFieldObj.min_val F' = CronFieldObj.min_val F
    /\ CronFieldObj.max_val F' = CronFieldObj.max_val F
    /\ forall x,
         CronFieldObj.min_val F <= x <= CronFieldObj.max_val F ->
         CronExpr.matches (CronFieldObj.expr F') x
         = Ok match start_arg with
              | None => x `mod` interval =? 0
              | Some start => (x >=? start) && ((x - start) `mod` interval =? 0)
              end.
Proof.
  intros HF Hwf Hpos Hstart.
  assert (wf_expr (CronExpr.mk "step" [default (-1) start_arg; interval]) = true)
    as Hnew by (unfold wf_expr; simpl; apply Z.ltb_lt; lia).
  destruct (apply_run s f F _ HF Hwf Hnew) as [f' [s' [Hr HF']]].
  exists f', s', (with_expr F (CronExpr.mk "step" [default (-1) start_arg; interval])).
  split.
  { unfold CronField.set_interval.
    assert ((interval <=? 0) = false) as -> by (apply Z.leb_gt; lia).
    rewrite bind_run. destruct start_arg as [start|]; simpl.
    - destruct Hstart as [Hin Hne].
      assert ((start =? -1) = false) as -> by (apply Z.eqb_neq; exact Hne).
      simpl. rewrite (validate_value_run _ _ _ _ HF), Hin. exact Hr.
    - exact Hr. }
  split; [exact HF'|]. split; [reflexivity|]. split; [reflexivity|].
  intros x _. unfold CronExpr.matches, py_mod. simpl.
  assert ((interval =? 0) = false) as -> by (apply Z.eqb_neq; lia).
  destruct start_arg as [start|]; simpl; [|reflexivity].
  destruct Hstart as [_ Hne].
  assert ((start =? -1) = false) as -> by (apply Z.eqb_neq; exact Hne).
  destruct (x >=? start); reflexivity.
Qed.

Lemma set_interval_matches_witness :
  exists f' s' F',
    CronField.set_interval 0%nat 15 (Some 10) mutable_store = (Ok f', s')
    /\ field_objs s' !! f' = Some F'
    /\ CronFieldObj.min_val F' = 0
    /\ CronFieldObj.max_val F' = 59
    /\ forall x,
         0 <= x <= 59 ->
         CronExpr.matches (CronFieldObj.expr F') x
         = Ok ((x >=? 10) && ((x - 10) `mod` 15 =? 0)).
Proof.
  apply (set_interval_matches mutable_store 0%nat
           (CronFieldObj.mk 0 59 "minute" false (CronExpr.mk "any" []))
           15 (Some 10)).
  - reflexivity.
  - reflexivity.
  - lia.
  - split; [reflexivity|lia].
Defined.

(** C3. For every field with bounds [min,max] and every pair with
    [min <= lo <= hi <= max], [set_range(lo, hi)] yields an expression whose
    [matches(x)] is [lo <= x <= hi] for every [x] in [min,max]. *)
Theorem set_range_matches s f F lo hi :
  field_objs s !! f = Some F ->
  wf_expr (CronFieldObj.expr F) = true ->
  CronFieldObj.min_val F <= lo ->
  lo <= hi ->
  hi <= CronFieldObj.max_val F ->
  exists f' s' F',
    CronField.set_range f lo hi s = (Ok f', s')
    /\ field_objs s' !! f' = Some F'
    /\ CronFieldObj.min_val F' = CronFieldObj.min_val F
    /\ CronFieldObj.max_val F' = CronFieldObj.max_val F
    /\ forall x,
         CronFieldObj.min_val F <= x <= CronFieldObj.max_val F ->
         CronExpr.matches (CronFieldObj.expr F') x = Ok ((lo <=? x) && (x <=? hi)).
Proof.
  intros HF Hwf Hlo Hle Hhi.
  assert (wf_expr (CronExpr.mk "range" [lo; hi]) = true) as Hnew by reflexivity.
  destruct (apply_run s f F _ HF Hwf Hnew) as [f' [s' [Hr HF']]].
  exists f', s', (with_expr F (CronExpr.mk "range" [lo; hi])).
  split.
  { unfold CronField.set_range.
    rewrite bind_run, (validate_value_run _ _ _ _ HF).
    assert (in_bounds F lo = true) as ->
      by (unfold in_bounds; apply andb_true_iff; split; apply Z.leb_le; lia).
    rewrite bind_run, (validate_value_run _ _ _ _ HF).
    assert (in_bounds F hi = true) as ->
      by (unfold in_bounds; apply andb_true_iff; split; apply Z.leb_le; lia).
    assert ((lo >? hi) = false) as -> by (rewrite Z.gtb_ltb; apply Z.ltb_ge; lia).
    exact Hr. }
  split; [exact HF'|]. split; [reflexivity|]. split; [reflexivity|].
  intros x _. unfold CronExpr.matches. simpl.
  destruct (lo <=? x); reflexivity.
Qed.

Lemma set_range_matches_witness :
  exists f' s' F',
    CronField.set_range 4%nat 1 5 immutable_store = (Ok f', s')
    /\ field_objs s' !! f' = Some F'
    /\ CronFieldObj.min_val F' = 0
    /\ CronFieldObj.max_val F' = 6
    /\ forall x,
         0 <= x <= 6 ->
         CronExpr.matches (CronFieldObj.expr F') x = Ok ((1 <=? x) && (x <=? 5)).
Proof.
  apply (set_range_matches immutable_store 4%nat
           (CronFieldObj.mk 0 6 "day_of_week" true (CronExpr.mk "any" []))
           1 5).
  - reflexivity.
  - reflexivity.
  - simpl. lia.
  - lia.
  - simpl. lia.
Defined.

(** C4. For every builder, [and_dow(day)] fails with the state error when
    the day-of-month expression is still the wildcard, and succeeds,
    recording the conjunction [(dow, day)], when it is anything else;
    [and_dom(day)] fails exactly when the day-of-week expression is still
    the wildcard; a failure changes nothing. *)
Theorem conjunction_precondition s self o :
  observe s self = Some o ->
  (forall day,
     if is_wildcard (o_day_of_month o)
     then CronBuilder.and_dow self day s = (Raise and_dow_error, s)
     else exists b' s',
            CronBuilder.and_dow self day s = (Ok b', s')
            /\ observe s' b'
               = Some (set_conjunction o (Some ("dow", weekday_val day))))
  /\ (forall day,
        if is_wildcard (o_day_of_week o)
        then CronBuilder.and_dom self day s = (Raise and_dom_error, s)
        else exists b' s',
               CronBuilder.and_dom self day s = (Ok b', s')
               /\ observe s' b' = Some (set_conjunction o (Some ("dom", day)))).
Proof.
  intros Ho. split; intros day.
  - destruct (is_wildcard (o_day_of_month o)) eqn:Hw.
    + rewrite (and_dow_run _ _ _ _ Ho), Hw. reflexivity.
    + exact (and_dow_succeeds s self o day Ho Hw).
  - destruct (is_wildcard (o_day_of_week o)) eqn:Hw.
    + rewrite (and_dom_run _ _ _ _ Ho), Hw. reflexivity.
    + exact (and_dom_succeeds s self o day Ho Hw).
Qed.

Lemma conjunction_precondition_witness :
  (forall day,
     exists b' s',
       CronBuilder.and_dow 1%nat day first_monday_store = (Ok b', s')
       /\ observe s' b'
          = Some (Obs (CronExpr.mk "any" []) (CronExpr.mk "any" [])
                      (CronExpr.mk "range" [1; 7]) (CronExpr.mk "any" [])
                      (CronExpr.mk "any" []) (Some ("dow", weekday_val day))))
  /\ (forall day,
        CronBuilder.and_dom 1%nat day first_monday_store
        = (Raise and_dom_error, first_monday_store)).
Proof.
  exact (conjunction_precondition first_monday_store 1%nat
           (Obs (CronExpr.mk "any" []) (CronExpr.mk "any" [])
                (CronExpr.mk "range" [1; 7]) (CronExpr.mk "any" [])
                (CronExpr.mk "any" []) None)
           eq_refl).
Defined.

(** C5, the claim as stated fails: on the minute field, bounds [0,59],
    [set_interval(5, -1)] is given a start outside the bounds and succeeds. *)
Lemma set_interval_sentinel_accepted_counterexample :
  exists F f' s',
    field_objs mutable_store !! 0%nat = Some F
    /\ in_bounds F (-1) = false
    /\ CronField.set_interval 0%nat 5 (Some (-1)) mutable_store = (Ok f', s').
Proof. vm_compute. eexists _, _, _. repeat split; reflexivity. Qed.

(** C5, amended. For every field, [set_interval(interval, start)] fails
    with the range error whenever [interval <= 0], and whenever a start
    other than the sentinel [-1] is given that lies outside the bounds; for
    all other inputs (interval > 0 and start omitted, equal to [-1], or
    within bounds) it succeeds. A failure changes nothing. *)
Theorem set_interval_outcomes s f F interval start_arg :
  field_objs s !! f = Some F ->
  wf_expr (CronFieldObj.expr F) = true ->
  (interval <= 0 ->
   CronField.set_interval f interval start_arg s
   = (Raise (ValueError ("Interval must be positive, got " +:+ str interval)), s))
  /\ (forall start,
        0 < interval -> start_arg = Some start -> start <> -1 ->
        in_bounds F start = false ->
        CronField.set_interval f interval start_arg s
        = (Raise (ValueError (bounds_message F start)), s))
  /\ (0 < interval ->
      start_arg = None \/ start_arg = Some (-1)
      \/ (exists start, start_arg = Some start /\ in_bounds F start = true) ->
      exists f' s', CronField.set_interval f interval start_arg s = (Ok f', s')).
Proof.
  intros HF Hwf. unfold CronField.set_interval. split; [|split].
  - intros Hle. assert ((interval <=? 0) = true) as -> by (apply Z.leb_le; lia).
    reflexivity.
  - intros start Hpos -> Hne Hout.
    assert ((interval <=? 0) = false) as -> by (apply Z.leb_gt; lia).
    simpl. assert ((start =? -1) = false) as -> by (apply Z.eqb_neq; exact Hne).
    rewrite bind_run. simpl. rewrite (validate_value_run _ _ _ _ HF), Hout.
    reflexivity.
  - intros Hpos Hstart.
    assert ((interval <=? 0) = false) as -> by (apply Z.leb_gt; lia).
    assert (wf_expr (CronExpr.mk "step" [default (-1) start_arg; interval]) = true)
      as Hnew by (unfold wf_expr; simpl; apply Z.ltb_lt; lia).
    destruct (apply_run s f F _ HF Hwf Hnew) as [f' [s' [Hr _]]].
    exists f', s'. rewrite bind_run.
    destruct (default (-1) start_arg =? -1) eqn:Hs; simpl; [exact Hr|].
    rewrite (validate_value_run _ _ _ _ HF).
    destruct Hstart as [->|[->|[start [-> Hin]]]]; try discriminate.
    simpl. rewrite Hin. exact Hr.
Qed.

Lemma set_interval_outcomes_witness :
  CronField.set_interval 0%nat 15 (Some 100) mutable_store
  = (Raise (ValueError "minute must be between 0 and 59, got 100"), mutable_store).
Proof.
  destruct (set_interval_outcomes mutable_store 0%nat
              (CronFieldObj.mk 0 59 "minute" false (CronExpr.mk "any" []))
              15 (Some 100) eq_refl eq_refl) as [_ [H _]].
  exact (H 100 eq_refl eq_refl ltac:(discriminate) eq_refl).
Defined.

(** C6, the claim as stated fails: on a mutable builder [at(9, 60)] sets
    the hour, then fails on the minute; the hour stays set. *)
Lemma at_leaves_hour_set_counterexample :
  exists s',
    invoke (Call_at 9 (Some 60)) 0%nat mutable_store
    = (Raise (ValueError "minute must be between 0 and 59, got 60"), s')
    /\ observe mutable_store 0%nat
       = Some (Obs (CronExpr.mk "any" []) (CronExpr.mk "any" [])
                   (CronExpr.mk "any" []) (CronExpr.mk "any" [])
                   (CronExpr.mk "any" []) None)
    /\ observe s' 0%nat
       = Some (Obs (CronExpr.mk "any" []) (CronExpr.mk "value" [9])
                   (CronExpr.mk "any" []) (CronExpr.mk "any" [])
                   (CronExpr.mk "any" []) None)
    /\ observe s' 0%nat <> observe mutable_store 0%nat.
Proof.
  vm_compute. eexists. repeat split; try reflexivity. discriminate.
Qed.

(** C6, amended. Every call that sets one field or the conjunction is
    atomic: when it fails, the store after the call is the store before it,
    so the five expressions and the conjunction marker of every builder are
    unchanged; [set_values] and [set_range] validate every argument before
    they replace the expression. A combinator that chains several setters
    ([at], [daily], [weekly], [monthly], [yearly]) leaves the receiver's
    observable state unchanged when it fails on an immutable-mode builder. *)
Theorem failed_call_leaves_state s self c e s' :
  wf_builder s self = true ->
  invoke c self s = (Raise e, s') ->
  (chained c = false -> s' = s)
  /\ (is_immutable s self = true -> observe s' self = observe s self).
Proof.
  intros Hwf Hrun. split.
  - intros Hc. destruct (primitive_step c self s Hc Hwf)
      as [[msg Hr]|[b' [s1 [Hr _]]]]; rewrite Hr in Hrun.
    + injection Hrun as _ <-. reflexivity.
    + discriminate.
  - intros Himm. destruct (call_step c self s Hwf) as [r [s1 [Hr [Hext _]]]].
    rewrite Hr in Hrun. injection Hrun as _ <-.
    destruct (wf_builder_observe _ _ Hwf) as [o Ho].
    rewrite Ho. exact (extends_observe _ _ _ _ (Hext Himm) Ho).
Qed.

Lemma failed_call_leaves_state_witness :
  snd (invoke (Call_minute_range 10 5) 0%nat mutable_store) = mutable_store.
Proof.
  refine (proj1 (failed_call_leaves_state mutable_store 0%nat
                   (Call_minute_range 10 5)
                   (ValueError "Range start (10) must be <= end (5)")
                   (snd (invoke (Call_minute_range 10 5) 0%nat mutable_store))
                   eq_refl _) eq_refl).
  vm_compute. reflexivity.
Defined.

(** C7. Rendering is canonical per kind: ["*"] for the wildcard, the
    number for a value, the comma-joined members for a list, ["lo-hi"] for a
    range, ["*/interval"] for a step from the wildcard sentinel and
    ["start/interval"] otherwise; a builder renders as its five tokens,
    space-separated, in the order minute, hour, day-of-month, month,
    day-of-week; a new builder renders as ["* * * * *"]. *)
Theorem rendering_is_canonical (e : Expression) s self o immutable s0 :
  observe s self = Some o ->
  CronExpr.to_cron_str (to_CronExpr e) = Ok (render e)
  /\ CronBuilder.__str__ self s = (render_tokens o, s)
  /\ exists b s1,
       CronBuilder.__init__ immutable s0 = (Ok b, s1)
       /\ CronBuilder.__str__ b s1 = (Ok "* * * * *", s1).
Proof.
  intros Ho. split; [|split].
  - destruct e as [|v|vs|lo hi|start interval]; try reflexivity.
    unfold CronExpr.to_cron_str, render, wildcard_sentinel. simpl.
    destruct (start =? -1); reflexivity.
  - exact (str_run _ _ _ Ho).
  - eexists _, _. split; [apply builder_init_run|].
    pose proof (init_observe immutable s0) as Hobs.
    rewrite builder_init_run in Hobs. simpl in Hobs.
    rewrite (str_run _ _ _ Hobs). reflexivity.
Qed.

Lemma rendering_is_canonical_witness :
  CronExpr.to_cron_str (CronExpr.mk "step" [-1; 15]) = Ok "*/15"
  /\ CronBuilder.__str__ 1%nat first_monday_store
     = (Ok "* * 1-7 * *", first_monday_store)
  /\ exists b s1,
       CronBuilder.__init__ false empty_store = (Ok b, s1)
       /\ CronBuilder.__str__ b s1 = (Ok "* * * * *", s1).
Proof.
  exact (rendering_is_canonical (step_ (-1) 15) first_monday_store 1%nat
           (Obs (CronExpr.mk "any" []) (CronExpr.mk "any" [])
                (CronExpr.mk "range" [1; 7]) (CronExpr.mk "any" [])
                (CronExpr.mk "any" []) None)
           false empty_store eq_refl).
Defined.

(** C8. Immutable-mode isolation: for every immutable-mode builder [b1],
    every setter call leaves [b1]'s observable state (the five expressions
    and the conjunction marker) and its rendering unchanged; when the call
    succeeds it returns a new builder [b2], and no chain of further calls on
    [b2] changes [b1]'s observable state or rendering. *)
Theorem immutable_isolation s b1 o c :
  wf_builder s b1 = true ->
  is_immutable s b1 = true ->
  observe s b1 = Some o ->
  exists r s1,
    invoke c b1 s = (r, s1)
    /\ observe s1 b1 = Some o
    /\ fst (CronBuilder.__str__ b1 s1) = fst (CronBuilder.__str__ b1 s)
    /\ forall b2, r = Ok b2 ->
         b2 <> b1
         /\ builder_objs s !! b2 = None
         /\ is_immutable s1 b2 = true
         /\ forall cs, exists r2 s2,
              invoke_chain cs b2 s1 = (r2, s2)
              /\ observe s2 b1 = Some o
              /\ fst (CronBuilder.__str__ b1 s2) = fst (CronBuilder.__str__ b1 s).
Proof.
  intros Hwf Himm Ho.
  destruct (call_step c b1 s Hwf) as [r [s1 [Hr [Hext Hres]]]].
  specialize (Hext Himm).
  pose proof (extends_observe _ _ _ _ Hext Ho) as Ho1.
  exists r, s1. split; [exact Hr|]. split; [exact Ho1|].
  split; [rewrite (str_run _ _ _ Ho1), (str_run _ _ _ Ho); reflexivity|].
  intros b2 ->. destruct (Hres b2 eq_refl) as [Hwf2 Himm2].
  rewrite Himm in Himm2.
  assert (length (builder_objs s) <= b2)%nat as Hfresh.
  { rewrite invoke_chain_of in Hr.
    exact (immutable_chain_fresh _ _ _ _ _ (chain_of_primitive c)
             (chain_of_nonempty c) Hwf Himm Hr b2 eq_refl). }
  assert (b1 < length (builder_objs s))%nat as Hlt.
  { apply observe_slots in Ho as [b [Hb _]]. apply lookup_lt_is_Some. eauto. }
  split; [lia|]. split; [apply lookup_ge_None; exact Hfresh|].
  split; [exact Himm2|].
  intros cs. destruct (chain_step cs b2 s1 Hwf2) as [r2 [s2 [Hr2 [Hext2 _]]]].
  specialize (Hext2 Himm2).
  pose proof (extends_observe _ _ _ _ Hext2 Ho1) as Ho2.
  exists r2, s2. split; [exact Hr2|]. split; [exact Ho2|].
  rewrite (str_run _ _ _ Ho2), (str_run _ _ _ Ho). reflexivity.
Qed.

Lemma immutable_isolation_witness :
  exists r s1,
    invoke (Call_at_hour 9) 0%nat immutable_store = (r, s1)
    /\ observe s1 0%nat = Some fresh_observation
    /\ fst (CronBuilder.__str__ 0%nat s1)
       = fst (CronBuilder.__str__ 0%nat immutable_store)
    /\ forall b2, r = Ok b2 ->
         b2 <> 0%nat
         /\ builder_objs immutable_store !! b2 = None
         /\ is_immutable s1 b2 = true
         /\ forall cs, exists r2 s2,
              invoke_chain cs b2 s1 = (r2, s2)
              /\ observe s2 0%nat = Some fresh_observation
              /\ fst (CronBuilder.__str__ 0%nat s2)
                 = fst (CronBuilder.__str__ 0%nat immutable_store).
Proof.
  exact (immutable_isolation immutable_store 0%nat fresh_observation
           (Call_at_hour 9) eq_refl eq_refl eq_refl).
Defined.

(** C9. The conjunction anchor is never range-validated: on a builder
    whose day-of-month is not the wildcard, [and_dow(day)] succeeds for every
    integer [day], also outside [0,6], and on one whose day-of-week is not
    the wildcard, [and_dom(day)] succeeds for every integer [day], also
    outside [1,31]; with such an out-of-domain anchor recorded, [should_run]
    returns [false] for every timestamp. *)
Theorem anchor_is_not_validated s self o day now check_time :
  wf_builder s self = true ->
  observe s self = Some o ->
  datetime.valid (default now check_time) = true ->
  (is_wildcard (o_day_of_month o) = false ->
   exists b' s',
     CronBuilder.and_dow self (Int day) s = (Ok b', s')
     /\ observe s' b' = Some (set_conjunction o (Some ("dow", day)))
     /\ (~ 0 <= day <= 6 ->
         CronBuilder.should_run now b' check_time s' = (Ok false, s')))
  /\ (is_wildcard (o_day_of_week o) = false ->
      exists b' s',
        CronBuilder.and_dom self day s = (Ok b', s')
        /\ observe s' b' = Some (set_conjunction o (Some ("dom", day)))
        /\ (~ 1 <= day <= 31 ->
            CronBuilder.should_run now b' check_time s' = (Ok false, s'))).
Proof.
  intros Hwf Ho Hvalid.
  destruct (wf_builder_observation _ _ Hwf) as [o' [Ho' [Hk _]]].
  rewrite Ho in Ho'. injection Ho' as <-.
  set (dt := default now check_time) in *.
  split; intros Hw.
  - destruct (and_dow_succeeds s self o (Int day) Ho Hw) as [b' [s' [Hr Hobs]]].
    simpl in Hobs. exists b', s'.
    split; [exact Hr|]. split; [exact Hobs|].
    intros Hout. rewrite (should_run_run _ _ _ _ _ Hobs).
    unfold should_run_on. simpl. fold dt.
    destruct (wf_expr_matches _ (datetime.day dt) (Hk DayOfMonth)) as [m Hm].
    simpl in Hm. rewrite Hm. simpl.
    destruct m; simpl; [|reflexivity].
    rewrite sunday_based_shift. pose proof (sunday_based_range dt).
    assert ((sunday_based dt =? day) = false) as -> by (apply Z.eqb_neq; lia).
    reflexivity.
  - destruct (and_dom_succeeds s self o day Ho Hw) as [b' [s' [Hr Hobs]]].
    exists b', s'.
    split; [exact Hr|]. split; [exact Hobs|].
    intros Hout. rewrite (should_run_run _ _ _ _ _ Hobs).
    unfold should_run_on. simpl. fold dt.
    destruct (wf_expr_matches _ ((datetime.weekday dt + 1) `mod` 7)
                (Hk DayOfWeek)) as [m Hm].
    simpl in Hm. rewrite Hm. simpl.
    destruct m; simpl; [|reflexivity].
    pose proof (valid_day_range dt Hvalid).
    assert ((datetime.day dt =? day) = false) as -> by (apply Z.eqb_neq; lia).
    reflexivity.
Qed.

Lemma anchor_is_not_validated_witness :
  let o := Obs (CronExpr.mk "any" []) (CronExpr.mk "any" [])
               (CronExpr.mk "value" [15]) (CronExpr.mk "any" [])
               (CronExpr.mk "value" [1]) None in
  let now := datetime.date 2024 1 1 in
  let check_time := Some (datetime.date 2024 1 15) in
  (is_wildcard (o_day_of_month o) = false ->
   exists b' s',
     CronBuilder.and_dow 0%nat (Int 9) both_days_store = (Ok b', s')
     /\ observe s' b' = Some (set_conjunction o (Some ("dow", 9)))
     /\ (~ 0 <= 9 <= 6 ->
         CronBuilder.should_run now b' check_time s' = (Ok false, s')))
  /\ (is_wildcard (o_day_of_week o) = false ->
      exists b' s',
        CronBuilder.and_dom 0%nat 9 both_days_store = (Ok b', s')
        /\ observe s' b' = Some (set_conjunction o (Some ("dom", 9)))
        /\ (~ 1 <= 9 <= 31 ->
            CronBuilder.should_run now b' check_time s' = (Ok false, s'))).
Proof.
  exact (anchor_is_not_validated both_days_store 0%nat
           (Obs (CronExpr.mk "any" []) (CronExpr.mk "any" [])
                (CronExpr.mk "value" [15]) (CronExpr.mk "any" [])
                (CronExpr.mk "value" [1]) None)
           9 (datetime.date 2024 1 1) (Some (datetime.date 2024 1 15))
           eq_refl eq_refl eq_refl).
Defined.

(** C10. [should_run] does not depend on the minute, hour and month
    fields: two builders that agree on the day-of-month expression, the
    day-of-week expression and the conjunction marker give the same result
    for every timestamp, whatever their other fields hold. *)
Theorem should_run_ignores_other_fields s1 b1 o1 s2 b2 o2 now check_time :
  observe s1 b1 = Some o1 ->
  observe s2 b2 = Some o2 ->
  o_day_of_month o1 = o_day_of_month o2 ->
  o_day_of_week o1 = o_day_of_week o2 ->
  o_conjunction o1 = o_conjunction o2 ->
  fst (CronBuilder.should_run now b1 check_time s1)
  = fst (CronBuilder.should_run now b2 check_time s2).
Proof.
  intros H1 H2 Hdom Hdow Hconj.
  rewrite (should_run_run _ _ _ _ _ H1), (should_run_run _ _ _ _ _ H2).
  unfold should_run_on. simpl. rewrite Hdom, Hdow, Hconj. reflexivity.
Qed.

Lemma should_run_ignores_other_fields_witness :
  fst (CronBuilder.should_run (datetime.date 2024 1 1) 0%nat
         (Some (datetime.date 2024 1 1)) plain_conjunction_store)
  = fst (CronBuilder.should_run (datetime.date 2024 1 1) 0%nat
           (Some (datetime.date 2024 1 1)) busy_conjunction_store).
Proof.
  exact (should_run_ignores_other_fields
           plain_conjunction_store 0%nat
           (Obs (CronExpr.mk "any" []) (CronExpr.mk "any" [])
                (CronExpr.mk "value" [1]) (CronExpr.mk "any" [])
                (CronExpr.mk "any" []) (Some ("dow", 1)))
           busy_conjunction_store 0%nat
           (Obs (CronExpr.mk "value" [30]) (CronExpr.mk "value" [9])
                (CronExpr.mk "value" [1]) (CronExpr.mk "value" [3])
                (CronExpr.mk "any" []) (Some ("dow", 1)))
           (datetime.date 2024 1 1) (Some (datetime.date 2024 1 1))
           eq_refl eq_refl eq_refl eq_refl eq_refl).
Defined.

(** * Further properties of the module *)

(** ** The setters of [CronField], exactly *)

Lemma bounds_message_range F v :
  bounds_message F v
  = range_message (CronFieldObj.name F) (CronFieldObj.min_val F)
      (CronFieldObj.max_val F) v.
Proof. reflexivity. Qed.

Lemma set_value_validates v :
  validates_as (fun f => CronField.set_value f v) (check_value v).
Proof.
  intros s f F HF. unfold CronField.set_value, check_value.
  rewrite bind_run, (validate_value_run _ _ _ _ HF).
  unfold in_bounds, within. destruct (_ && _); reflexivity.
Qed.

Lemma set_values_validates vs :
  validates_as (fun f => CronField.set_values f vs) (check_values vs).
Proof.
  intros s f F HF. unfold CronField.set_values, check_values.
  rewrite bind_run, (validate_values_run _ _ _ _ HF).
  unfold in_bounds, within. destruct (List.find _ vs); reflexivity.
Qed.

Lemma set_range_validates a b :
  validates_as (fun f => CronField.set_range f a b) (check_range a b).
Proof.
  intros s f F HF. unfold CronField.set_range, check_range.
  rewrite bind_run, (validate_value_run _ _ _ _ HF).
  unfold in_bounds, within.
  destruct ((CronFieldObj.min_val F <=? a) && (a <=? CronFieldObj.max_val F));
    [|reflexivity].
  rewrite bind_run, (validate_value_run _ _ _ _ HF).
  unfold in_bounds.
  destruct ((CronFieldObj.min_val F <=? b) && (b <=? CronFieldObj.max_val F));
    [|reflexivity].
  simpl. destruct (a >? b); reflexivity.
Qed.

Lemma set_interval_validates i st :
  validates_as (fun f => CronField.set_interval f i st) (check_interval i st).
Proof.
  intros s f F HF. unfold CronField.set_interval, check_interval.
  destruct (i <=? 0); [reflexivity|].
  rewrite bind_run. destruct (default (-1) st =? -1); simpl; [reflexivity|].
  rewrite (validate_value_run _ _ _ _ HF). unfold in_bounds, within.
  destruct (_ && _); reflexivity.
Qed.

Lemma check_value_sound v : sound (check_value v).
Proof.
  intros lo hi name e. unfold check_value.
  destruct (within lo hi v) eqn:Hv; [|discriminate].
  intros [= <-]. exact Hv.
Qed.

Lemma find_none_forallb {A} (p : A -> bool) (l : list A) :
  List.find (fun x => negb (p x)) l = None -> forallb p l = true.
Proof.
  induction l as [|x l IH]; simpl; [reflexivity|].
  destruct (p x); simpl; [exact IH|discriminate].
Qed.

Lemma check_values_sound vs : sound (check_values vs).
Proof.
  intros lo hi name e. unfold check_values.
  destruct (List.find _ vs) eqn:Hf; [discriminate|].
  intros [= <-]. unfold bounded_expr. simpl. exact (find_none_forallb _ _ Hf).
Qed.

Lemma check_range_sound a b : sound (check_range a b).
Proof.
  intros lo hi name e. unfold check_range.
  destruct (within lo hi a) eqn:Ha; [|discriminate].
  destruct (within lo hi b) eqn:Hb; [|discriminate].
  simpl. destruct (a >? b) eqn:Hab; [discriminate|].
  intros [= <-]. unfold bounded_expr. simpl. rewrite Ha, Hb. simpl.
  rewrite Z.gtb_ltb in Hab. apply Z.leb_le. apply Z.ltb_ge in Hab. lia.
Qed.

Lemma check_interval_sound i st : sound (check_interval i st).
Proof.
  intros lo hi name e. unfold check_interval.
  destruct (i <=? 0) eqn:Hi; [discriminate|].
  destruct (default (-1) st =? -1) eqn:Hs; simpl.
  - intros [= <-]. unfold bounded_expr. simpl. rewrite Hs. simpl.
    apply Z.ltb_lt. apply Z.leb_gt in Hi. lia.
  - destruct (within lo hi (default (-1) st)) eqn:Hw; [|discriminate].
    simpl. intros [= <-]. unfold bounded_expr. simpl. rewrite Hs, Hw. simpl.
    apply Z.ltb_lt. apply Z.leb_gt in Hi. lia.
Qed.

Lemma bounded_expr_wf lo hi e : bounded_expr lo hi e = true -> wf_expr e = true.
Proof.
  unfold bounded_expr, wf_expr.
  destruct (String.eqb (CronExpr.kind e) "any"); [reflexivity|].
  destruct (String.eqb (CronExpr.kind e) "value").
  { destruct (CronExpr.values e) as [|v [|? ?]]; auto. }
  destruct (String.eqb (CronExpr.kind e) "list"); [reflexivity|].
  destruct (String.eqb (CronExpr.kind e) "range").
  { destruct (CronExpr.values e) as [|a [|b [|? ?]]]; auto. }
  destruct (String.eqb (CronExpr.kind e) "step"); [|auto].
  destruct (CronExpr.values e) as [|a [|b [|? ?]]]; auto.
  rewrite andb_true_iff. tauto.
Qed.

Lemma rendered_to_cron_str e :
  wf_expr e = true -> CronExpr.to_cron_str e = Ok (rendered e).
Proof.
  intros H. destruct (wf_expr_to_cron_str e H) as [t Ht].
  unfold rendered. rewrite Ht. reflexivity.
Qed.

Lemma warn_overwrite_exact s f F e :
  field_objs s !! f = Some F ->
  wf_expr (CronFieldObj.expr F) = true ->
  wf_expr e = true ->
  CronField._warn_overwrite f e s
  = (Ok tt, Store (field_objs s) (builder_objs s)
              (warned s
               ++ overwrite_warning (CronFieldObj.name F) (CronFieldObj.expr F) e)).
Proof.
  intros Hf Hold Hnew. unfold CronField._warn_overwrite, overwrite_warning.
  rewrite (bind_run_Ok _ _ _ _ _ (get_field_run _ _ _ Hf)).
  unfold is_wildcard.
  destruct (String.eqb (CronExpr.kind (CronFieldObj.expr F)) "any"); simpl.
  - rewrite app_nil_r. destruct s; reflexivity.
  - unfold lift. rewrite !bind_run, (rendered_to_cron_str _ Hold),
      (rendered_to_cron_str _ Hnew). reflexivity.
Qed.

Lemma apply_mutable_exact s f F e :
  field_objs s !! f = Some F ->
  CronFieldObj.immutable F = false ->
  wf_expr (CronFieldObj.expr F) = true ->
  wf_expr e = true ->
  CronField._apply f e s
  = (Ok f, Store (<[f := with_expr F e]> (field_objs s)) (builder_objs s)
             (warned s
              ++ overwrite_warning (CronFieldObj.name F) (CronFieldObj.expr F) e)).
Proof.
  intros Hf Himm Hold Hnew. unfold CronField._apply.
  rewrite (bind_run_Ok _ _ _ _ _ (get_field_run _ _ _ Hf)), Himm.
  rewrite (bind_run_Ok _ _ _ _ _ (warn_overwrite_exact s f F e Hf Hold Hnew)).
  erewrite bind_run_Ok; [reflexivity|].
  apply (set_expr_run (Store _ _ _)). exact Hf.
Qed.

(** Every call that sets one field is [single] on its slot, with the
    validation [field_call] names. *)
Lemma field_call_shape c k chk :
  field_call c = Some (k, chk) ->
  sound chk
  /\ exists op, validates_as op chk /\ forall self, invoke c self = single k op self.
Proof.
  destruct c; simpl; intros [= <- <-];
    (split;
     [first [apply check_value_sound | apply check_values_sound
            | apply check_range_sound | apply check_interval_sound]
     |eexists; split;
      [first [apply set_value_validates | apply set_values_validates
             | apply set_range_validates | apply set_interval_validates]
      |reflexivity]]).
Qed.

Lemma field_call_primitive c k chk :
  field_call c = Some (k, chk) -> chained c = false.
Proof. destruct c; simpl; intros H; try discriminate; reflexivity. Qed.

(** ** Builders in full, slot by slot *)

Lemma built_field_lookup s imm k l :
  built_field s imm k l = true <->
  exists F,
    field_objs s !! l = Some F
    /\ CronFieldObj.min_val F = slot_min k
    /\ CronFieldObj.max_val F = slot_max k
    /\ CronFieldObj.name F = slot_name k
    /\ CronFieldObj.immutable F = imm
    /\ bounded_expr (slot_min k) (slot_max k) (CronFieldObj.expr F) = true.
Proof.
  unfold built_field. destruct (field_objs s !! l) as [F|].
  - rewrite !andb_true_iff, !Z.eqb_eq, String.eqb_eq, Bool.eqb_true_iff. split.
    + intros [[[[? ?] ?] ?] ?]. exists F. auto 7.
    + intros [F' [HF [? [? [? [? ?]]]]]]. injection HF as <-. auto.
  - split; [discriminate|]. intros [F [HF _]]. discriminate.
Qed.

Lemma distinct_slots_spec b :
  distinct_slots b = true <->
  forall i j, slot_get i b = slot_get j b -> i = j.
Proof.
  unfold distinct_slots. rewrite forallb_forall. split.
  - intros H i j Heq.
    assert (In i slots) as Hi by (destruct i; simpl; auto 6).
    assert (In j slots) as Hj by (destruct j; simpl; auto 6).
    specialize (H i Hi). rewrite forallb_forall in H. specialize (H j Hj).
    apply orb_true_iff in H as [H|H].
    + exact (bool_decide_eq_true_1 _ H).
    + apply negb_true_iff, Nat.eqb_neq in H. contradiction.
  - intros H i _. apply forallb_forall. intros j _.
    destruct (decide (i = j)) as [->|Hne].
    + rewrite bool_decide_eq_true_2 by reflexivity. reflexivity.
    + rewrite bool_decide_eq_false_2 by exact Hne. simpl.
      apply negb_true_iff, Nat.eqb_neq. intros Heq. exact (Hne (H i j Heq)).
Qed.

Lemma built_slots s self :
  built s self = true <->
  exists b,
    builder_objs s !! self = Some b
    /\ (forall k, built_field s (CronBuilderObj.immutable b) k (slot_get k b) = true)
    /\ (forall i j, slot_get i b = slot_get j b -> i = j)
    /\ wf_conjunction (CronBuilderObj._conjunction b) = true.
Proof.
  unfold built. destruct (builder_objs s !! self) as [b|].
  - rewrite !andb_true_iff, forallb_forall, distinct_slots_spec. split.
    + intros [[Hk Hd] Hc]. exists b. split; [reflexivity|].
      split; [|auto]. intros k. apply Hk. destruct k; simpl; auto 6.
    + intros [b' [Hb [Hk [Hd Hc]]]]. injection Hb as <-. auto.
  - split; [discriminate|]. intros [b [Hb _]]. discriminate.
Qed.

Lemma built_wf_builder s self : built s self = true -> wf_builder s self = true.
Proof.
  intros H. apply built_slots in H as [b [Hb [Hk [_ Hc]]]].
  apply wf_builder_slots. exists b. split; [exact Hb|]. split; [|exact Hc].
  intros k. specialize (Hk k).
  apply built_field_lookup in Hk as [F [HF [_ [_ [_ [Hi Hbd]]]]]].
  apply wf_field_lookup. exists F. eauto using bounded_expr_wf.
Qed.

(** What a builder in full observes as holds values within the bounds. *)
Lemma built_observation s self :
  built s self = true ->
  exists o,
    observe s self = Some o
    /\ (forall k, bounded_expr (slot_min k) (slot_max k) (slot_obs k o) = true)
    /\ wf_conjunction (o_conjunction o) = true.
Proof.
  intros Hb. destruct (wf_builder_observe _ _ (built_wf_builder _ _ Hb)) as [o Ho].
  exists o. split; [exact Ho|].
  apply built_slots in Hb as [b [Hb [Hk [_ Hc]]]].
  apply observe_slots in Ho as [b0 [Hb0 [Hok Hoc]]].
  rewrite Hb in Hb0. injection Hb0 as <-.
  split; [|rewrite <- Hoc; exact Hc].
  intros k. specialize (Hk k). specialize (Hok k).
  apply built_field_lookup in Hk as [F [HF [_ [_ [_ [_ Hbd]]]]]].
  unfold expr_at in Hok. rewrite HF in Hok. injection Hok as <-. exact Hbd.
Qed.

Lemma extends_built_field s s' imm k l :
  extends s s' -> built_field s imm k l = true -> built_field s' imm k l = true.
Proof.
  intros Hext H. apply built_field_lookup in H as [F [HF Hrest]].
  apply built_field_lookup. exists F. split; [|exact Hrest].
  exact (extends_field _ _ _ _ Hext HF).
Qed.

Lemma extends_built s s' self :
  extends s s' -> built s self = true -> built s' self = true.
Proof.
  intros Hext H. apply built_slots in H as [b [Hb [Hk [Hd Hc]]]].
  apply built_slots. exists b. split; [eauto using extends_builder|].
  split; [|auto]. intros k. eauto using extends_built_field.
Qed.

Lemma slot_obs_set_slot k e o j :
  slot_obs j (set_slot k e o) = if decide (j = k) then e else slot_obs j o.
Proof. destruct k, j; reflexivity. Qed.

Lemma conjunction_set_slot k e o : o_conjunction (set_slot k e o) = o_conjunction o.
Proof. destruct k; reflexivity. Qed.

(** ** A single-field setter on a builder in full *)

Lemma single_simulation k op chk self s o :
  validates_as op chk ->
  sound chk ->
  built s self = true ->
  observe s self = Some o ->
  match chk (slot_min k) (slot_max k) (slot_name k) with
  | Raise ex => single k op self s = (Raise ex, s)
  | Ok e =>
      exists b' s',
        single k op self s = (Ok b', s')
        /\ built s' b' = true
        /\ observe s' b' = Some (set_slot k e o)
        /\ is_immutable s' b' = is_immutable s self
        /\ (if is_immutable s self
            then extends s s' /\ b' = length (builder_objs s)
                 /\ warned s' = warned s
            else b' = self
                 /\ warned s'
                    = warned s ++ overwrite_warning (slot_name k) (slot_obs k o) e)
  end.
Proof.
  intros Hop Hsound Hbuilt Ho.
  pose proof Hbuilt as Hb0. apply built_slots in Hb0 as [b [Hb [Hk [Hd Hc]]]].
  pose proof (Hk k) as HkF.
  apply built_field_lookup in HkF as [F [HF [Hmin [Hmax [Hname [HFi HFb]]]]]].
  pose proof Ho as Ho0. apply observe_slots in Ho0 as [b1 [Hb1 [Hok Hoc]]].
  rewrite Hb in Hb1. injection Hb1 as <-.
  assert (CronFieldObj.expr F = slot_obs k o) as HFo.
  { specialize (Hok k). unfold expr_at in Hok. rewrite HF in Hok.
    injection Hok as Hok. exact Hok. }
  unfold single. rewrite (bind_run_Ok _ _ _ _ _ (get_builder_run _ _ _ Hb)).
  rewrite bind_run, (Hop s _ F HF), Hmin, Hmax, Hname.
  destruct (chk (slot_min k) (slot_max k) (slot_name k)) as [e|ex] eqn:Hchk;
    [|reflexivity].
  pose proof (Hsound _ _ _ _ Hchk) as Hebd.
  pose proof (bounded_expr_wf _ _ _ Hebd) as Hewf.
  pose proof (bounded_expr_wf _ _ _ HFb) as HFwf.
  unfold is_immutable. rewrite Hb.
  destruct (CronBuilderObj.immutable b) eqn:Himm.
  - (* immutable: a new field and a new builder *)
    rewrite (apply_immutable_run _ _ _ _ HF HFi).
    rewrite (copy_with_immutable_run _ _ b) by assumption. simpl.
    rewrite <- app_assoc. simpl.
    set (s' := Store _ _ _).
    assert (extends s s') as Hext by apply extends_app.
    assert (field_objs s' !! length (field_objs s) = Some (with_expr F e)) as Hnew.
    { subst s'. simpl. rewrite lookup_app_r by lia.
      replace (length (field_objs s) - length (field_objs s))%nat with 0%nat by lia.
      reflexivity. }
    assert (forall j, slot_get j b < length (field_objs s))%nat as Hlt.
    { intros j. specialize (Hk j).
      apply built_field_lookup in Hk as [G [HG _]].
      apply lookup_lt_is_Some. eauto. }
    exists (length (builder_objs s)), s'. split; [reflexivity|].
    split; [|split; [|split; [|auto]]].
    + apply built_slots. eexists. split; [subst s'; simpl; apply lookup_at_end|].
      split; [|split].
      * intros j. rewrite slot_get_with_kwargs. simpl.
        destruct (decide (j = k)) as [->|Hne].
        -- apply built_field_lookup. exists (with_expr F e). simpl. auto 7.
        -- apply (extends_built_field _ _ _ _ _ Hext). apply Hk.
      * intros i j. rewrite !slot_get_with_kwargs.
        destruct (decide (i = k)) as [->|Hi], (decide (j = k)) as [->|Hj];
          intros Heq; try reflexivity.
        -- pose proof (Hlt j). lia.
        -- pose proof (Hlt i). lia.
        -- exact (Hd i j Heq).
      * rewrite conjunction_with_slot_kw. exact Hc.
    + apply observe_slots. eexists. split; [subst s'; simpl; apply lookup_at_end|].
      split; [|rewrite conjunction_with_slot_kw, conjunction_set_slot; exact Hoc].
      intros j. rewrite slot_get_with_kwargs, slot_obs_set_slot.
      destruct (decide (j = k)) as [->|Hne].
      * unfold expr_at. rewrite Hnew. reflexivity.
      * apply (extends_expr_at _ _ _ _ Hext). apply Hok.
    + simpl. rewrite lookup_at_end. reflexivity.
  - (* mutable: the field is replaced in place *)
    rewrite (apply_mutable_exact _ _ _ e HF HFi HFwf Hewf).
    rewrite (copy_with_mutable_run _ _ b) by assumption. simpl.
    rewrite <- Himm, with_kwargs_same_slot, (list_insert_id _ _ _ Hb).
    rewrite Hname, HFo.
    set (s' := Store _ _ _).
    assert (slot_get k b < length (field_objs s))%nat as Hlt
      by (apply lookup_lt_is_Some; eauto).
    exists self, s'. split; [reflexivity|].
    split; [|split; [|split; [|auto]]].
    + apply built_slots. exists b. split; [exact Hb|]. split; [|auto].
      intros j. rewrite Himm. apply built_field_lookup. subst s'. simpl.
      destruct (decide (j = k)) as [->|Hne].
      * exists (with_expr F e). rewrite list_lookup_insert_eq by exact Hlt.
        simpl. auto 7.
      * specialize (Hk j).
        apply built_field_lookup in Hk as [G [HG Hrest]].
        exists G. split; [|exact Hrest].
        rewrite list_lookup_insert_ne; [exact HG|].
        intros Heq. apply Hne. symmetry. exact (Hd _ _ Heq).
    + apply observe_slots. exists b. split; [exact Hb|].
      split; [|rewrite conjunction_set_slot; exact Hoc].
      intros j. rewrite slot_obs_set_slot. unfold expr_at. subst s'. simpl.
      destruct (decide (j = k)) as [->|Hne].
      * rewrite list_lookup_insert_eq by exact Hlt. reflexivity.
      * rewrite list_lookup_insert_ne; [apply Hok|].
        intros Heq. apply Hne. symmetry. exact (Hd _ _ Heq).
    + simpl. rewrite Hb. congruence.
Qed.

(** ** The conjunction setters on a builder in full *)

Lemma slot_get_with_conjunction imm b c k :
  slot_get k (CronBuilder.with_kwargs imm b (CronBuilder._conjunction_kw c))
  = slot_get k b.
Proof. destruct k; reflexivity. Qed.

Lemma copy_with_conjunction_built s self o c :
  built s self = true ->
  observe s self = Some o ->
  wf_conjunction (Some c) = true ->
  exists b' s',
    CronBuilder._copy_with self (CronBuilder._conjunction_kw c) s = (Ok b', s')
    /\ built s' b' = true
    /\ observe s' b' = Some (set_conjunction o (Some c))
    /\ is_immutable s' b' = is_immutable s self
    /\ (if is_immutable s self
        then extends s s' /\ b' = length (builder_objs s)
        else b' = self)
    /\ warned s' = warned s.
Proof.
  intros Hbuilt Ho Hwc.
  pose proof Hbuilt as Hb0. apply built_slots in Hb0 as [b [Hb [Hk [Hd Hc]]]].
  pose proof Ho as Ho0. apply observe_slots in Ho0 as [b1 [Hb1 [Hok Hoc]]].
  rewrite Hb in Hb1. injection Hb1 as <-.
  unfold is_immutable. rewrite Hb.
  destruct (CronBuilderObj.immutable b) eqn:Himm.
  - rewrite (copy_with_immutable_run _ _ b) by assumption.
    set (s' := Store _ _ _).
    assert (extends s s') as Hext by apply extends_app.
    exists (length (builder_objs s)), s'. split; [reflexivity|].
    split; [|split; [|split; [|auto]]].
    + apply built_slots. eexists. split; [subst s'; simpl; apply lookup_at_end|].
      split; [|split; [|exact Hwc]].
      * intros k. rewrite slot_get_with_conjunction. simpl.
        apply (extends_built_field _ _ _ _ _ Hext). apply Hk.
      * intros i j. rewrite !slot_get_with_conjunction. apply Hd.
    + apply observe_slots. eexists. split; [subst s'; simpl; apply lookup_at_end|].
      split; [|reflexivity].
      intros k. rewrite slot_get_with_conjunction.
      apply (extends_expr_at _ _ _ _ Hext).
      replace (slot_obs k (set_conjunction o (Some c))) with (slot_obs k o)
        by (destruct k; reflexivity).
      apply Hok.
    + simpl. rewrite lookup_at_end. reflexivity.
  - rewrite (copy_with_mutable_run _ _ b) by assumption.
    set (s' := Store _ _ _).
    assert (self < length (builder_objs s))%nat as Hlt
      by (apply lookup_lt_is_Some; eauto).
    exists self, s'. split; [reflexivity|].
    split; [|split; [|split; [|auto]]].
    + apply built_slots. eexists.
      split; [subst s'; simpl; apply list_lookup_insert_eq; exact Hlt|].
      split; [|split; [|exact Hwc]].
      * intros k. rewrite slot_get_with_conjunction. simpl. apply Hk.
      * intros i j. rewrite !slot_get_with_conjunction. apply Hd.
    + apply observe_slots. eexists.
      split; [subst s'; simpl; apply list_lookup_insert_eq; exact Hlt|].
      split; [|reflexivity].
      intros k. rewrite slot_get_with_conjunction.
      replace (slot_obs k (set_conjunction o (Some c))) with (slot_obs k o)
        by (destruct k; reflexivity).
      apply Hok.
    + simpl. rewrite list_lookup_insert_eq by exact Hlt. reflexivity.
Qed.

Lemma extends_same_objects s w :
  extends s (Store (field_objs s) (builder_objs s) w).
Proof. split; reflexivity. Qed.

Lemma primitive_without_field c :
  chained c = false -> field_call c = None ->
  (exists d, c = Call_and_dow d) \/ (exists d, c = Call_and_dom d).
Proof. destruct c; simpl; intros; try discriminate; eauto. Qed.

(** ** One call that is not a combinator, on a builder in full *)

Lemma primitive_simulation c self s o :
  chained c = false ->
  built s self = true ->
  observe s self = Some o ->
  match apply_primitive c o with
  | Raise ex => invoke c self s = (Raise ex, s)
  | Ok o' =>
      exists b' s',
        invoke c self s = (Ok b', s')
        /\ built s' b' = true
        /\ observe s' b' = Some o'
        /\ is_immutable s' b' = is_immutable s self
        /\ (if is_immutable s self
            then extends s s' /\ b' = length (builder_objs s)
            else b' = self)
        /\ warned s' = warned s ++ primitive_warnings (is_immutable s self) c o
  end.
Proof.
  intros Hc Hbuilt Ho. unfold apply_primitive, primitive_warnings.
  destruct (field_call c) as [[k chk]|] eqn:Hfc.
  - destruct (field_call_shape c k chk Hfc) as [Hsound [op [Hop Hinv]]].
    rewrite Hinv.
    pose proof (single_simulation k op chk self s o Hop Hsound Hbuilt Ho) as H.
    destruct (chk (slot_min k) (slot_max k) (slot_name k)) as [e|ex];
      simpl; [|exact H].
    destruct H as [b' [s' [Hr [Hb' [Ho' [Hi Hm]]]]]].
    exists b', s'. repeat (split; [assumption|]).
    destruct (is_immutable s self).
    + destruct Hm as [? [? Hw]]. rewrite Hw, app_nil_r. auto.
    + destruct Hm as [? Hw]. auto.
  - destruct (primitive_without_field c Hc Hfc) as [[d ->]|[d ->]]; simpl.
    + rewrite (and_dow_run _ _ _ _ Ho).
      destruct (is_wildcard (o_day_of_month o)); [reflexivity|].
      set (s1 := Store _ _ _).
      pose proof (extends_same_objects s (warned s1)) as H1. fold s1 in H1.
      destruct (copy_with_conjunction_built s1 self o ("dow", weekday_val d)
                  (extends_built _ _ _ H1 Hbuilt) (extends_observe _ _ _ _ H1 Ho)
                  eq_refl) as [b' [s' [Hr [Hb' [Ho' [Hi [Hm Hw]]]]]]].
      change (is_immutable s1 self) with (is_immutable s self) in Hi, Hm.
      exists b', s'. split; [exact Hr|]. split; [exact Hb'|].
      split; [exact Ho'|]. split; [exact Hi|]. split; [|exact Hw].
      destruct (is_immutable s self); [|exact Hm].
      destruct Hm as [Hext ->]. split; [|reflexivity].
      exact (extends_trans _ _ _ H1 Hext).
    + rewrite (and_dom_run _ _ _ _ Ho).
      destruct (is_wildcard (o_day_of_week o)); [reflexivity|].
      set (s1 := Store _ _ _).
      pose proof (extends_same_objects s (warned s1)) as H1. fold s1 in H1.
      destruct (copy_with_conjunction_built s1 self o ("dom", d)
                  (extends_built _ _ _ H1 Hbuilt) (extends_observe _ _ _ _ H1 Ho)
                  eq_refl) as [b' [s' [Hr [Hb' [Ho' [Hi [Hm Hw]]]]]]].
      change (is_immutable s1 self) with (is_immutable s self) in Hi, Hm.
      exists b', s'. split; [exact Hr|]. split; [exact Hb'|].
      split; [exact Ho'|]. split; [exact Hi|]. split; [|exact Hw].
      destruct (is_immutable s self); [|exact Hm].
      destruct Hm as [Hext ->]. split; [|reflexivity].
      exact (extends_trans _ _ _ H1 Hext).
Qed.

(** ** Chains of calls on a builder in full *)

Lemma chain_simulation cs self s o :
  Forall (fun c => chained c = false) cs ->
  built s self = true ->
  observe s self = Some o ->
  exists r s',
    invoke_chain cs self s = (r, s')
    /\ match apply_chain cs o with
       | Raise ex => r = Raise ex
       | Ok o' =>
           exists b',
             r = Ok b'
             /\ built s' b' = true
             /\ observe s' b' = Some o'
             /\ is_immutable s' b' = is_immutable s self
             /\ (is_immutable s self = false -> b' = self)
       end.
Proof.
  intros Hcs. revert self s o.
  induction Hcs as [|c cs Hc _ IH]; intros self s o Hbuilt Ho; simpl.
  - exists (Ok self), s. split; [reflexivity|]. exists self. auto.
  - rewrite bind_run.
    pose proof (primitive_simulation c self s o Hc Hbuilt Ho) as H.
    destruct (apply_primitive c o) as [o1|ex]; simpl.
    + destruct H as [b1 [s1 [Hr [Hb1 [Ho1 [Hi1 [Hm1 _]]]]]]]. rewrite Hr.
      destruct (IH b1 s1 o1 Hb1 Ho1) as [r [s' [Hrun Hres]]].
      exists r, s'. split; [exact Hrun|].
      destruct (apply_chain cs o1) as [o'|ex]; [|exact Hres].
      destruct Hres as [b' [-> [Hb' [Ho' [Hi' Hm']]]]].
      exists b'. split; [reflexivity|]. split; [exact Hb'|].
      split; [exact Ho'|]. split; [congruence|].
      intros Hmut. rewrite Hmut in Hm1. subst b1.
      apply Hm'. congruence.
    + rewrite H. eexists _, _. split; reflexivity.
Qed.

Lemma flat_chain_primitive cs :
  Forall (fun c => chained c = false) (flat_map chain_of cs).
Proof.
  induction cs as [|c cs IH]; simpl; [constructor|].
  apply Forall_app. split; [apply chain_of_primitive|exact IH].
Qed.

Lemma calls_simulation cs self s o :
  built s self = true ->
  observe s self = Some o ->
  exists r s',
    invoke_chain cs self s = (r, s')
    /\ match apply_calls cs o with
       | Raise ex => r = Raise ex
       | Ok o' =>
           exists b',
             r = Ok b'
             /\ built s' b' = true
             /\ observe s' b' = Some o'
             /\ is_immutable s' b' = is_immutable s self
             /\ (is_immutable s self = false -> b' = self)
       end.
Proof.
  intros Hbuilt Ho.
  destruct (chain_simulation _ self s o (flat_chain_primitive cs) Hbuilt Ho)
    as [r [s' [Hrun Hres]]].
  exists r, s'. split; [|exact Hres].
  rewrite invoke_chain_flatten. exact Hrun.
Qed.

Lemma call_simulation c self s o :
  built s self = true ->
  observe s self = Some o ->
  exists r s',
    invoke c self s = (r, s')
    /\ match apply_call c o with
       | Raise ex => r = Raise ex
       | Ok o' =>
           exists b',
             r = Ok b'
             /\ built s' b' = true
             /\ observe s' b' = Some o'
             /\ is_immutable s' b' = is_immutable s self
             /\ (is_immutable s self = false -> b' = self)
       end.
Proof.
  intros Hbuilt Ho.
  destruct (chain_simulation _ self s o (chain_of_primitive c) Hbuilt Ho)
    as [r [s' [Hrun Hres]]].
  exists r, s'. split; [|exact Hres].
  rewrite invoke_chain_of. exact Hrun.
Qed.

Lemma init_built immutable s :
  built (snd (CronBuilder.__init__ immutable s)) (length (builder_objs s)) = true.
Proof.
  rewrite builder_init_run. simpl.
  apply built_slots. eexists. split; [simpl; apply lookup_at_end|].
  split; [|split; [|reflexivity]].
  - intros k. apply built_field_lookup. simpl.
    exists (CronFieldObj.mk (slot_min k) (slot_max k) (slot_name k) immutable
              (CronExpr.mk "any" [])).
    split; [|simpl; auto 6].
    rewrite lookup_app_r by (destruct k; simpl; lia).
    destruct k; simpl.
    + replace (length (field_objs s) - length (field_objs s))%nat with 0%nat by lia.
      reflexivity.
    + replace (S (length (field_objs s)) - length (field_objs s))%nat
        with 1%nat by lia.
      reflexivity.
    + replace (S (S (length (field_objs s))) - length (field_objs s))%nat
        with 2%nat by lia.
      reflexivity.
    + replace (S (S (S (length (field_objs s)))) - length (field_objs s))%nat
        with 3%nat by lia.
      reflexivity.
    + replace (S (S (S (S (length (field_objs s))))) - length (field_objs s))%nat
        with 4%nat by lia.
      reflexivity.
  - intros i j. destruct i, j; simpl; intros Heq; try reflexivity; lia.
Qed.

(** A builder obtained from the constructor by a chain of calls, with the
    observable state the calls compute from the initial one. *)
Lemma reachable_built immutable cs s r s' :
  (CronBuilder.__init__ immutable ≫= invoke_chain cs) s = (r, s') ->
  match apply_calls cs fresh_observation with
  | Raise ex => r = Raise ex
  | Ok o =>
      exists b,
        r = Ok b /\ built s' b = true /\ observe s' b = Some o
        /\ is_immutable s' b = immutable
  end.
Proof.
  intros Hrun. rewrite bind_run in Hrun.
  pose proof (init_built immutable s) as Hb.
  pose proof (init_observe immutable s) as Ho.
  destruct (init_wf immutable s) as [s0 [Hinit [_ [Himm _]]]].
  rewrite Hinit in Hb, Ho, Hrun. simpl in Hb, Ho.
  destruct (calls_simulation cs _ s0 _ Hb Ho) as [r1 [s1 [Hr Hres]]].
  rewrite Hr in Hrun. injection Hrun as -> ->.
  destruct (apply_calls cs fresh_observation) as [o|ex]; [|exact Hres].
  destruct Hres as [b [-> [Hb' [Ho' [Hi _]]]]].
  exists b. split; [reflexivity|]. split; [exact Hb'|]. split; [exact Ho'|].
  congruence.
Qed.

(** * Further properties, one by one *)

(** X1. Every value a builder holds is within the bounds of its field:
    for a builder obtained from the constructor by any chain of calls, each
    field keeps the bounds and the name the constructor gave it, a value, the
    members of a list and the ends of a range lie within those bounds, a
    range is ordered, and a step is positive and starts within the bounds or
    at the sentinel [-1]. *)
Theorem reachable_values_within_bounds immutable cs s r s' b :
  (CronBuilder.__init__ immutable ≫= invoke_chain cs) s = (r, s') ->
  r = Ok b ->
  built s' b = true
  /\ exists o,
       observe s' b = Some o
       /\ forall k, bounded_expr (slot_min k) (slot_max k) (slot_obs k o) = true.
Proof.
  intros Hrun ->. pose proof (reachable_built _ _ _ _ _ Hrun) as H.
  destruct (apply_calls cs fresh_observation) as [o|ex]; [|discriminate].
  destruct H as [b0 [[= <-] [Hb [Ho _]]]].
  split; [exact Hb|].
  destruct (built_observation _ _ Hb) as [o' [Ho' [Hk _]]].
  rewrite Ho in Ho'. injection Ho' as <-. eauto.
Qed.

Lemma reachable_values_within_bounds_witness :
  built both_days_store 0%nat = true
  /\ exists o,
       observe both_days_store 0%nat = Some o
       /\ forall k, bounded_expr (slot_min k) (slot_max k) (slot_obs k o) = true.
Proof.
  exact (reachable_values_within_bounds false
           [Call_on_dom 15; Call_on_dow (Int 1)] empty_store (Ok 0%nat)
           both_days_store 0%nat eq_refl eq_refl).
Defined.

Lemma bounded_matches_within lo hi e x :
  bounded_expr lo hi e = true ->
  is_wildcard e = false ->
  String.eqb (CronExpr.kind e) "step" = false ->
  CronExpr.matches e x = Ok true ->
  within lo hi x = true.
Proof.
  unfold bounded_expr, is_wildcard, CronExpr.matches.
  intros Hb Hany Hstep. rewrite Hany in *. rewrite Hstep in *.
  destruct (String.eqb (CronExpr.kind e) "value").
  { destruct (CronExpr.values e) as [|v [|? ?]]; try discriminate.
    simpl. intros [= Hx]. apply Z.eqb_eq in Hx. subst x. exact Hb. }
  destruct (String.eqb (CronExpr.kind e) "list").
  { intros [= Hx]. apply existsb_exists in Hx as [v [Hin Hv]].
    apply Z.eqb_eq in Hv. subst v.
    rewrite forallb_forall in Hb. exact (Hb x Hin). }
  destruct (String.eqb (CronExpr.kind e) "range"); [|discriminate].
  destruct (CronExpr.values e) as [|a [|b [|? ?]]]; try discriminate.
  simpl. apply andb_true_iff in Hb as [Hb Hab].
  apply andb_true_iff in Hb as [Ha Hb].
  destruct (a <=? x) eqn:Hax; simpl; [|discriminate].
  intros [= Hxb]. unfold within in *.
  apply andb_true_iff in Ha as [Ha1 Ha2]. apply andb_true_iff in Hb as [Hb1 Hb2].
  apply andb_true_iff. rewrite !Z.leb_le in *. lia.
Qed.

(** X2. A field set to a value, a list or a range never matches a value
    outside its bounds: on a builder the constructor and the methods
    produced, if the expression of a field is neither the wildcard nor a
    step and matches [x], then [x] lies within the bounds of that field. *)
Theorem configured_field_matches_within_bounds s self o k x :
  built s self = true ->
  observe s self = Some o ->
  is_wildcard (slot_obs k o) = false ->
  String.eqb (CronExpr.kind (slot_obs k o)) "step" = false ->
  CronExpr.matches (slot_obs k o) x = Ok true ->
  slot_min k <= x <= slot_max k.
Proof.
  intros Hb Ho Hany Hstep Hm.
  destruct (built_observation _ _ Hb) as [o' [Ho' [Hk _]]].
  rewrite Ho in Ho'. injection Ho' as <-.
  pose proof (bounded_matches_within _ _ _ x (Hk k) Hany Hstep Hm) as Hw.
  unfold within in Hw. apply andb_true_iff in Hw. rewrite !Z.leb_le in Hw. exact Hw.
Qed.

Lemma configured_field_matches_within_bounds_witness : 1 <= 15 <= 31.
Proof.
  exact (configured_field_matches_within_bounds both_days_store 0%nat
           (Obs (CronExpr.mk "any" []) (CronExpr.mk "any" [])
                (CronExpr.mk "value" [15]) (CronExpr.mk "any" [])
                (CronExpr.mk "value" [1]) None)
           DayOfMonth 15 eq_refl eq_refl eq_refl eq_refl eq_refl).
Defined.

(** X3. A call that sets one field changes that field and nothing else:
    when it succeeds on a builder the constructor and the methods produced,
    the builder returned holds the validated expression in that field, the
    other four expressions as the receiver had them, and the receiver's
    conjunction. *)
Theorem field_setter_changes_one_field c k chk self s o b' s' :
  field_call c = Some (k, chk) ->
  built s self = true ->
  observe s self = Some o ->
  invoke c self s = (Ok b', s') ->
  exists e o',
    chk (slot_min k) (slot_max k) (slot_name k) = Ok e
    /\ observe s' b' = Some o'
    /\ slot_obs k o' = e
    /\ (forall j, j <> k -> slot_obs j o' = slot_obs j o)
    /\ o_conjunction o' = o_conjunction o.
Proof.
  intros Hfc Hbuilt Ho Hrun.
  pose proof (primitive_simulation c self s o (field_call_primitive _ _ _ Hfc)
                Hbuilt Ho) as H.
  unfold apply_primitive in H. rewrite Hfc in H.
  destruct (chk (slot_min k) (slot_max k) (slot_name k)) as [e|ex]; simpl in H.
  - destruct H as [b1 [s1 [Hr [_ [Ho1 _]]]]].
    rewrite Hr in Hrun. injection Hrun as <- <-.
    exists e, (set_slot k e o). split; [reflexivity|]. split; [exact Ho1|].
    split; [rewrite slot_obs_set_slot; destruct (decide (k = k)); congruence|].
    split; [|apply conjunction_set_slot].
    intros j Hne. rewrite slot_obs_set_slot.
    destruct (decide (j = k)); [contradiction|reflexivity].
  - rewrite H in Hrun. discriminate.
Qed.

Lemma field_setter_changes_one_field_witness :
  exists e o',
    check_value 9 0 23 "hour" = Ok e
    /\ observe (snd (invoke (Call_at_hour 9) 0%nat both_days_store)) 0%nat = Some o'
    /\ slot_obs Hour o' = e
    /\ (forall j, j <> Hour ->
        slot_obs j o'
        = slot_obs j (Obs (CronExpr.mk "any" []) (CronExpr.mk "any" [])
                         (CronExpr.mk "value" [15]) (CronExpr.mk "any" [])
                         (CronExpr.mk "value" [1]) None))
    /\ o_conjunction o' = None.
Proof.
  exact (field_setter_changes_one_field (Call_at_hour 9) Hour (check_value 9)
           0%nat both_days_store
           (Obs (CronExpr.mk "any" []) (CronExpr.mk "any" [])
                (CronExpr.mk "value" [15]) (CronExpr.mk "any" [])
                (CronExpr.mk "value" [1]) None)
           0%nat (snd (invoke (Call_at_hour 9) 0%nat both_days_store))
           eq_refl eq_refl eq_refl eq_refl).
Defined.

(** X4. In mutable mode every call returns its receiver: when a call
    (a setter, a combinator or a conjunction setter) succeeds on a mutable
    builder, the builder returned is the receiver itself, still mutable and
    still as the constructor and the methods leave a builder. *)
Theorem mutable_call_returns_receiver c self s b' s' :
  built s self = true ->
  is_immutable s self = false ->
  invoke c self s = (Ok b', s') ->
  b' = self /\ built s' self = true /\ is_immutable s' self = false.
Proof.
  intros Hbuilt Hmut Hrun.
  destruct (built_observation _ _ Hbuilt) as [o [Ho _]].
  destruct (call_simulation c self s o Hbuilt Ho) as [r [s1 [Hr H]]].
  rewrite Hr in Hrun. injection Hrun as -> ->.
  destruct (apply_call c o) as [o'|ex]; [|discriminate].
  destruct H as [b1 [[= <-] [Hb1 [_ [Hi Hm]]]]].
  specialize (Hm Hmut). subst b'. split; [reflexivity|].
  split; [exact Hb1|congruence].
Qed.

Lemma mutable_call_returns_receiver_witness :
  0%nat = 0%nat
  /\ built (snd (invoke (Call_yearly None None None None) 0%nat mutable_store))
        0%nat = true
  /\ is_immutable (snd (invoke (Call_yearly None None None None) 0%nat
                          mutable_store)) 0%nat = false.
Proof.
  exact (mutable_call_returns_receiver (Call_yearly None None None None) 0%nat
           mutable_store 0%nat
           (snd (invoke (Call_yearly None None None None) 0%nat mutable_store))
           eq_refl eq_refl eq_refl).
Defined.

Lemma set_slot_comm k1 k2 e1 e2 o :
  k1 <> k2 ->
  set_slot k1 e1 (set_slot k2 e2 o) = set_slot k2 e2 (set_slot k1 e1 o).
Proof. destruct k1, k2; intros H; try contradiction; reflexivity. Qed.

Lemma set_slot_twice k e1 e2 o : set_slot k e2 (set_slot k e1 o) = set_slot k e2 o.
Proof. destruct k; reflexivity. Qed.

Lemma apply_field_call c k chk o :
  field_call c = Some (k, chk) ->
  apply_primitive c o
  = result_bind (chk (slot_min k) (slot_max k) (slot_name k))
      (fun e => Ok (set_slot k e o)).
Proof. intros H. unfold apply_primitive. rewrite H. reflexivity. Qed.

Lemma apply_two_field_calls c1 c2 k1 k2 chk1 chk2 o :
  field_call c1 = Some (k1, chk1) ->
  field_call c2 = Some (k2, chk2) ->
  apply_chain [c1; c2] o
  = result_bind (chk1 (slot_min k1) (slot_max k1) (slot_name k1)) (fun e1 =>
    result_bind (chk2 (slot_min k2) (slot_max k2) (slot_name k2)) (fun e2 =>
    Ok (set_slot k2 e2 (set_slot k1 e1 o)))).
Proof.
  intros H1 H2. simpl. rewrite (apply_field_call _ _ _ _ H1).
  destruct (chk1 _ _ _) as [e1|x1]; simpl; [|reflexivity].
  rewrite (apply_field_call _ _ _ _ H2).
  destruct (chk2 _ _ _) as [e2|x2]; reflexivity.
Qed.

(** X5. Setters of different fields commute: from the same builder, the
    calls [c1] then [c2] succeed exactly when [c2] then [c1] do, and the two
    builders returned then hold the same five expressions and the same
    conjunction. *)
Theorem setters_of_different_fields_commute c1 c2 k1 k2 chk1 chk2 self s o :
  field_call c1 = Some (k1, chk1) ->
  field_call c2 = Some (k2, chk2) ->
  k1 <> k2 ->
  built s self = true ->
  observe s self = Some o ->
  exists r12 s12 r21 s21,
    invoke_chain [c1; c2] self s = (r12, s12)
    /\ invoke_chain [c2; c1] self s = (r21, s21)
    /\ ((exists b, r12 = Ok b) <-> (exists b, r21 = Ok b))
    /\ forall b12 b21, r12 = Ok b12 -> r21 = Ok b21 ->
         exists o', observe s12 b12 = Some o' /\ observe s21 b21 = Some o'.
Proof.
  intros H1 H2 Hne Hbuilt Ho.
  assert (Forall (fun c => chained c = false) [c1; c2]) as Hp12
    by (repeat constructor; eauto using field_call_primitive).
  assert (Forall (fun c => chained c = false) [c2; c1]) as Hp21
    by (repeat constructor; eauto using field_call_primitive).
  destruct (chain_simulation _ self s o Hp12 Hbuilt Ho) as [r12 [s12 [Hr12 Hs12]]].
  destruct (chain_simulation _ self s o Hp21 Hbuilt Ho) as [r21 [s21 [Hr21 Hs21]]].
  exists r12, s12, r21, s21. split; [exact Hr12|]. split; [exact Hr21|].
  rewrite (apply_two_field_calls _ _ _ _ _ _ _ H1 H2) in Hs12.
  rewrite (apply_two_field_calls _ _ _ _ _ _ _ H2 H1) in Hs21.
  destruct (chk1 (slot_min k1) (slot_max k1) (slot_name k1)) as [e1|x1];
    destruct (chk2 (slot_min k2) (slot_max k2) (slot_name k2)) as [e2|x2];
    simpl in Hs12, Hs21.
  - destruct Hs12 as [b12 [-> [_ [Ho12 _]]]].
    destruct Hs21 as [b21 [-> [_ [Ho21 _]]]].
    split; [split; eauto|].
    intros ? ? [= <-] [= <-]. eexists. split; [exact Ho12|].
    rewrite Ho21, (set_slot_comm k1 k2) by exact Hne. reflexivity.
  - subst r12 r21. split; [split; intros [b Hb]; discriminate|].
    intros ? ? Hb. discriminate.
  - subst r12 r21. split; [split; intros [b Hb]; discriminate|].
    intros ? ? Hb. discriminate.
  - subst r12 r21. split; [split; intros [b Hb]; discriminate|].
    intros ? ? Hb. discriminate.
Qed.

Lemma setters_of_different_fields_commute_witness :
  exists r12 s12 r21 s21,
    invoke_chain [Call_at_hour 9; Call_every_minutes 15] 0%nat mutable_store
    = (r12, s12)
    /\ invoke_chain [Call_every_minutes 15; Call_at_hour 9] 0%nat mutable_store
       = (r21, s21)
    /\ ((exists b, r12 = Ok b) <-> (exists b, r21 = Ok b))
    /\ forall b12 b21, r12 = Ok b12 -> r21 = Ok b21 ->
         exists o', observe s12 b12 = Some o' /\ observe s21 b21 = Some o'.
Proof.
  exact (setters_of_different_fields_commute
           (Call_at_hour 9) (Call_every_minutes 15) Hour Minute
           (check_value 9) (check_interval 15 None) 0%nat mutable_store
           fresh_observation eq_refl eq_refl ltac:(discriminate) eq_refl eq_refl).
Defined.

(** X6. The last setter of a field wins: when two calls that set the same
    field succeed one after the other, the builder returned holds what the
    second call alone would have left. *)
Theorem last_setter_wins c1 c2 k chk1 chk2 self s b12 s12 :
  field_call c1 = Some (k, chk1) ->
  field_call c2 = Some (k, chk2) ->
  built s self = true ->
  invoke_chain [c1; c2] self s = (Ok b12, s12) ->
  exists b2 s2 o',
    invoke c2 self s = (Ok b2, s2)
    /\ observe s12 b12 = Some o'
    /\ observe s2 b2 = Some o'.
Proof.
  intros H1 H2 Hbuilt Hrun.
  destruct (built_observation _ _ Hbuilt) as [o [Ho _]].
  assert (Forall (fun c => chained c = false) [c1; c2]) as Hp12
    by (repeat constructor; eauto using field_call_primitive).
  destruct (chain_simulation _ self s o Hp12 Hbuilt Ho) as [r [s1 [Hr Hs]]].
  rewrite Hr in Hrun. injection Hrun as -> ->.
  rewrite (apply_two_field_calls _ _ _ _ _ _ _ H1 H2) in Hs.
  pose proof (primitive_simulation c2 self s o (field_call_primitive _ _ _ H2)
                Hbuilt Ho) as Hc2.
  rewrite (apply_field_call _ _ _ _ H2) in Hc2.
  destruct (chk1 (slot_min k) (slot_max k) (slot_name k)) as [e1|x1];
    simpl in Hs; [|discriminate].
  destruct (chk2 (slot_min k) (slot_max k) (slot_name k)) as [e2|x2];
    simpl in Hs, Hc2; [|discriminate].
  destruct Hs as [b [[= <-] [_ [Ho12 _]]]].
  destruct Hc2 as [b2 [s2 [Hr2 [_ [Ho2 _]]]]].
  exists b2, s2, (set_slot k e2 o). split; [exact Hr2|].
  split; [rewrite Ho12, set_slot_twice; reflexivity|exact Ho2].
Qed.

Lemma last_setter_wins_witness :
  exists b2 s2 o',
    invoke (Call_at_hour 14) 0%nat immutable_store = (Ok b2, s2)
    /\ observe (snd (invoke_chain [Call_at_hour 9; Call_at_hour 14] 0%nat
                       immutable_store)) 2%nat = Some o'
    /\ observe s2 b2 = Some o'.
Proof.
  exact (last_setter_wins (Call_at_hour 9) (Call_at_hour 14) Hour
           (check_value 9) (check_value 14) 0%nat immutable_store 2%nat
           (snd (invoke_chain [Call_at_hour 9; Call_at_hour 14] 0%nat
                   immutable_store))
           eq_refl eq_refl eq_refl eq_refl).
Defined.

(** X7. The overwrite warning: a successful call that sets one field
    emits no warning on an immutable builder; on a mutable builder it emits
    none when the field held the wildcard, and otherwise exactly one, which
    names the field, the old rendering and the new one. *)
Theorem overwrite_warning_emitted c k chk self s o b' s' :
  field_call c = Some (k, chk) ->
  built s self = true ->
  observe s self = Some o ->
  invoke c self s = (Ok b', s') ->
  exists e,
    chk (slot_min k) (slot_max k) (slot_name k) = Ok e
    /\ warned s'
       = warned s
         ++ (if is_immutable s self then []
             else if is_wildcard (slot_obs k o) then []
             else [slot_name k +:+ " field overwritten: '"
                   +:+ rendered (slot_obs k o) +:+ "' -> '" +:+ rendered e
                   +:+ "'"]).
Proof.
  intros Hfc Hbuilt Ho Hrun.
  pose proof (primitive_simulation c self s o (field_call_primitive _ _ _ Hfc)
                Hbuilt Ho) as H.
  unfold apply_primitive, primitive_warnings in H. rewrite Hfc in H.
  destruct (chk (slot_min k) (slot_max k) (slot_name k)) as [e|ex]; simpl in H.
  - destruct H as [b1 [s1 [Hr [_ [_ [_ [_ Hw]]]]]]].
    rewrite Hr in Hrun. injection Hrun as <- <-.
    exists e. split; [reflexivity|]. exact Hw.
  - rewrite H in Hrun. discriminate.
Qed.

Lemma overwrite_warning_emitted_witness :
  exists e,
    check_value 14 1 31 "day_of_month" = Ok e
    /\ warned (snd (invoke (Call_on_dom 14) 0%nat both_days_store))
       = warned both_days_store
         ++ ["day_of_month field overwritten: '"
             +:+ rendered (CronExpr.mk "value" [15]) +:+ "' -> '" +:+ rendered e
             +:+ "'"].
Proof.
  exact (overwrite_warning_emitted (Call_on_dom 14) DayOfMonth (check_value 14)
           0%nat both_days_store
           (Obs (CronExpr.mk "any" []) (CronExpr.mk "any" [])
                (CronExpr.mk "value" [15]) (CronExpr.mk "any" [])
                (CronExpr.mk "value" [1]) None)
           0%nat (snd (invoke (Call_on_dom 14) 0%nat both_days_store))
           eq_refl eq_refl eq_refl eq_refl).
Defined.

Lemma apply_primitive_keeps_conjunction c o o' :
  apply_primitive c o = Ok o' ->
  o_conjunction o <> None -> o_conjunction o' <> None.
Proof.
  unfold apply_primitive. destruct (field_call c) as [[k chk]|].
  - destruct (chk _ _ _) as [e|]; simpl; [|discriminate].
    intros [= <-]. rewrite conjunction_set_slot. auto.
  - destruct c; try (intros [= <-]; auto; fail).
    + destruct (is_wildcard _); [discriminate|]. intros [= <-] _. discriminate.
    + destruct (is_wildcard _); [discriminate|]. intros [= <-] _. discriminate.
Qed.

Lemma apply_chain_keeps_conjunction cs o o' :
  apply_chain cs o = Ok o' ->
  o_conjunction o <> None -> o_conjunction o' <> None.
Proof.
  revert o. induction cs as [|c cs IH]; intros o; simpl.
  - intros [= <-]. auto.
  - destruct (apply_primitive c o) as [o1|] eqn:H1; simpl; [|discriminate].
    intros H Hc. apply (IH o1 H).
    exact (apply_primitive_keeps_conjunction _ _ _ H1 Hc).
Qed.

(** X8. A conjunction is never cleared: once a builder has a conjunction
    recorded, the builder any chain of successful calls returns has one
    too; only another conjunction setter replaces it. *)
Theorem conjunction_is_never_cleared cs self s o b' s' :
  built s self = true ->
  observe s self = Some o ->
  o_conjunction o <> None ->
  invoke_chain cs self s = (Ok b', s') ->
  exists o', observe s' b' = Some o' /\ o_conjunction o' <> None.
Proof.
  intros Hbuilt Ho Hc Hrun.
  destruct (calls_simulation cs self s o Hbuilt Ho) as [r [s1 [Hr H]]].
  rewrite Hr in Hrun. injection Hrun as -> ->.
  destruct (apply_calls cs o) as [o'|ex] eqn:Ha; [|discriminate].
  destruct H as [b1 [[= <-] [_ [Ho' _]]]].
  exists o'. split; [exact Ho'|].
  exact (apply_chain_keeps_conjunction _ _ _ Ha Hc).
Qed.

Lemma conjunction_is_never_cleared_witness :
  exists o',
    observe (snd (invoke_chain [Call_on_weekends; Call_daily (Some 2) None]
                    2%nat first_monday_store)) 5%nat = Some o'
    /\ o_conjunction o' <> None.
Proof.
  exact (conjunction_is_never_cleared
           [Call_on_weekends; Call_daily (Some 2) None] 2%nat first_monday_store
           (Obs (CronExpr.mk "any" []) (CronExpr.mk "any" [])
                (CronExpr.mk "range" [1; 7]) (CronExpr.mk "any" [])
                (CronExpr.mk "any" []) (Some ("dow", 1)))
           5%nat
           (snd (invoke_chain [Call_on_weekends; Call_daily (Some 2) None]
                   2%nat first_monday_store))
           eq_refl eq_refl ltac:(discriminate) eq_refl).
Defined.

(** X9. The rendered string does not show the conjunction: when
    [and_dow] or [and_dom] succeeds, the builder returned renders exactly as
    the receiver did. *)
Theorem conjunction_does_not_render c self s b' s' :
  built s self = true ->
  (exists d, c = Call_and_dow d) \/ (exists d, c = Call_and_dom d) ->
  invoke c self s = (Ok b', s') ->
  fst (CronBuilder.__str__ b' s') = fst (CronBuilder.__str__ self s).
Proof.
  intros Hbuilt Hc Hrun.
  destruct (built_observation _ _ Hbuilt) as [o [Ho _]].
  assert (chained c = false) as Hp by (destruct Hc as [[d ->]|[d ->]]; reflexivity).
  pose proof (primitive_simulation c self s o Hp Hbuilt Ho) as H.
  assert (forall o', apply_primitive c o = Ok o' ->
                     render_tokens o' = render_tokens o) as Hsame.
  { intros o'. destruct Hc as [[d ->]|[d ->]]; unfold apply_primitive; simpl;
      destruct (is_wildcard _); try discriminate; intros [= <-]; reflexivity. }
  destruct (apply_primitive c o) as [o'|ex].
  - destruct H as [b1 [s1 [Hr [_ [Ho' _]]]]].
    rewrite Hr in Hrun. injection Hrun as <- <-.
    rewrite (str_run _ _ _ Ho'), (str_run _ _ _ Ho). simpl.
    apply Hsame. reflexivity.
  - rewrite H in Hrun. discriminate.
Qed.

Lemma conjunction_does_not_render_witness :
  fst (CronBuilder.__str__ 2%nat first_monday_store)
  = fst (CronBuilder.__str__ 1%nat first_monday_store).
Proof.
  refine (conjunction_does_not_render (Call_and_dow (Enum Weekday.MONDAY)) 1%nat
            (snd ((b ← CronBuilder.__init__ true; CronBuilder.dom_range b 1 7)
                    empty_store))
            2%nat first_monday_store eq_refl (or_introl (ex_intro _ _ eq_refl))
            eq_refl).
Defined.

(** X10. The order of the checks of [set_range]: the start is checked
    against the bounds first, then the end, then their order; the first
    check that fails decides the error, nothing is written, and when all
    three pass the call succeeds. *)
Theorem set_range_error_order s f F a b :
  field_objs s !! f = Some F ->
  wf_expr (CronFieldObj.expr F) = true ->
  if negb (in_bounds F a)
  then CronField.set_range f a b s = (Raise (ValueError (bounds_message F a)), s)
  else if negb (in_bounds F b)
  then CronField.set_range f a b s = (Raise (ValueError (bounds_message F b)), s)
  else if a >? b
  then CronField.set_range f a b s = (Raise (ValueError (order_message a b)), s)
  else exists f' s', CronField.set_range f a b s = (Ok f', s').
Proof.
  intros HF Hwf. rewrite (set_range_validates a b s f F HF).
  unfold check_range, in_bounds, within.
  destruct ((CronFieldObj.min_val F <=? a) && (a <=? CronFieldObj.max_val F));
    simpl; [|reflexivity].
  destruct ((CronFieldObj.min_val F <=? b) && (b <=? CronFieldObj.max_val F));
    simpl; [|reflexivity].
  destruct (a >? b); [reflexivity|].
  destruct (apply_run s f F (CronExpr.mk "range" [a; b]) HF Hwf eq_refl)
    as [f' [s' [Hr _]]].
  eauto.
Qed.

Lemma set_range_error_order_witness :
  CronField.set_range 0%nat 70 5 mutable_store
  = (Raise (ValueError "minute must be between 0 and 59, got 70"), mutable_store).
Proof.
  exact (set_range_error_order mutable_store 0%nat
           (CronFieldObj.mk 0 59 "minute" false (CronExpr.mk "any" []))
           70 5 eq_refl eq_refl).
Defined.

(** X11. [set_values] names the first value outside the bounds and writes
    nothing; when every value is within the bounds, the empty list
    included, it succeeds and the field returned matches exactly the members
    of the list and renders them joined by commas. *)
Theorem set_values_first_offender s f F vs :
  field_objs s !! f = Some F ->
  wf_expr (CronFieldObj.expr F) = true ->
  match List.find (fun v => negb (in_bounds F v)) vs with
  | Some v =>
      CronField.set_values f vs s = (Raise (ValueError (bounds_message F v)), s)
  | None =>
      exists f' s' F',
        CronField.set_values f vs s = (Ok f', s')
        /\ field_objs s' !! f' = Some F'
        /\ CronExpr.to_cron_str (CronFieldObj.expr F') = Ok (join "," (map str vs))
        /\ forall x, CronExpr.matches (CronFieldObj.expr F') x = Ok true <-> In x vs
  end.
Proof.
  intros HF Hwf. rewrite (set_values_validates vs s f F HF).
  unfold check_values, in_bounds, within.
  destruct (List.find _ vs) as [v|]; [reflexivity|].
  destruct (apply_run s f F (CronExpr.mk "list" vs) HF Hwf eq_refl)
    as [f' [s' [Hr HF']]].
  exists f', s', (with_expr F (CronExpr.mk "list" vs)).
  split; [exact Hr|]. split; [exact HF'|]. split; [reflexivity|].
  intros x. unfold CronExpr.matches. simpl. split.
  - intros [= Hx]. apply existsb_exists in Hx as [v [Hin Hv]].
    apply Z.eqb_eq in Hv. subst v. exact Hin.
  - intros Hin. f_equal. apply existsb_exists. exists x.
    split; [exact Hin|apply Z.eqb_refl].
Qed.

Lemma set_values_first_offender_witness :
  exists f' s' F',
    CronField.set_values 0%nat [] mutable_store = (Ok f', s')
    /\ field_objs s' !! f' = Some F'
    /\ CronExpr.to_cron_str (CronFieldObj.expr F') = Ok ""
    /\ forall x, CronExpr.matches (CronFieldObj.expr F') x = Ok true <-> In x [].
Proof.
  exact (set_values_first_offender mutable_store 0%nat
           (CronFieldObj.mk 0 59 "minute" false (CronExpr.mk "any" []))
           [] eq_refl eq_refl).
Defined.

(** X12. [set_value] succeeds exactly on a value within the bounds: the
    field returned then matches that value and no other; outside the bounds
    it raises the range error, which names the field, the bounds and the
    value, and writes nothing. *)
Theorem set_value_in_bounds_only s f F v :
  field_objs s !! f = Some F ->
  wf_expr (CronFieldObj.expr F) = true ->
  if in_bounds F v
  then exists f' s' F',
         CronField.set_value f v s = (Ok f', s')
         /\ field_objs s' !! f' = Some F'
         /\ forall x, CronExpr.matches (CronFieldObj.expr F') x = Ok (x =? v)
  else CronField.set_value f v s = (Raise (ValueError (bounds_message F v)), s).
Proof.
  intros HF Hwf. rewrite (set_value_validates v s f F HF).
  unfold check_value, in_bounds, within.
  destruct ((CronFieldObj.min_val F <=? v) && (v <=? CronFieldObj.max_val F));
    [|reflexivity].
  destruct (apply_run s f F (CronExpr.mk "value" [v]) HF Hwf eq_refl)
    as [f' [s' [Hr HF']]].
  exists f', s', (with_expr F (CronExpr.mk "value" [v])).
  split; [exact Hr|]. split; [exact HF'|]. reflexivity.
Qed.

Lemma set_value_in_bounds_only_witness :
  CronField.set_value 1%nat 24 mutable_store
  = (Raise (ValueError "hour must be between 0 and 23, got 24"), mutable_store).
Proof.
  exact (set_value_in_bounds_only mutable_store 1%nat
           (CronFieldObj.mk 0 23 "hour" false (CronExpr.mk "any" []))
           24 eq_refl eq_refl).
Defined.

(** X13. [set_any] always succeeds: the field returned holds the wildcard,
    which matches every value and renders as a star; a mutable field is
    reset in place, an immutable field is left as it was and a new field
    with the same bounds is returned. *)
Theorem set_any_resets s f F :
  field_objs s !! f = Some F ->
  wf_expr (CronFieldObj.expr F) = true ->
  exists f' s',
    CronField.set_any f s = (Ok f', s')
    /\ field_objs s' !! f' = Some (with_expr F (CronExpr.mk "any" []))
    /\ (forall x, CronExpr.matches (CronExpr.mk "any" []) x = Ok true)
    /\ CronExpr.to_cron_str (CronExpr.mk "any" []) = Ok "*"
    /\ (if CronFieldObj.immutable F
        then f' = length (field_objs s) /\ field_objs s' !! f = Some F
        else f' = f).
Proof.
  intros HF Hwf. unfold CronField.set_any.
  destruct (CronFieldObj.immutable F) eqn:Himm.
  - rewrite (apply_immutable_run _ _ _ _ HF Himm).
    eexists _, _. split; [reflexivity|]. simpl.
    split; [apply lookup_at_end|]. split; [reflexivity|]. split; [reflexivity|].
    split; [reflexivity|]. apply lookup_app_l_Some. exact HF.
  - rewrite (apply_mutable_exact _ _ _ (CronExpr.mk "any" []) HF Himm Hwf eq_refl).
    eexists _, _. split; [reflexivity|]. simpl.
    split; [|auto].
    apply list_lookup_insert_eq. apply lookup_lt_is_Some. eauto.
Qed.

Lemma set_any_resets_witness :
  exists f' s',
    CronField.set_any 2%nat both_days_store = (Ok f', s')
    /\ field_objs s' !! f'
       = Some (CronFieldObj.mk 1 31 "day_of_month" false (CronExpr.mk "any" []))
    /\ (forall x, CronExpr.matches (CronExpr.mk "any" []) x = Ok true)
    /\ CronExpr.to_cron_str (CronExpr.mk "any" []) = Ok "*"
    /\ f' = 2%nat.
Proof.
  exact (set_any_resets both_days_store 2%nat
           (CronFieldObj.mk 1 31 "day_of_month" false (CronExpr.mk "value" [15]))
           eq_refl eq_refl).
Defined.

(** X14. The named constants are always accepted: on a builder the
    constructor and the methods produced, [on_dow] with any member of
    [Weekday] and [in_month] with any member of [Month] succeed and set the
    member's number; [on_weekdays] and [on_weekends] succeed and set the
    range 1-5 and the list 0,6. *)
Theorem named_constants_are_accepted self s o (d : Weekday.t) (m : Month.t) :
  built s self = true ->
  observe s self = Some o ->
  (exists b' s',
     invoke (Call_on_dow (Enum d)) self s = (Ok b', s')
     /\ observe s' b'
        = Some (set_slot DayOfWeek (CronExpr.mk "value" [Weekday.value d]) o))
  /\ (exists b' s',
        invoke (Call_in_month (Enum m)) self s = (Ok b', s')
        /\ observe s' b'
           = Some (set_slot MonthOfYear (CronExpr.mk "value" [Month.value m]) o))
  /\ (exists b' s',
        invoke Call_on_weekdays self s = (Ok b', s')
        /\ observe s' b' = Some (set_slot DayOfWeek (CronExpr.mk "range" [1; 5]) o))
  /\ (exists b' s',
        invoke Call_on_weekends self s = (Ok b', s')
        /\ observe s' b' = Some (set_slot DayOfWeek (CronExpr.mk "list" [0; 6]) o)).
Proof.
  intros Hbuilt Ho.
  assert (forall c o',
            chained c = false -> apply_primitive c o = Ok o' ->
            exists b' s', invoke c self s = (Ok b', s') /\ observe s' b' = Some o')
    as Hrun.
  { intros c o' Hc Ha.
    pose proof (primitive_simulation c self s o Hc Hbuilt Ho) as H.
    rewrite Ha in H. destruct H as [b' [s' [Hr [_ [Ho' _]]]]]. eauto. }
  split; [|split; [|split]]; apply Hrun; try reflexivity.
  - destruct d; reflexivity.
  - destruct m; reflexivity.
Qed.

Lemma named_constants_are_accepted_witness :
  (exists b' s',
     invoke (Call_on_dow (Enum Weekday.SAT)) 0%nat mutable_store = (Ok b', s')
     /\ observe s' b'
        = Some (set_slot DayOfWeek (CronExpr.mk "value" [6]) fresh_observation))
  /\ (exists b' s',
        invoke (Call_in_month (Enum Month.DEC)) 0%nat mutable_store = (Ok b', s')
        /\ observe s' b'
           = Some (set_slot MonthOfYear (CronExpr.mk "value" [12]) fresh_observation))
  /\ (exists b' s',
        invoke Call_on_weekdays 0%nat mutable_store = (Ok b', s')
        /\ observe s' b'
           = Some (set_slot DayOfWeek (CronExpr.mk "range" [1; 5]) fresh_observation))
  /\ (exists b' s',
        invoke Call_on_weekends 0%nat mutable_store = (Ok b', s')
        /\ observe s' b'
           = Some (set_slot DayOfWeek (CronExpr.mk "list" [0; 6]) fresh_observation)).
Proof.
  exact (named_constants_are_accepted 0%nat mutable_store fresh_observation
           Weekday.SAT Month.DEC eq_refl eq_refl).
Defined.

Lemma apply_combinator c o :
  chained c = true ->
  apply_call c o
  = match List.find out_of_slot (combinator_fields c) with
    | Some (k, v) =>
        Raise (ValueError (range_message (slot_name k) (slot_min k) (slot_max k) v))
    | None => Ok (fold_left set_value_of (combinator_fields c) o)
    end.
Proof.
  destruct c; simpl; try discriminate; intros _;
    unfold apply_call, apply_primitive, out_of_slot, set_value_of, check_value;
    simpl chain_of; simpl combinator_fields; cbn -[within];
    unfold check_value; cbn -[within];
    repeat (match goal with
            | |- context [within ?a ?b ?v] => destruct (within a b v); cbn -[within]
            end);
    reflexivity.
Qed.

(** X15. What the combinators do: [at], [daily], [weekly], [monthly] and
    [yearly] set the hour, then the minute, then the day and the month they
    take, each to the value given or to the default of the signature. The
    first of these values outside its field's bounds decides the error;
    when all are within bounds the call succeeds and the builder returned
    holds these values in these fields and everything else as before. *)
Theorem combinator_sets_its_fields c self s o :
  chained c = true ->
  built s self = true ->
  observe s self = Some o ->
  match List.find out_of_slot (combinator_fields c) with
  | Some (k, v) =>
      exists s',
        invoke c self s
        = (Raise (ValueError
                    (range_message (slot_name k) (slot_min k) (slot_max k) v)), s')
  | None =>
      exists b' s',
        invoke c self s = (Ok b', s')
        /\ observe s' b' = Some (fold_left set_value_of (combinator_fields c) o)
  end.
Proof.
  intros Hc Hbuilt Ho.
  destruct (call_simulation c self s o Hbuilt Ho) as [r [s' [Hr H]]].
  rewrite (apply_combinator c o Hc) in H.
  destruct (List.find out_of_slot (combinator_fields c)) as [[k v]|].
  - subst r. eauto.
  - destruct H as [b' [-> [_ [Ho' _]]]]. eauto.
Qed.

Lemma combinator_sets_its_fields_witness :
  exists b' s',
    invoke (Call_yearly (Some (Enum Month.DECEMBER)) (Some 25) (Some 8) None)
      0%nat mutable_store = (Ok b', s')
    /\ observe s' b'
       = Some (Obs (CronExpr.mk "value" [0]) (CronExpr.mk "value" [8])
                   (CronExpr.mk "value" [25]) (CronExpr.mk "value" [12])
                   (CronExpr.mk "any" []) None).
Proof.
  exact (combinator_sets_its_fields
           (Call_yearly (Some (Enum Month.DECEMBER)) (Some 25) (Some 8) None)
           0%nat mutable_store fresh_observation eq_refl eq_refl eq_refl).
Defined.

(** X16. The two ways to ask for "day [d] of the month and weekday [w]"
    agree: for a day in 1..31 and a weekday in 0..6, [on_dom(d).and_dow(w)]
    and [on_dow(w).and_dom(d)] both succeed, and [should_run] on either
    result is true exactly on the timestamps whose day of the month is [d]
    and whose weekday, counted from Sunday = 0, is [w]. *)
Theorem day_and_weekday_both_ways self s d w now check_time :
  built s self = true ->
  1 <= d <= 31 ->
  0 <= w <= 6 ->
  let dt := default now check_time in
  let expected := (datetime.day dt =? d) && (sunday_based dt =? w) in
  exists b1 s1 b2 s2,
    invoke_chain [Call_on_dom d; Call_and_dow (Int w)] self s = (Ok b1, s1)
    /\ invoke_chain [Call_on_dow (Int w); Call_and_dom d] self s = (Ok b2, s2)
    /\ CronBuilder.should_run now b1 check_time s1 = (Ok expected, s1)
    /\ CronBuilder.should_run now b2 check_time s2 = (Ok expected, s2).
Proof.
  intros Hbuilt Hd Hw dt expected.
  destruct (built_observation _ _ Hbuilt) as [o [Ho _]].
  assert (within 1 31 d = true) as Hdin
    by (unfold within; apply andb_true_iff; rewrite !Z.leb_le; lia).
  assert (within 0 6 w = true) as Hwin
    by (unfold within; apply andb_true_iff; rewrite !Z.leb_le; lia).
  destruct (chain_simulation [Call_on_dom d; Call_and_dow (Int w)] self s o
              ltac:(repeat constructor) Hbuilt Ho) as [r1 [s1 [Hr1 H1]]].
  destruct (chain_simulation [Call_on_dow (Int w); Call_and_dom d] self s o
              ltac:(repeat constructor) Hbuilt Ho) as [r2 [s2 [Hr2 H2]]].
  cbn -[within] in H1, H2. unfold apply_primitive, check_value in H1, H2.
  cbn -[within] in H1, H2. rewrite Hdin in H1. rewrite Hwin in H2.
  cbn -[within] in H1, H2.
  destruct H1 as [b1 [-> [_ [Ho1 _]]]]. destruct H2 as [b2 [-> [_ [Ho2 _]]]].
  exists b1, s1, b2, s2. split; [exact Hr1|]. split; [exact Hr2|].
  rewrite (should_run_run _ _ _ _ _ Ho1), (should_run_run _ _ _ _ _ Ho2).
  fold dt. unfold should_run_on. simpl. rewrite sunday_based_shift.
  subst expected. split.
  - destruct (datetime.day dt =? d); reflexivity.
  - destruct (sunday_based dt =? w); simpl; [|rewrite andb_false_r];
      try reflexivity.
    rewrite andb_true_r. reflexivity.
Qed.

Lemma day_and_weekday_both_ways_witness :
  exists b1 s1 b2 s2,
    invoke_chain [Call_on_dom 15; Call_and_dow (Int 1)] 0%nat mutable_store
    = (Ok b1, s1)
    /\ invoke_chain [Call_on_dow (Int 1); Call_and_dom 15] 0%nat mutable_store
       = (Ok b2, s2)
    /\ CronBuilder.should_run (datetime.date 2024 1 1) b1
         (Some (datetime.date 2024 1 15)) s1 = (Ok true, s1)
    /\ CronBuilder.should_run (datetime.date 2024 1 1) b2
         (Some (datetime.date 2024 1 15)) s2 = (Ok true, s2).
Proof.
  exact (day_and_weekday_both_ways 0%nat mutable_store 15 1
           (datetime.date 2024 1 1) (Some (datetime.date 2024 1 15))
           eq_refl ltac:(lia) ltac:(lia)).
Defined.

Lemma validation_raises_ValueError (chk : validation) lo hi name ex :
  (exists v, chk = check_value v) \/ (exists vs, chk = check_values vs)
  \/ (exists a b, chk = check_range a b) \/ (exists i st, chk = check_interval i st) ->
  chk lo hi name = Raise ex -> exists msg, ex = ValueError msg.
Proof.
  intros [[v ->]|[[vs ->]|[[a [b ->]]|[i [st ->]]]]].
  - unfold check_value. destruct (within lo hi v); [discriminate|].
    intros [= <-]. eauto.
  - unfold check_values. destruct (List.find _ vs); [|discriminate].
    intros [= <-]. eauto.
  - unfold check_range.
    destruct (negb (within lo hi a)); [intros [= <-]; eauto|].
    destruct (negb (within lo hi b)); [intros [= <-]; eauto|].
    destruct (a >? b); [intros [= <-]; eauto|discriminate].
  - unfold check_interval.
    destruct (i <=? 0); [intros [= <-]; eauto|].
    destruct (_ && _); [intros [= <-]; eauto|discriminate].
Qed.

Lemma apply_primitive_raises_ValueError c o ex :
  apply_primitive c o = Raise ex -> exists msg, ex = ValueError msg.
Proof.
  unfold apply_primitive. destruct (field_call c) as [[k chk]|] eqn:Hfc.
  - destruct (chk _ _ _) as [e|ex'] eqn:Hchk; simpl; [discriminate|].
    intros [= <-]. apply (validation_raises_ValueError chk _ _ _ _) in Hchk;
      [exact Hchk|].
    destruct c; simpl in Hfc; try discriminate; injection Hfc as <- <-; eauto 8.
  - destruct c; try discriminate.
    + destruct (is_wildcard _); [|discriminate]. intros [= <-].
      unfold and_dow_error. eauto.
    + destruct (is_wildcard _); [|discriminate]. intros [= <-].
      unfold and_dom_error. eauto.
Qed.

Lemma apply_chain_raises_ValueError cs o ex :
  apply_chain cs o = Raise ex -> exists msg, ex = ValueError msg.
Proof.
  revert o. induction cs as [|c cs IH]; intros o; simpl; [discriminate|].
  destruct (apply_primitive c o) as [o1|ex1] eqn:H1; simpl.
  - apply IH.
  - intros [= <-]. exact (apply_primitive_raises_ValueError _ _ _ H1).
Qed.

(** X17. The builder raises nothing but [ValueError]: on a builder the
    constructor and the methods produced, a call that fails, alone or at
    any point of a chain, fails with a [ValueError] and with no other
    exception. *)
Theorem calls_raise_only_ValueError cs self s ex s' :
  built s self = true ->
  invoke_chain cs self s = (Raise ex, s') ->
  exists msg, ex = ValueError msg.
Proof.
  intros Hbuilt Hrun.
  destruct (built_observation _ _ Hbuilt) as [o [Ho _]].
  destruct (calls_simulation cs self s o Hbuilt Ho) as [r [s1 [Hr H]]].
  rewrite Hr in Hrun. injection Hrun as -> ->.
  destruct (apply_calls cs o) as [o'|ex'] eqn:Ha.
  - destruct H as [b' [Hb' _]]. discriminate.
  - injection H as <-. exact (apply_chain_raises_ValueError _ _ _ Ha).
Qed.

Lemma calls_raise_only_ValueError_witness :
  exists msg, ValueError "Interval must be positive, got 0" = ValueError msg.
Proof.
  exact (calls_raise_only_ValueError
           [Call_weekly None None None; Call_and_dom 40; Call_every_minutes 0]
           0%nat immutable_store
           (ValueError "Interval must be positive, got 0")
           (snd (invoke_chain
                   [Call_weekly None None None; Call_and_dom 40;
                    Call_every_minutes 0]
                   0%nat immutable_store))
           eq_refl eq_refl).
Defined.

(** X18. Rendering never fails and never writes: on a builder the
    constructor and the methods produced, [__str__] returns the five
    fields' renderings joined by single spaces, [__repr__] wraps that string
    in [CronBuilder('...')], and both leave the store as it was. *)
Theorem rendering_never_fails s self :
  wf_builder s self = true ->
  exists o,
    observe s self = Some o
    /\ CronBuilder.__str__ self s
       = (Ok (join " " (map rendered
                          [o_minute o; o_hour o; o_day_of_month o; o_month o;
                           o_day_of_week o])), s)
    /\ CronBuilder.__repr__ self s
       = (Ok ("CronBuilder('"
              +:+ join " " (map rendered
                              [o_minute o; o_hour o; o_day_of_month o; o_month o;
                               o_day_of_week o])
              +:+ "')"), s).
Proof.
  intros Hwf. destruct (wf_builder_observation _ _ Hwf) as [o [Ho [Hk _]]].
  exists o. split; [exact Ho|].
  assert (CronBuilder.__str__ self s
          = (Ok (join " " (map rendered
                             [o_minute o; o_hour o; o_day_of_month o; o_month o;
                              o_day_of_week o])), s)) as Hstr.
  { pose proof (rendered_to_cron_str _ (Hk Minute)) as H1.
    pose proof (rendered_to_cron_str _ (Hk Hour)) as H2.
    pose proof (rendered_to_cron_str _ (Hk DayOfMonth)) as H3.
    pose proof (rendered_to_cron_str _ (Hk MonthOfYear)) as H4.
    pose proof (rendered_to_cron_str _ (Hk DayOfWeek)) as H5.
    simpl in H1, H2, H3, H4, H5.
    rewrite (str_run _ _ _ Ho). unfold render_tokens.
    rewrite H1, H2, H3, H4, H5. reflexivity. }
  split; [exact Hstr|].
  unfold CronBuilder.__repr__. rewrite (bind_run_Ok _ _ _ _ _ Hstr). reflexivity.
Qed.

Lemma rendering_never_fails_witness :
  exists o,
    observe both_days_store 0%nat = Some o
    /\ CronBuilder.__str__ 0%nat both_days_store
       = (Ok (join " " (map rendered
                          [o_minute o; o_hour o; o_day_of_month o; o_month o;
                           o_day_of_week o])), both_days_store)
    /\ CronBuilder.__repr__ 0%nat both_days_store
       = (Ok ("CronBuilder('"
              +:+ join " " (map rendered
                              [o_minute o; o_hour o; o_day_of_month o; o_month o;
                               o_day_of_week o])
              +:+ "')"), both_days_store).
Proof.
  exact (rendering_never_fails both_days_store 0%nat eq_refl).
Defined.

(** X19. A step from the wildcard is a step from zero: on every value that
    is not negative, the expression [*/n] matches exactly what [0/n]
    matches (and both raise the same error for a step of zero). *)
Theorem step_from_wildcard_is_step_from_zero interval x :
  0 <= x ->
  CronExpr.matches (CronExpr.mk "step" [-1; interval]) x
  = CronExpr.matches (CronExpr.mk "step" [0; interval]) x.
Proof.
  intros Hx. unfold CronExpr.matches. simpl.
  assert ((x >=? 0) = true) as -> by (rewrite Z.geb_leb; apply Z.leb_le; exact Hx).
  rewrite Z.sub_0_r. reflexivity.
Qed.

Lemma step_from_wildcard_is_step_from_zero_witness :
  CronExpr.matches (CronExpr.mk "step" [-1; 15]) 45
  = CronExpr.matches (CronExpr.mk "step" [0; 15]) 45.
Proof.
  exact (step_from_wildcard_is_step_from_zero 15 45 ltac:(lia)).
Defined.

(** X20. The three ways to name one value agree: the expressions
    [value(v)], [list(v)] and [range(v, v)] match the same values, namely
    [v] alone, and the first two render the same. *)
Theorem single_value_forms_agree v x :
  CronExpr.matches (CronExpr.mk "value" [v]) x = Ok (x =? v)
  /\ CronExpr.matches (CronExpr.mk "list" [v]) x = Ok (x =? v)
  /\ CronExpr.matches (CronExpr.mk "range" [v; v]) x = Ok (x =? v)
  /\ CronExpr.to_cron_str (CronExpr.mk "list" [v])
     = CronExpr.to_cron_str (CronExpr.mk "value" [v]).
Proof.
  unfold CronExpr.matches, CronExpr.to_cron_str, join. simpl.
  split; [reflexivity|]. split; [rewrite orb_false_r; reflexivity|].
  split; [|reflexivity].
  destruct (v <=? x) eqn:H1; simpl.
  - f_equal. destruct (x <=? v) eqn:H2; symmetry.
    + apply Z.eqb_eq. apply Z.leb_le in H1, H2. lia.
    + apply Z.eqb_neq. apply Z.leb_le in H1. apply Z.leb_gt in H2. lia.
  - f_equal. symmetry. apply Z.eqb_neq. apply Z.leb_gt in H1. lia.
Qed.
